(** * Food rescue hub: route optimisation and confirmation workflow

    A shallow embedding of [foodbank/services/route_optimizer.py] and
    [foodbank/services/confirmation_workflow.py], with the properties of
    the route plan, the allocation, the stop sequences and the
    confirmation state machine stated and proved over it.

    Conventions of the embedding.
    - The weight of a donation is a Python number, [Py.num]: an [int],
      a [float] (a binary64 value, with the rounding of IEEE 754) or a
      [Decimal] (28 significant digits, halves to even).  A donation
      read from the database holds a [Decimal], as
      [FoodDonation.quantity_pounds] is a [DecimalField]; one built by
      [email_processor.py] holds a [float].  The arithmetic on weights
      is Python's: a [Decimal] and a [float] do not mix, and [+], [-],
      [*] and [/] between them raise [TypeError].
    - Coordinates and distances are exact rationals [Q].
      [geodesic_miles] stands for the [float] that geopy returns, read
      as the rational it denotes, and the division and the product of
      [_calculate_travel_time] are not rounded.  The weights, the clock
      and the score of a route plan ([_create_route_plan],
      [_calculate_efficiency_score]) are exact rationals as well.
    - Counters, minutes and primary keys are [Z]; a
      [PositiveIntegerField] is an [N].
    - A [datetime] is a number of minutes, a [date] a number of days.
    - Django model instances are records; [==] on them compares the
      primary key, as [django.db.models.Model.__eq__] does.
    - A Python [dict] whose iteration order is observable is an
      association list in insertion order; database tables keyed by
      primary key are [gmap]s.
    - Exceptions are a [result] type (pure code) or a state-and-error
      monad over the database (the confirmation workflow). *)

From Stdlib Require Import ZArith QArith Qabs Qround Qpower Lia Lqa List Permutation Sorted String Ascii Bool Floats.
From stdpp Require Import gmap.
Import ListNotations.

Local Open Scope Z_scope.

(** ** Python values and exceptions *)

(** The exceptions that the code can raise.  [LoopBound] is not one of
    Python's: it marks a [while] loop of the model that ran out of its
    bound, and the properties below show that it is never raised. *)
Inductive exn : Type :=
| DoesNotExist
| AttributeError
| KeyError
| ValueError
| ZeroDivisionError
| TypeError
| OverflowError
| InvalidOperation
| DatabaseError
| LoopBound.

Inductive result (A : Type) : Type :=
| Ok (a : A)
| Raise (e : exn).
Arguments Ok {A} a.
Arguments Raise {A} e.

#[global] Instance result_ret : MRet result := fun A a => Ok a.
#[global] Instance result_bind : MBind result := fun A B k r =>
  match r with
  | Ok a => k a
  | Raise e => Raise e
  end.

Module Py.

(** [int(x)] on a number: truncation toward zero. *)
Definition int (q : Q) : Z := Z.quot (Qnum q) (Zpos (Qden q)).

Definition Qltb (x y : Q) : bool := negb (Qle_bool y x).

Definition Qsum (l : list Q) : Q := fold_right Qplus (0#1)%Q l.

(** *** Numbers

    The three kinds of number that a weight can be.  A [Decimal] is
    the rational it denotes; its exponent, and with it the number of
    trailing zeros that [str] would print, is not kept. *)
Inductive num : Type :=
| Int (n : Z)
| Float (x : float)
| Decimal (d : Q).

(** What a number denotes. *)
Inductive value : Type :=
| Nan
| MinusInf
| Finite (q : Q)
| PlusInf.

Definition float_value (x : float) : value :=
  match Prim2SF x with
  | S754_nan => Nan
  | S754_infinity s => if s then MinusInf else PlusInf
  | S754_zero _ => Finite 0
  | S754_finite s m e =>
      Finite ((if s then - inject_Z (Zpos m) else inject_Z (Zpos m)) * Qpower (2 # 1) e)
  end.

Definition value_of (a : num) : value :=
  match a with
  | Int n => Finite (inject_Z n)
  | Float x => float_value x
  | Decimal d => Finite d
  end.

(** The rational that a finite number denotes; 0 for a NaN or an
    infinity. *)
Definition exact (a : num) : Q :=
  match value_of a with
  | Finite q => q
  | _ => 0%Q
  end.

Definition value_lt (u v : value) : bool :=
  match u, v with
  | Nan, _ | _, Nan => false
  | MinusInf, MinusInf => false
  | MinusInf, _ => true
  | _, MinusInf => false
  | PlusInf, _ => false
  | _, PlusInf => true
  | Finite p, Finite q => Qltb p q
  end.

(** [float(n)] for an [int]: the nearest binary64 value, and
    [OverflowError] when there is none. *)
Definition float_of_Z (n : Z) : float := SF2Prim (binary_normalize prec emax n 0 false).

Definition float_of_int (n : Z) : result float :=
  let x := float_of_Z n in
  if is_infinity x then Raise OverflowError else Ok x.

(** The default context of [decimal]: every result is rounded to 28
    significant digits, halves to even. *)
Fixpoint digits_from (fuel : nat) (n : Z) : Z :=
  match fuel with
  | O => 0
  | S fuel' => if n <? 10 then 1 else 1 + digits_from fuel' (n / 10)
  end.

(** The number of decimal digits of a positive integer. *)
Definition digits (n : Z) : Z := digits_from (S (Z.to_nat (Z.log2 n))) n.

(** The exponent of the leading digit of a positive rational. *)
Definition adjusted (x : Q) : Z :=
  let k := digits (Qnum x) - digits (Zpos (Qden x)) in
  if Qle_bool (Qpower (10 # 1) k) x then k else k - 1.

Definition round_half_even (y : Q) : Z :=
  let n := Qfloor y in
  let frac := (y - inject_Z n)%Q in
  if Qltb (1 # 2) frac then n + 1
  else if Qltb frac (1 # 2) then n
  else if Z.even n then n else n + 1.

Definition round28 (x : Q) : Q :=
  if Qeq_bool x 0 then 0%Q
  else
    let ulp := Qpower (10 # 1) (adjusted (Qabs x) - 27) in
    Qred (inject_Z (round_half_even (x / ulp)) * ulp).

(** [a + b], [a - b] and [a * b]: an [int] is converted to the kind of
    the other operand; a [Decimal] and a [float] raise [TypeError]. *)
Definition binop (fz : Z -> Z -> Z) (ff : float -> float -> float) (fq : Q -> Q -> Q)
    (a b : num) : result num :=
  match a, b with
  | Int m, Int n => Ok (Int (fz m n))
  | Int m, Float y => x ← float_of_int m; Ok (Float (ff x y))
  | Float x, Int n => y ← float_of_int n; Ok (Float (ff x y))
  | Float x, Float y => Ok (Float (ff x y))
  | Int m, Decimal e => Ok (Decimal (round28 (fq (inject_Z m) e)))
  | Decimal d, Int n => Ok (Decimal (round28 (fq d (inject_Z n))))
  | Decimal d, Decimal e => Ok (Decimal (round28 (fq d e)))
  | Decimal _, Float _ | Float _, Decimal _ => Raise TypeError
  end.

Definition add : num -> num -> result num := binop Z.add PrimFloat.add Qplus.
Definition sub : num -> num -> result num := binop Z.sub PrimFloat.sub Qminus.
Definition mul : num -> num -> result num := binop Z.mul PrimFloat.mul Qmult.

Definition float_div (x y : float) : result num :=
  if PrimFloat.eqb y 0 then Raise ZeroDivisionError else Ok (Float (x / y)).

Definition decimal_div (d e : Q) : result num :=
  if Qeq_bool e 0 then
    if Qeq_bool d 0 then Raise InvalidOperation else Raise ZeroDivisionError
  else Ok (Decimal (round28 (d / e))).

(** [a / b].  The quotient of two [int]s is the quotient of their
    [float]s, which is the correctly rounded quotient that Python
    computes when both are below 2^53. *)
Definition truediv (a b : num) : result num :=
  match a, b with
  | Int m, Int n =>
      if n =? 0 then Raise ZeroDivisionError
      else if m =? 0 then Ok (Float (if n <? 0 then (-0)%float else 0%float))
      else x ← float_of_int m; y ← float_of_int n; float_div x y
  | Int m, Float y => x ← float_of_int m; float_div x y
  | Float x, Int n => y ← float_of_int n; float_div x y
  | Float x, Float y => float_div x y
  | Int m, Decimal e => decimal_div (inject_Z m) e
  | Decimal d, Int n => decimal_div d (inject_Z n)
  | Decimal d, Decimal e => decimal_div d e
  | Decimal _, Float _ | Float _, Decimal _ => Raise TypeError
  end.

(** [a < b]; [a > b] is [lt b a].  Numbers of different kinds are
    compared by what they denote; a [Decimal] against a NaN raises
    [InvalidOperation]. *)
Definition lt (a b : num) : result bool :=
  match a, b with
  | Float x, Float y => Ok (PrimFloat.ltb x y)
  | Decimal _, Float y | Float y, Decimal _ =>
      if is_nan y then Raise InvalidOperation else Ok (value_lt (value_of a) (value_of b))
  | _, _ => Ok (value_lt (value_of a) (value_of b))
  end.

(** [int(a)]: truncation toward zero; [ValueError] for a NaN and
    [OverflowError] for an infinity. *)
Definition to_int (a : num) : result Z :=
  match value_of a with
  | Nan => Raise ValueError
  | MinusInf | PlusInf => Raise OverflowError
  | Finite q => Ok (int q)
  end.

(** [sum(l)]: from the [int] 0, left to right (from CPython 3.12 on a
    sum of [float]s is compensated, which changes no sum of at most two
    [float]s). *)
Fixpoint sum_from (acc : num) (l : list num) : result num :=
  match l with
  | [] => Ok acc
  | x :: l' => acc' ← add acc x; sum_from acc' l'
  end.

Definition sum (l : list num) : result num := sum_from (Int 0) l.

Definition Zsum (l : list Z) : Z := fold_right Z.add 0 l.

(** [sorted(l, key=key)]: a stable sort by an integer key.  Each
    element, taken from left to right, is inserted before the first
    element with a strictly greater key, hence after its equals. *)
Section Sorted.
Context {A : Type} (key : A -> Z).

Fixpoint insert_by (x : A) (l : list A) : list A :=
  match l with
  | [] => [x]
  | y :: l' => if key y <=? key x then y :: insert_by x l' else x :: y :: l'
  end.

Definition sorted (l : list A) : list A :=
  fold_left (fun acc x => insert_by x acc) l [].
End Sorted.

(** A [dict] with model instances as keys, in insertion order. *)
Section Dict.
Context {K V : Type} (pk : K -> Z).

Fixpoint dict_get (d : list (K * V)) (k : K) : option V :=
  match d with
  | [] => None
  | (k', v) :: d' => if pk k' =? pk k then Some v else dict_get d' k
  end.

(** [d[k] = v]: an existing key keeps its position and its key
  object; a new key goes last. *)
Fixpoint dict_set (d : list (K * V)) (k : K) (v : V) : list (K * V) :=
  match d with
  | [] => [(k, v)]
  | (k', v') :: d' =>
      if pk k' =? pk k then (k', v) :: d' else (k', v') :: dict_set d' k v
  end.

Definition dict_keys (d : list (K * V)) : list K := map fst d.
Definition dict_values (d : list (K * V)) : list V := map snd d.

(** [list.remove(x)]: drops the first element equal to [x], and raises
  [ValueError] when there is none. *)
Fixpoint list_remove (x : K) (l : list K) : result (list K) :=
  match l with
  | [] => Raise ValueError
  | y :: l' =>
      if pk y =? pk x then Ok l'
      else match list_remove x l' with
           | Ok r => Ok (y :: r)
           | Raise e => Raise e
           end
  end.
End Dict.

(** [str.lower()], [str.strip()] and [needle in haystack] on ASCII text. *)
Definition lower_ascii (c : ascii) : ascii :=
  let n := nat_of_ascii c in
  if andb (Nat.leb 65 n) (Nat.leb n 90) then ascii_of_nat (n + 32) else c.

Fixpoint lower (s : string) : string :=
  match s with
  | EmptyString => EmptyString
  | String c s' => String (lower_ascii c) (lower s')
  end.

Definition is_space (c : ascii) : bool :=
  let n := nat_of_ascii c in
  orb (Nat.eqb n 32)
    (orb (andb (Nat.leb 9 n) (Nat.leb n 13)) (andb (Nat.leb 28 n) (Nat.leb n 31))).

Fixpoint lstrip (s : string) : string :=
  match s with
  | EmptyString => EmptyString
  | String c s' => if is_space c then lstrip s' else s
  end.

Fixpoint rstrip (s : string) : string :=
  match s with
  | EmptyString => EmptyString
  | String c s' =>
      match rstrip s' with
      | EmptyString => if is_space c then EmptyString else String c EmptyString
      | r => String c r
      end
  end.

Definition strip (s : string) : string := rstrip (lstrip s).

Fixpoint startswith (p s : string) : bool :=
  match p, s with
  | EmptyString, _ => true
  | String _ _, EmptyString => false
  | String a p', String b s' => andb (Ascii.eqb a b) (startswith p' s')
  end.

(** [p in s] *)
Fixpoint contains (p s : string) : bool :=
  orb (startswith p s)
      (match s with
       | EmptyString => false
       | String _ s' => contains p s'
       end).

End Py.


(** ** The models ([foodbank/models.py]) *)

Module GroceryStore.
Record t : Type := {
  pk : Z;
  name : string;
  contact_person : string;
  email : string;
  phone : string;
  latitude : Q;
  longitude : Q
}.
End GroceryStore.

Module FoodBank.
Record t : Type := {
  pk : Z;
  name : string;
  contact_person : string;
  email : string;
  phone : string;
  latitude : Q;
  longitude : Q;
  daily_average_need_pounds : N;
  storage_capacity_pounds : N;
  can_self_pickup : bool;
  is_active : bool
}.
End FoodBank.

Module FoodDonation.
Record t : Type := {
  pk : Z;
  grocery_store : GroceryStore.t;
  quantity_pounds : Py.num;
  expiration_date : option Z;
  sell_by_date : option Z
}.
End FoodDonation.

Module Region.
Record t : Type := {
  center_latitude : Q;
  center_longitude : Q;
  truck_capacity_pounds : N;
  food_banks : list FoodBank.t
}.
End Region.

(** The dictionaries that [RouteOptimizer] passes around. *)

Module PickupInfo.
Record t : Type := {
  store : GroceryStore.t;
  donations : list FoodDonation.t;
  arrival_time : Z;
  pickup_duration : Z;
  total_weight : Q;
  estimated_arrival : option Z
}.
End PickupInfo.

Module DeliveryInfo.
Record t : Type := {
  food_bank : FoodBank.t;
  donations : list FoodDonation.t;
  travel_time : Z;
  delivery_duration : Z;
  total_weight : Q;
  estimated_arrival : option Z
}.
End DeliveryInfo.

Module RoutePlan.
Record t : Type := {
  target_date : Z;
  pickup_sequence : list PickupInfo.t;
  delivery_sequence : list DeliveryInfo.t;
  total_weight_pounds : Q;
  total_duration_minutes : Z;
  estimated_completion_time : Z;
  within_capacity : bool;
  within_time_limit : bool;
  efficiency_score : Q
}.
End RoutePlan.

(** Dates and times. *)

Definition date_of (t : Z) : Z := t / 1440.

(** [t.replace(hour=8, minute=0, second=0, microsecond=0)] keeps the day. *)
Definition at_8am (day : Z) : Z := day * 1440 + 480.

Definition weights (donations : list FoodDonation.t) : list Py.num :=
  map FoodDonation.quantity_pounds donations.

(** ** [RouteOptimizer] ([foodbank/services/route_optimizer.py]) *)

Module RouteOptimizer.
Section WithEnvironment.

(** [geopy.distance.geodesic(a, b).miles] for two points that geopy
    accepts, [timezone.now()] and [self.region]. *)
Variable geodesic_miles : Q * Q -> Q * Q -> Q.
Variable now : Z.
Variable region : Region.t.

(** geopy builds a [Point] from each pair of coordinates and raises
    [ValueError] for a latitude outside [-90, 90]; a longitude is
    brought back into range. *)
Definition valid_point (p : Q * Q) : bool :=
  andb (Qle_bool (- inject_Z 90) (fst p)) (Qle_bool (fst p) (inject_Z 90)).

(** The calls of [geodesic] in one scan for the nearest of [points]
    from [current_location]. *)
Definition check_points (current_location : Q * Q) (points : list (Q * Q)) : result unit :=
  match points with
  | [] => Ok tt
  | _ => if forallb valid_point (current_location :: points) then Ok tt
         else Raise ValueError
  end.

Definition truck_capacity : Z := Z.of_N (Region.truck_capacity_pounds region).
Definition max_duration_hours : Z := 4.

Definition store_location (s : GroceryStore.t) : Q * Q :=
  (GroceryStore.latitude s, GroceryStore.longitude s).
Definition bank_location (b : FoodBank.t) : Q * Q :=
  (FoodBank.latitude b, FoodBank.longitude b).
Definition region_center : Q * Q :=
  (Region.center_latitude region, Region.center_longitude region).

Definition _group_donations_by_store (donations : list FoodDonation.t)
  : list (GroceryStore.t * list FoodDonation.t) :=
  fold_left
    (fun store_donations donation =>
       let store := FoodDonation.grocery_store donation in
       let store_donations :=
         match Py.dict_get GroceryStore.pk store_donations store with
         | None => Py.dict_set GroceryStore.pk store_donations store []
         | Some _ => store_donations
         end in
       match Py.dict_get GroceryStore.pk store_donations store with
       | Some ds => Py.dict_set GroceryStore.pk store_donations store (ds ++ [donation])
       | None => store_donations
       end)
    donations [].

(** The running minimum of the nearest-neighbour scan; [None] is
    [float('inf')] for the distance and [None] for the location. *)
Definition nearer {L : Type} (location_of : L -> Q * Q) (current_location : Q * Q)
    (acc : option Q * option L) (x : L) : option Q * option L :=
  let distance := geodesic_miles current_location (location_of x) in
  match fst acc with
  | None => (Some distance, Some x)
  | Some min_distance =>
      if Py.Qltb distance min_distance then (Some distance, Some x) else acc
  end.

Definition _find_nearest_store (current_location : Q * Q)
    (stores : list GroceryStore.t) : option GroceryStore.t :=
  snd (fold_left (nearer store_location current_location) stores (None, None)).

Definition _find_nearest_bank (current_location : Q * Q)
    (banks : list FoodBank.t) : option FoodBank.t :=
  snd (fold_left (nearer bank_location current_location) banks (None, None)).

Definition travel_minutes (from_location to_location : Q * Q) : Z :=
  let distance_miles := geodesic_miles from_location to_location in
  let travel_time_hours := (distance_miles / inject_Z 25)%Q in
  let travel_time_minutes := Py.int (travel_time_hours * inject_Z 60)%Q in
  Z.max 5 (travel_time_minutes + 5).

Definition _calculate_travel_time (from_location : Q * Q) (to_store : GroceryStore.t) : Z :=
  travel_minutes from_location (store_location to_store).

Definition _calculate_travel_time_to_bank (from_location : Q * Q) (to_bank : FoodBank.t) : Z :=
  travel_minutes from_location (bank_location to_bank).

Definition _estimate_pickup_duration (donations : list FoodDonation.t) : result Z :=
  total_weight ← Py.sum (weights donations);
  let item_count := Z.of_nat (length donations) in
  let base_time := 10 in
  let item_time := item_count * 2 in
  weight_time ← Py.mul total_weight (Py.Float 0.5);
  minutes ← Py.add (Py.Int (base_time + item_time)) weight_time;
  minutes ← Py.to_int minutes;
  Ok (Z.max 15 minutes).

Definition _estimate_delivery_duration (donations : list FoodDonation.t) : result Z :=
  total_weight ← Py.sum (weights donations);
  let item_count := Z.of_nat (length donations) in
  let base_time := 15 in
  let item_time := item_count * 3 in
  weight_time ← Py.mul total_weight (Py.Float 0x1.999999999999ap-1);
  let unloading_time := 10 in
  minutes ← Py.add (Py.Int (base_time + item_time)) weight_time;
  minutes ← Py.add minutes (Py.Int unloading_time);
  minutes ← Py.to_int minutes;
  Ok (Z.max 20 minutes).

(** The [while unvisited_stores:] loop.  Every turn removes one store,
    so [fuel] = the number of stores suffices. *)
Fixpoint pickup_loop (fuel : nat)
    (store_donations : list (GroceryStore.t * list FoodDonation.t))
    (current_location : Q * Q) (unvisited_stores : list GroceryStore.t)
    (current_time : Z) : result (list PickupInfo.t) :=
  match unvisited_stores, fuel with
  | [], _ => Ok []
  | _ :: _, O => Raise LoopBound
  | _ :: _, S fuel' =>
      _ ← check_points current_location (map store_location unvisited_stores);
      match _find_nearest_store current_location unvisited_stores with
      | None => Raise ValueError
      | Some nearest_store =>
          unvisited_stores' ← Py.list_remove GroceryStore.pk nearest_store unvisited_stores;
          let travel_time := _calculate_travel_time current_location nearest_store in
          ds ← match Py.dict_get GroceryStore.pk store_donations nearest_store with
               | Some ds => Ok ds
               | None => Raise KeyError
               end;
          pickup_duration ← _estimate_pickup_duration ds;
          let current_time := current_time + travel_time in
          total_weight ← Py.sum (weights ds);
          let pickup_info :=
            {| PickupInfo.store := nearest_store;
               PickupInfo.donations := ds;
               PickupInfo.arrival_time := current_time;
               PickupInfo.pickup_duration := pickup_duration;
               PickupInfo.total_weight := Py.exact total_weight;
               PickupInfo.estimated_arrival := None |} in
          rest ← pickup_loop fuel' store_donations (store_location nearest_store)
                   unvisited_stores' (current_time + pickup_duration);
          Ok (pickup_info :: rest)
      end
  end.

Definition _optimize_pickup_sequence
    (store_donations : list (GroceryStore.t * list FoodDonation.t))
  : result (list PickupInfo.t) :=
  match store_donations with
  | [] => Ok []
  | _ =>
      let unvisited_stores := Py.dict_keys store_donations in
      let current_time := at_8am (date_of now) in
      let current_time := current_time + 1440 in
      pickup_loop (length unvisited_stores) store_donations region_center
        unvisited_stores current_time
  end.

(** [remaining_capacity < donation.quantity_pounds] is false, [w] being
    [current_weights[bank]]. *)
Definition has_room (donation : FoodDonation.t) (w : Py.num) (bank : FoodBank.t)
  : result bool :=
  remaining_capacity ←
    Py.sub (Py.Int (Z.of_N (FoodBank.storage_capacity_pounds bank))) w;
  too_heavy ← Py.lt remaining_capacity (FoodDonation.quantity_pounds donation);
  Ok (negb too_heavy).

(** The score of a bank that passed the capacity check. *)
Definition allocation_score (donation : FoodDonation.t) (w : Py.num) (total_daily_need : Z)
    (bank : FoodBank.t) : result Py.num :=
  need_ratio ←
    (if 0 <? total_daily_need
     then Py.truediv (Py.Int (Z.of_N (FoodBank.daily_average_need_pounds bank)))
            (Py.Int total_daily_need)
     else Ok (Py.Int 0));
  capacity_utilization ←
    Py.truediv w (Py.Int (Z.of_N (FoodBank.storage_capacity_pounds bank)));
  unused ← Py.sub (Py.Int 1) capacity_utilization;
  score ← Py.mul need_ratio unused;
  if FoodBank.can_self_pickup bank then
    heavy ← Py.lt (Py.Int 50) (FoodDonation.quantity_pounds donation);
    if heavy : bool then Py.mul score (Py.Float 0x1.3333333333333p+0) else Ok score
  else Ok score.

(** One turn of the [for bank in food_banks:] loop of
    [_find_best_bank_for_donation]: the new [(best_bank, best_score)]. *)
Definition best_bank_step (donation : FoodDonation.t)
    (current_weights : list (FoodBank.t * Py.num)) (total_daily_need : Z)
    (best : option FoodBank.t * Py.num) (bank : FoodBank.t)
  : result (option FoodBank.t * Py.num) :=
  w ← match Py.dict_get FoodBank.pk current_weights bank with
      | Some w => Ok w
      | None => Raise KeyError
      end;
  room ← has_room donation w bank;
  if room : bool then
    score ← allocation_score donation w total_daily_need bank;
    better ← Py.lt (snd best) score;
    if better : bool then Ok (Some bank, score) else Ok best
  else Ok best.

Fixpoint best_bank_loop (donation : FoodDonation.t) (food_banks : list FoodBank.t)
    (current_weights : list (FoodBank.t * Py.num)) (total_daily_need : Z)
    (best : option FoodBank.t * Py.num) : result (option FoodBank.t * Py.num) :=
  match food_banks with
  | [] => Ok best
  | bank :: rest =>
      best' ← best_bank_step donation current_weights total_daily_need best bank;
      best_bank_loop donation rest current_weights total_daily_need best'
  end.

Definition _find_best_bank_for_donation (donation : FoodDonation.t)
    (food_banks : list FoodBank.t) (current_weights : list (FoodBank.t * Py.num))
    (total_daily_need : Z) : result (option FoodBank.t) :=
  best ← best_bank_loop donation food_banks current_weights total_daily_need
           (None, Py.Int (-1));
  Ok (fst best).

(** The sort key of [_allocate_food_to_banks]:
    [d.expiration_date or timezone.now().date() + timedelta(days=365)]. *)
Definition urgency_key (d : FoodDonation.t) : Z :=
  match FoodDonation.expiration_date d with
  | Some e => e
  | None => date_of now + 365
  end.

Definition sorted_donations (donations : list FoodDonation.t) : list FoodDonation.t :=
  Py.sorted urgency_key donations.

(** The [for donation in sorted_donations:] loop, on the two
    dictionaries [bank_allocation] and [bank_current_weight]. *)
Fixpoint allocate_loop (sorted : list FoodDonation.t) (food_banks : list FoodBank.t)
    (total_daily_need : Z)
    (bank_allocation : list (FoodBank.t * list FoodDonation.t))
    (bank_current_weight : list (FoodBank.t * Py.num))
  : result (list (FoodBank.t * list FoodDonation.t)) :=
  match sorted with
  | [] => Ok bank_allocation
  | donation :: rest =>
      best_bank ← _find_best_bank_for_donation donation food_banks
                    bank_current_weight total_daily_need;
      match best_bank with
      | None => allocate_loop rest food_banks total_daily_need
                  bank_allocation bank_current_weight
      | Some best_bank =>
          match Py.dict_get FoodBank.pk bank_allocation best_bank,
                Py.dict_get FoodBank.pk bank_current_weight best_bank with
          | Some ds, Some w =>
              w' ← Py.add w (FoodDonation.quantity_pounds donation);
              allocate_loop rest food_banks total_daily_need
                (Py.dict_set FoodBank.pk bank_allocation best_bank (ds ++ [donation]))
                (Py.dict_set FoodBank.pk bank_current_weight best_bank w')
          | _, _ => Raise KeyError
          end
      end
  end.

Definition _allocate_food_to_banks (donations : list FoodDonation.t)
    (food_banks : list FoodBank.t)
  : result (list (FoodBank.t * list FoodDonation.t)) :=
  match food_banks with
  | [] => Ok []
  | _ =>
      let total_daily_need :=
        Py.Zsum (map (fun bank => Z.of_N (FoodBank.daily_average_need_pounds bank))
                   food_banks) in
      let total_capacity :=
        Py.Zsum (map (fun bank => Z.of_N (FoodBank.storage_capacity_pounds bank))
                   food_banks) in
      let sorted := sorted_donations donations in
      let bank_allocation :=
        fold_left (fun d bank => Py.dict_set FoodBank.pk d bank []) food_banks [] in
      let bank_current_weight :=
        fold_left (fun d bank => Py.dict_set FoodBank.pk d bank (Py.Int 0)) food_banks [] in
      allocate_loop sorted food_banks total_daily_need bank_allocation bank_current_weight
  end.

(** The [while unvisited_banks:] loop of [_optimize_delivery_sequence]. *)
Fixpoint delivery_loop (fuel : nat)
    (banks_with_food : list (FoodBank.t * list FoodDonation.t))
    (current_location : Q * Q) (unvisited_banks : list FoodBank.t)
  : result (list DeliveryInfo.t) :=
  match unvisited_banks, fuel with
  | [], _ => Ok []
  | _ :: _, O => Raise LoopBound
  | _ :: _, S fuel' =>
      _ ← check_points current_location (map bank_location unvisited_banks);
      match _find_nearest_bank current_location unvisited_banks with
      | None => Raise ValueError
      | Some nearest_bank =>
          unvisited_banks' ← Py.list_remove FoodBank.pk nearest_bank unvisited_banks;
          let travel_time := _calculate_travel_time_to_bank current_location nearest_bank in
          ds ← match Py.dict_get FoodBank.pk banks_with_food nearest_bank with
               | Some ds => Ok ds
               | None => Raise KeyError
               end;
          delivery_duration ← _estimate_delivery_duration ds;
          total_weight ← Py.sum (weights ds);
          let delivery_info :=
            {| DeliveryInfo.food_bank := nearest_bank;
               DeliveryInfo.donations := ds;
               DeliveryInfo.travel_time := travel_time;
               DeliveryInfo.delivery_duration := delivery_duration;
               DeliveryInfo.total_weight := Py.exact total_weight;
               DeliveryInfo.estimated_arrival := None |} in
          rest ← delivery_loop fuel' banks_with_food (bank_location nearest_bank)
                   unvisited_banks';
          Ok (delivery_info :: rest)
      end
  end.

Definition banks_with_food (food_allocation : list (FoodBank.t * list FoodDonation.t))
  : list (FoodBank.t * list FoodDonation.t) :=
  List.filter (fun kv => match snd kv with [] => false | _ => true end) food_allocation.

Definition _optimize_delivery_sequence
    (food_allocation : list (FoodBank.t * list FoodDonation.t))
  : result (list DeliveryInfo.t) :=
  let unvisited_banks := Py.dict_keys (banks_with_food food_allocation) in
  delivery_loop (length unvisited_banks) (banks_with_food food_allocation)
    region_center unvisited_banks.

(** The two [for] loops of [_create_route_plan]; each returns the
    annotated stops, the clock and the accumulated duration. *)
Fixpoint process_pickups (pickup_sequence : list PickupInfo.t)
    (current_time total_duration : Z) : list PickupInfo.t * Z * Z :=
  match pickup_sequence with
  | [] => ([], current_time, total_duration)
  | pickup :: rest =>
      let pickup' :=
        {| PickupInfo.store := PickupInfo.store pickup;
           PickupInfo.donations := PickupInfo.donations pickup;
           PickupInfo.arrival_time := PickupInfo.arrival_time pickup;
           PickupInfo.pickup_duration := PickupInfo.pickup_duration pickup;
           PickupInfo.total_weight := PickupInfo.total_weight pickup;
           PickupInfo.estimated_arrival := Some current_time |} in
      let current_time := current_time + PickupInfo.pickup_duration pickup in
      let total_duration := total_duration + PickupInfo.pickup_duration pickup in
      let '(rest', t, d) := process_pickups rest current_time total_duration in
      (pickup' :: rest', t, d)
  end.

Fixpoint process_deliveries (delivery_sequence : list DeliveryInfo.t)
    (current_time total_duration : Z) : list DeliveryInfo.t * Z * Z :=
  match delivery_sequence with
  | [] => ([], current_time, total_duration)
  | delivery :: rest =>
      let current_time := current_time + DeliveryInfo.travel_time delivery in
      let delivery' :=
        {| DeliveryInfo.food_bank := DeliveryInfo.food_bank delivery;
           DeliveryInfo.donations := DeliveryInfo.donations delivery;
           DeliveryInfo.travel_time := DeliveryInfo.travel_time delivery;
           DeliveryInfo.delivery_duration := DeliveryInfo.delivery_duration delivery;
           DeliveryInfo.total_weight := DeliveryInfo.total_weight delivery;
           DeliveryInfo.estimated_arrival := Some current_time |} in
      let current_time := current_time + DeliveryInfo.delivery_duration delivery in
      let total_duration :=
        total_duration
        + (DeliveryInfo.travel_time delivery + DeliveryInfo.delivery_duration delivery) in
      let '(rest', t, d) := process_deliveries rest current_time total_duration in
      (delivery' :: rest', t, d)
  end.

Definition Qmin100 (q : Q) : Q := if Py.Qltb q (inject_Z 100) then q else inject_Z 100.

(** [round(x, 1)]: to one decimal, halves to even. *)
Definition round1 (x : Q) : Q :=
  let y := (x * inject_Z 10)%Q in
  let n := Qfloor y in
  let frac := (y - inject_Z n)%Q in
  let up :=
    if Py.Qltb (1 # 2) frac then true
    else if Py.Qltb frac (1 # 2) then false
    else Z.odd n in
  (inject_Z (if up then n + 1 else n) / inject_Z 10)%Q.

Definition _calculate_efficiency_score (pickup_sequence : list PickupInfo.t)
    (delivery_sequence : list DeliveryInfo.t) : result Q :=
  match pickup_sequence, delivery_sequence with
  | [], [] => Ok 0%Q
  | _, _ =>
      let total_stops := Z.of_nat (length pickup_sequence) + Z.of_nat (length delivery_sequence) in
      let total_weight := Py.Qsum (map PickupInfo.total_weight pickup_sequence) in
      let distance_score := Qmin100 (inject_Z 1000 / inject_Z (Z.max 1 (total_stops * 5)))%Q in
      capacity_score ←
        (if truck_capacity =? 0 then Raise ZeroDivisionError
         else Ok (Qmin100 ((total_weight / inject_Z truck_capacity) * inject_Z 100)%Q));
      let total_duration :=
        Py.Zsum (map PickupInfo.pickup_duration pickup_sequence)
        + Py.Zsum (map DeliveryInfo.delivery_duration delivery_sequence) in
      let time_score :=
        Qmin100 ((inject_Z total_duration / inject_Z (max_duration_hours * 60))
                 * inject_Z 100)%Q in
      let efficiency_score :=
        (distance_score * (3 # 10) + capacity_score * (4 # 10) + time_score * (3 # 10))%Q in
      Ok (round1 efficiency_score)
  end.

Definition _create_route_plan (pickup_sequence : list PickupInfo.t)
    (delivery_sequence : list DeliveryInfo.t) (target_date : Z) : result RoutePlan.t :=
  let total_duration := 0 in
  let current_time := at_8am target_date in
  let '(pickup_sequence, current_time, total_duration) :=
    process_pickups pickup_sequence current_time total_duration in
  let '(delivery_sequence, current_time, total_duration) :=
    process_deliveries delivery_sequence current_time total_duration in
  let total_weight := Py.Qsum (map PickupInfo.total_weight pickup_sequence) in
  efficiency ← _calculate_efficiency_score pickup_sequence delivery_sequence;
  Ok {| RoutePlan.target_date := target_date;
        RoutePlan.pickup_sequence := pickup_sequence;
        RoutePlan.delivery_sequence := delivery_sequence;
        RoutePlan.total_weight_pounds := total_weight;
        RoutePlan.total_duration_minutes := total_duration;
        RoutePlan.estimated_completion_time := current_time;
        RoutePlan.within_capacity := Qle_bool total_weight (inject_Z truck_capacity);
        RoutePlan.within_time_limit := total_duration <=? max_duration_hours * 60;
        RoutePlan.efficiency_score := efficiency |}.

Definition optimize_route (donations : list FoodDonation.t) (target_date : option Z)
  : result RoutePlan.t :=
  let target_date :=
    match target_date with
    | Some d => d
    | None => date_of (now + 1440)
    end in
  let store_donations := _group_donations_by_store donations in
  let food_banks := List.filter FoodBank.is_active (Region.food_banks region) in
  pickup_sequence ← _optimize_pickup_sequence store_donations;
  food_allocation ← _allocate_food_to_banks donations food_banks;
  delivery_sequence ← _optimize_delivery_sequence food_allocation;
  _create_route_plan pickup_sequence delivery_sequence target_date.

End WithEnvironment.
End RouteOptimizer.

(** ** The stored records of the confirmation workflow *)

Module DeliveryRoute.
Record t : Type := {
  id : Z;
  scheduled_date : Z;
  driver_team : string;
  truck_identifier : string
}.
End DeliveryRoute.

(** A [RouteStop] row; its primary key is the key of the table. *)
Module RouteStop.
Record t : Type := {
  route : Z;
  stop_order : Z;
  stop_type : string;
  grocery_store : option GroceryStore.t;
  food_bank : option FoodBank.t;
  estimated_arrival_time : Z;
  estimated_duration_minutes : Z;
  is_confirmed : bool;
  confirmed_at : option Z;
  notes : string
}.
End RouteStop.

(** An [EmailScheduleNotification] row; its primary key is its
    position in the table. *)
Module Notification.
Record t : Type := {
  notification_type : string;
  recipient_email : string;
  subject : string;
  message_body : string;
  route_stop : option Z;
  sent_at : option Z;
  is_sent : bool;
  response_received : bool;
  response_content : string;
  created_at : Z
}.
End Notification.

(** The database, the clock, and the schedule of faults: each database
    write, and each query that is iterated outside a [try], consumes
    one flag, and [true] makes that access raise [DatabaseError] and
    change nothing. *)
Record World : Type := {
  db_routes : gmap Z DeliveryRoute.t;
  db_stops : gmap Z RouteStop.t;
  db_notifications : list Notification.t;
  clock : Z;
  db_faults : list bool
}.

Definition M (A : Type) : Type := World -> result A * World.

#[global] Instance M_ret : MRet M := fun A a w => (Ok a, w).
#[global] Instance M_bind : MBind M := fun A B k m w =>
  match m w with
  | (Ok a, w') => k a w'
  | (Raise e, w') => (Raise e, w')
  end.

Definition raise {A} (e : exn) : M A := fun w => (Raise e, w).

Definition lift {A} (r : result A) : M A := fun w => (r, w).

(** [try: body  except Exception as e: handler(e)] *)
Definition try_except {A} (body : M A) (handler : exn -> M A) : M A := fun w =>
  match body w with
  | (Ok a, w') => (Ok a, w')
  | (Raise e, w') => handler e w'
  end.

Definition get_world : M World := fun w => (Ok w, w).

Definition timezone_now : M Z := fun w => (Ok (clock w), w).

Definition with_faults (fs : list bool) (w : World) : World :=
  {| db_routes := db_routes w; db_stops := db_stops w;
     db_notifications := db_notifications w; clock := clock w; db_faults := fs |}.

Definition db_write (f : World -> World) : M unit := fun w =>
  match db_faults w with
  | [] => (Ok tt, f w)
  | false :: fs => (Ok tt, f (with_faults fs w))
  | true :: fs => (Raise DatabaseError, with_faults fs w)
  end.

(** The evaluation of a query set outside a [try].  The queries made
    inside a [try] are not given faults of their own: the handlers of
    the service treat every exception alike. *)
Definition db_query {A : Type} (rows : World -> A) : M A := fun w =>
  let w' := with_faults (tail (db_faults w)) w in
  match db_faults w with
  | true :: _ => (Raise DatabaseError, w')
  | _ => (Ok (rows w'), w')
  end.

Definition put_stop (id : Z) (s : RouteStop.t) (w : World) : World :=
  {| db_routes := db_routes w; db_stops := <[id := s]> (db_stops w);
     db_notifications := db_notifications w; clock := clock w; db_faults := db_faults w |}.

Definition put_notification (i : nat) (n : Notification.t) (w : World) : World :=
  {| db_routes := db_routes w; db_stops := db_stops w;
     db_notifications := <[i := n]> (db_notifications w);
     clock := clock w; db_faults := db_faults w |}.

Definition add_notification (n : Notification.t) (w : World) : World :=
  {| db_routes := db_routes w; db_stops := db_stops w;
     db_notifications := db_notifications w ++ [n];
     clock := clock w; db_faults := db_faults w |}.

(** Query sets. *)

(** [route.stops.all()], in the model's default ordering by [stop_order]. *)
Definition route_stops (route : DeliveryRoute.t) (w : World) : list (Z * RouteStop.t) :=
  Py.sorted (fun s => RouteStop.stop_order (snd s))
    (List.filter (fun s => RouteStop.route (snd s) =? DeliveryRoute.id route)
       (map_to_list (db_stops w))).

Definition filter_stop_type (ty : string) (stops : list (Z * RouteStop.t))
  : list (Z * RouteStop.t) :=
  List.filter (fun s => String.eqb (RouteStop.stop_type (snd s)) ty) stops.

Definition filter_confirmed (stops : list (Z * RouteStop.t)) : list (Z * RouteStop.t) :=
  List.filter (fun s => RouteStop.is_confirmed (snd s)) stops.

Definition count {A} (l : list A) : Z := Z.of_nat (length l).

(** [RouteStop.objects.get(id=stop_id)] *)
Definition get_stop (stop_id : Z) : M (Z * RouteStop.t) := fun w =>
  match db_stops w !! stop_id with
  | Some s => (Ok (stop_id, s), w)
  | None => (Raise DoesNotExist, w)
  end.

Definition sent_for (stop_id : Z) (n : Notification.t) : bool :=
  andb (match Notification.route_stop n with
        | Some i => i =? stop_id
        | None => false
        end)
       (Notification.is_sent n).

(** [EmailScheduleNotification.objects.filter(route_stop=stop,
    is_sent=True).first()], in the model's default ordering by
    [-created_at]: a matching row with the greatest [created_at].
    Among rows created at the same time the database is free to return
    any; the model takes the last of the table, and the properties that
    name the row are stated for rows created at different times. *)
Definition first_sent (stop_id : Z) (ns : list Notification.t)
  : option (nat * Notification.t) :=
  fold_left
    (fun best '(i, n) =>
       if sent_for stop_id n then
         match best with
         | None => Some (i, n)
         | Some (_, b) =>
             if Notification.created_at b <=? Notification.created_at n
             then Some (i, n) else best
         end
       else best)
    (combine (seq 0 (length ns)) ns) None.

(** [EmailScheduleNotification.objects.create(...)] *)
Definition create_notification (notification_type recipient_email subject message_body : string)
    (route_stop : Z) : M (nat * Notification.t) := fun w =>
  let n :=
    {| Notification.notification_type := notification_type;
       Notification.recipient_email := recipient_email;
       Notification.subject := subject;
       Notification.message_body := message_body;
       Notification.route_stop := Some route_stop;
       Notification.sent_at := None;
       Notification.is_sent := false;
       Notification.response_received := false;
       Notification.response_content := EmptyString;
       Notification.created_at := clock w |} in
  match db_write (add_notification n) w with
  | (Ok _, w') => (Ok (length (db_notifications w), n), w')
  | (Raise e, w') => (Raise e, w')
  end.

(** The dictionaries the service returns. *)

Module BatchResult.
Record t : Type := { sent : Z; failed : Z; total : Z }.
End BatchResult.

Module Response.
Record t : Type := {
  stop_id : Z;
  processed : bool;
  action : option string;
  message : string
}.
End Response.

Module Tally.
Record t : Type := { total : Z; confirmed : Z; pending : Z }.
End Tally.

Module Status.
Record t : Type := {
  route_id : Z;
  total_stops : Z;
  confirmed_stops : Z;
  pending_stops : Z;
  confirmation_rate : Q;
  pickup_confirmations : Tally.t;
  delivery_confirmations : Tally.t;
  ready_for_execution : bool
}.
End Status.

(** ** [ConfirmationWorkflowService]
    ([foodbank/services/confirmation_workflow.py]) *)

Module ConfirmationWorkflowService.
Section WithRendering.

(** The text of dates and exceptions and the bodies of the e-mails are
    not modelled: the three generators read the database and the stop,
    and may raise. *)
Variable str_date : Z -> string.
Variable str_exn : exn -> string.
Variable _generate_pickup_confirmation_email : World -> Z * RouteStop.t -> result string.
Variable _generate_delivery_confirmation_email : World -> Z * RouteStop.t -> result string.
Variable _generate_schedule_change_email :
  World -> Z * RouteStop.t -> string -> result string.

(** [stop.route] *)
Definition stop_route (stop : Z * RouteStop.t) : M DeliveryRoute.t := fun w =>
  match db_routes w !! RouteStop.route (snd stop) with
  | Some r => (Ok r, w)
  | None => (Raise DoesNotExist, w)
  end.

Definition mark_sent (n : Notification.t) (now : Z) : Notification.t :=
  {| Notification.notification_type := Notification.notification_type n;
     Notification.recipient_email := Notification.recipient_email n;
     Notification.subject := Notification.subject n;
     Notification.message_body := Notification.message_body n;
     Notification.route_stop := Notification.route_stop n;
     Notification.sent_at := Some now;
     Notification.is_sent := true;
     Notification.response_received := Notification.response_received n;
     Notification.response_content := Notification.response_content n;
     Notification.created_at := Notification.created_at n |}.

Definition _send_email (to_email subject message : string)
    (notification : nat * Notification.t) : M bool :=
  try_except
    (now ← timezone_now;
     _ ← db_write (put_notification (fst notification) (mark_sent (snd notification) now));
     mret true)
    (fun e => mret false).

Definition _send_pickup_confirmation (stop : Z * RouteStop.t) : M bool :=
  try_except
    (match RouteStop.grocery_store (snd stop) with
     | None => mret false
     | Some grocery_store =>
         route ← stop_route stop;
         let subject :=
           String.append "Pickup Confirmation Required - "
             (str_date (DeliveryRoute.scheduled_date route)) in
         w ← get_world;
         message_body ← lift (_generate_pickup_confirmation_email w stop);
         notification ← create_notification "pickup_confirmation"
                          (GroceryStore.email grocery_store) subject message_body (fst stop);
         _send_email (GroceryStore.email grocery_store) subject message_body notification
     end)
    (fun e => mret false).

Definition _send_delivery_confirmation (stop : Z * RouteStop.t) : M bool :=
  try_except
    (match RouteStop.food_bank (snd stop) with
     | None => mret false
     | Some food_bank =>
         route ← stop_route stop;
         let subject :=
           String.append "Delivery Schedule Confirmation - "
             (str_date (DeliveryRoute.scheduled_date route)) in
         w ← get_world;
         message_body ← lift (_generate_delivery_confirmation_email w stop);
         notification ← create_notification "delivery_confirmation"
                          (FoodBank.email food_bank) subject message_body (fst stop);
         _send_email (FoodBank.email food_bank) subject message_body notification
     end)
    (fun e => mret false).

(** The body of the [try] of [send_schedule_change_notifications]. *)
Definition _send_schedule_change (route : DeliveryRoute.t) (change_reason : string)
    (stop : Z * RouteStop.t) : M bool :=
  recipient_email ←
    (if String.eqb (RouteStop.stop_type (snd stop)) "pickup" then
       match RouteStop.grocery_store (snd stop) with
       | Some grocery_store => mret (GroceryStore.email grocery_store)
       | None => raise AttributeError
       end
     else
       match RouteStop.food_bank (snd stop) with
       | Some food_bank => mret (FoodBank.email food_bank)
       | None => raise AttributeError
       end);
  let subject :=
    String.append "Schedule Change Notification - "
      (str_date (DeliveryRoute.scheduled_date route)) in
  w ← get_world;
  message_body ← lift (_generate_schedule_change_email w stop change_reason);
  notification ← create_notification "schedule_change" recipient_email subject
                   message_body (fst stop);
  _send_email recipient_email subject message_body notification.

(** [for stop in stops: try: ... except Exception: failed_count += 1] *)
Fixpoint tally_loop (send : Z * RouteStop.t -> M bool) (stops : list (Z * RouteStop.t))
    (sent_count failed_count : Z) : M (Z * Z) :=
  match stops with
  | [] => mret (sent_count, failed_count)
  | stop :: rest =>
      counts ← try_except
                 (success ← send stop;
                  if success : bool then mret (sent_count + 1, failed_count)
                  else mret (sent_count, failed_count + 1))
                 (fun e => mret (sent_count, failed_count + 1));
      tally_loop send rest (fst counts) (snd counts)
  end.

Definition send_batch (send : Z * RouteStop.t -> M bool) (stops : list (Z * RouteStop.t))
  : M BatchResult.t :=
  counts ← tally_loop send stops 0 0;
  mret {| BatchResult.sent := fst counts;
          BatchResult.failed := snd counts;
          BatchResult.total := count stops |}.



Definition send_schedule_change_notifications (route : DeliveryRoute.t)
    (change_reason : string) : M BatchResult.t :=
  stops ← db_query (route_stops route);
  send_batch (_send_schedule_change route change_reason) stops.

Definition confirm_stop (s : RouteStop.t) (now : Z) : RouteStop.t :=
  {| RouteStop.route := RouteStop.route s;
     RouteStop.stop_order := RouteStop.stop_order s;
     RouteStop.stop_type := RouteStop.stop_type s;
     RouteStop.grocery_store := RouteStop.grocery_store s;
     RouteStop.food_bank := RouteStop.food_bank s;
     RouteStop.estimated_arrival_time := RouteStop.estimated_arrival_time s;
     RouteStop.estimated_duration_minutes := RouteStop.estimated_duration_minutes s;
     RouteStop.is_confirmed := true;
     RouteStop.confirmed_at := Some now;
     RouteStop.notes := RouteStop.notes s |}.

Definition set_notes (s : RouteStop.t) (notes : string) : RouteStop.t :=
  {| RouteStop.route := RouteStop.route s;
     RouteStop.stop_order := RouteStop.stop_order s;
     RouteStop.stop_type := RouteStop.stop_type s;
     RouteStop.grocery_store := RouteStop.grocery_store s;
     RouteStop.food_bank := RouteStop.food_bank s;
     RouteStop.estimated_arrival_time := RouteStop.estimated_arrival_time s;
     RouteStop.estimated_duration_minutes := RouteStop.estimated_duration_minutes s;
     RouteStop.is_confirmed := RouteStop.is_confirmed s;
     RouteStop.confirmed_at := RouteStop.confirmed_at s;
     RouteStop.notes := notes |}.

Definition record_response (n : Notification.t) (response_content : string)
  : Notification.t :=
  {| Notification.notification_type := Notification.notification_type n;
     Notification.recipient_email := Notification.recipient_email n;
     Notification.subject := Notification.subject n;
     Notification.message_body := Notification.message_body n;
     Notification.route_stop := Notification.route_stop n;
     Notification.sent_at := Notification.sent_at n;
     Notification.is_sent := Notification.is_sent n;
     Notification.response_received := true;
     Notification.response_content := response_content;
     Notification.created_at := Notification.created_at n |}.

Definition response (stop_id : Z) (processed : bool) (action : option string)
    (message : string) : Response.t :=
  {| Response.stop_id := stop_id; Response.processed := processed;
     Response.action := action; Response.message := message |}.

Definition process_email_response (stop_id : Z) (response_content : string)
  : M Response.t :=
  try_except
    (stop ← get_stop stop_id;
     let response_lower := Py.strip (Py.lower response_content) in
     if Py.contains "confirmed" response_lower then
       now ← timezone_now;
       let stop' := confirm_stop (snd stop) now in
       _ ← db_write (put_stop (fst stop) stop');
       w ← get_world;
       _ ← match first_sent (fst stop) (db_notifications w) with
           | Some notification =>
               db_write (put_notification (fst notification)
                           (record_response (snd notification) response_content))
           | None => mret tt
           end;
       mret (response stop_id true (Some "confirmed"%string)
               "Pickup/delivery confirmed successfully")
     else if Py.contains "reschedule" response_lower then
       _ ← db_write (put_stop (fst stop)
                       (set_notes (snd stop)
                          (String.append "Reschedule requested: " response_content)));
       mret (response stop_id true (Some "reschedule_requested"%string)
               "Reschedule request received - manual review required")
     else
       _ ← db_write (put_stop (fst stop)
                       (set_notes (snd stop)
                          (String.append "Response received: " response_content)));
       mret (response stop_id true (Some "response_recorded"%string)
               "Response recorded - may require manual review"))
    (fun e =>
       match e with
       | DoesNotExist => mret (response stop_id false None "Route stop not found")
       | _ => mret (response stop_id false None
                      (String.append "Error processing response: " (str_exn e)))
       end).

Definition check_pending_confirmations (route : DeliveryRoute.t) (w : World) : Status.t :=
  let stops := route_stops route w in
  let total_stops := count stops in
  let confirmed_stops := count (filter_confirmed stops) in
  let pending_stops := total_stops - confirmed_stops in
  let pickup_stops := filter_stop_type "pickup" stops in
  let delivery_stops := filter_stop_type "delivery" stops in
  let confirmed_pickups := count (filter_confirmed pickup_stops) in
  let confirmed_deliveries := count (filter_confirmed delivery_stops) in
  {| Status.route_id := DeliveryRoute.id route;
     Status.total_stops := total_stops;
     Status.confirmed_stops := confirmed_stops;
     Status.pending_stops := pending_stops;
     Status.confirmation_rate :=
       if 0 <? total_stops
       then (inject_Z confirmed_stops / inject_Z total_stops * inject_Z 100)%Q
       else 0%Q;
     Status.pickup_confirmations :=
       {| Tally.total := count pickup_stops;
          Tally.confirmed := confirmed_pickups;
          Tally.pending := count pickup_stops - confirmed_pickups |};
     Status.delivery_confirmations :=
       {| Tally.total := count delivery_stops;
          Tally.confirmed := confirmed_deliveries;
          Tally.pending := count delivery_stops - confirmed_deliveries |};
     Status.ready_for_execution := pending_stops =? 0 |}.

End WithRendering.
End ConfirmationWorkflowService.

(** * Notions used in the statements *)

(** Ascending order of a key. *)
Definition key_le {A : Type} (key : A -> Z) (x y : A) : Prop := key x <= key y.

Definition capacity (bank : FoodBank.t) : Q :=
  inject_Z (Z.of_N (FoodBank.storage_capacity_pounds bank)).

(** The weight of a donation, as a rational. *)
Definition pounds (d : FoodDonation.t) : Q := Py.exact (FoodDonation.quantity_pounds d).

(** A donation read from the table: its weight is a [Decimal]. *)
Definition from_table (d : FoodDonation.t) : Prop :=
  match FoodDonation.quantity_pounds d with
  | Py.Decimal _ => True
  | _ => False
  end.

(** A donation that the table can hold, the column being
    [DecimalField(max_digits=8, decimal_places=2)]: a positive number
    of hundredths of a pound, below 10^8. *)
Definition stored (d : FoodDonation.t) : Prop :=
  exists cents : Z,
    FoodDonation.quantity_pounds d = Py.Decimal (cents # 100) /\ 0 < cents < 10 ^ 8.

(** The greatest value of a [PositiveIntegerField]. *)
Definition max_positive_integer : Z := 2147483647.

(** The scenario of the specification: a store with two donations and
    two food banks, in a region whose truck carries 2000 pounds; then a
    second store, the market, farther from the centre of the region,
    and a third bank, the pantry, which can pick up by itself.  The
    weight of a [donation] is a [float], as [email_processor.py] builds
    it; the weight of a [row] is a [Decimal] given in hundredths of a
    pound, as the table returns it. *)
Module Scenario.

Definition store : GroceryStore.t :=
  {| GroceryStore.pk := 1; GroceryStore.name := "Store";
     GroceryStore.contact_person := "Sam"; GroceryStore.email := "store@example.org";
     GroceryStore.phone := "555-0100";
     GroceryStore.latitude := 338 # 10; GroceryStore.longitude := - (844 # 10) |}.

Definition market : GroceryStore.t :=
  {| GroceryStore.pk := 2; GroceryStore.name := "Market";
     GroceryStore.contact_person := "Alex"; GroceryStore.email := "market@example.org";
     GroceryStore.phone := "555-0102";
     GroceryStore.latitude := 341 # 10; GroceryStore.longitude := - (841 # 10) |}.

Definition donation_from (store : GroceryStore.t) (pk : Z) (pounds : Z)
    (expiration sell_by : option Z) : FoodDonation.t :=
  {| FoodDonation.pk := pk; FoodDonation.grocery_store := store;
     FoodDonation.quantity_pounds := Py.Float (Py.float_of_Z pounds);
     FoodDonation.expiration_date := expiration;
     FoodDonation.sell_by_date := sell_by |}.

Definition donation : Z -> Z -> option Z -> option Z -> FoodDonation.t :=
  donation_from store.

Definition row (store : GroceryStore.t) (pk : Z) (cents : Z)
    (expiration sell_by : option Z) : FoodDonation.t :=
  {| FoodDonation.pk := pk; FoodDonation.grocery_store := store;
     FoodDonation.quantity_pounds := Py.Decimal (cents # 100);
     FoodDonation.expiration_date := expiration;
     FoodDonation.sell_by_date := sell_by |}.

Definition bank (pk : Z) (need capacity : N) : FoodBank.t :=
  {| FoodBank.pk := pk; FoodBank.name := "Bank";
     FoodBank.contact_person := "Robin"; FoodBank.email := "bank@example.org";
     FoodBank.phone := "555-0101";
     FoodBank.latitude := 337 # 10; FoodBank.longitude := - (843 # 10);
     FoodBank.daily_average_need_pounds := need;
     FoodBank.storage_capacity_pounds := capacity;
     FoodBank.can_self_pickup := false; FoodBank.is_active := true |}.


Definition banks : list FoodBank.t := [bank 1 500 1000; bank 2 100 1000].

Definition donations : list FoodDonation.t :=
  [donation 1 20 (Some 1) None; donation 2 30 (Some 10) None].

Definition region (food_banks : list FoodBank.t) : Region.t :=
  {| Region.center_latitude := 33749 # 1000; Region.center_longitude := - (84388 # 1000);
     Region.truck_capacity_pounds := 2000; Region.food_banks := food_banks |}.

(** A stand-in for the geodesic distance, in miles. *)
Definition miles (a b : Q * Q) : Q :=
  (Qabs (fst a - fst b) * inject_Z 69 + Qabs (snd a - snd b) * inject_Z 58)%Q.



End Scenario.

(** The weight that a bucket holds. *)
Definition load (ds : list FoodDonation.t) : Q := Py.Qsum (map pounds ds).

(** The running weight of a bank agrees with the weight of its bucket:
    it is the [int] 0 that the dictionary starts from, or the [Decimal]
    of the sum. *)
Definition tracks (w : Py.num) (q : Q) : Prop :=
  (w = Py.Int 0 /\ (q == 0)%Q) \/ (exists c, w = Py.Decimal c /\ (c == q)%Q).

(** A bucket of stored rows with its running weight: the weight is a
    number of hundredths and fits the capacity of the bank. *)
Definition bucket_ok (bank : FoodBank.t) (ds : list FoodDonation.t) (w : Py.num) : Prop :=
  tracks w (load ds)
  /\ (exists n : Z, (load ds == n # 100)%Q /\ 0 <= n)
  /\ (load ds <= capacity bank)%Q.

(** The banks and the running weights of a state of the loop: the
    entries of [W] stand at the positions of the buckets of [A]. *)
Definition entry_ok (a : FoodBank.t * list FoodDonation.t) (e : FoodBank.t * Py.num)
  : Prop :=
  fst e = fst a /\ bucket_ok (fst a) (snd a) (snd e).

(** What the scan of the banks for the donation [d] needs of a bucket:
    its running weight is in [W], the capacity of its bank is a
    [PositiveIntegerField], and a bank that can pick up by itself is
    not offered more than 50 pounds. *)
Definition scanned (d : FoodDonation.t) (W : list (FoodBank.t * Py.num))
    (a : FoodBank.t * list FoodDonation.t) : Prop :=
  (exists w, Py.dict_get FoodBank.pk W (fst a) = Some w /\ bucket_ok (fst a) (snd a) w)
  /\ Z.of_N (FoodBank.storage_capacity_pounds (fst a)) <= max_positive_integer
  /\ (FoodBank.can_self_pickup (fst a) = true -> (pounds d <= inject_Z 50)%Q).

(** The two zero scores: [0.0] and [Decimal(0)]. *)
Definition zero_score (s : Py.num) : Prop := s = Py.Float 0 \/ s = Py.Decimal 0.

(** First fit: each donation, in the order given, goes into the bucket
    of the first bank of the list whose remaining capacity is at least
    its weight, and into none when there is no such bank. *)
Definition fits (d : FoodDonation.t) (bucket : FoodBank.t * list FoodDonation.t) : bool :=
  Qle_bool (pounds d) (capacity (fst bucket) - load (snd bucket)).

Fixpoint place (d : FoodDonation.t) (buckets : list (FoodBank.t * list FoodDonation.t))
  : list (FoodBank.t * list FoodDonation.t) :=
  match buckets with
  | [] => []
  | bucket :: rest =>
      if fits d bucket then (fst bucket, snd bucket ++ [d]) :: rest
      else bucket :: place d rest
  end.

Definition first_fit (sorted : list FoodDonation.t) (food_banks : list FoodBank.t)
  : list (FoodBank.t * list FoodDonation.t) :=
  fold_left (fun buckets d => place d buckets) sorted
    (map (fun bank => (bank, [])) food_banks).

Definition total_daily_need (food_banks : list FoodBank.t) : Z :=
  Py.Zsum (map (fun bank => Z.of_N (FoodBank.daily_average_need_pounds bank)) food_banks).

(** The sort key in the words of the amended claim: the expiration
    date, and today + 365 days for a donation that has none. *)
Definition expiration_or_next_year (now : Z) (d : FoodDonation.t) : Z :=
  match FoodDonation.expiration_date d with
  | Some expiration => expiration
  | None => date_of now + 365
  end.

(** The urgency date in the words of the specification: the nearest of
    the expiration and sell-by dates, or today + 365 days when a
    donation has neither. *)
Definition nearest_date_key (now : Z) (d : FoodDonation.t) : Z :=
  match FoodDonation.expiration_date d, FoodDonation.sell_by_date d with
  | Some e, Some s => Z.min e s
  | Some e, None => e
  | None, Some s => s
  | None, None => date_of now + 365
  end.

(** The travel time before each pickup, read off the clock of
    [_optimize_pickup_sequence]: the arrival time minus the time the
    truck left the previous stop. *)
Fixpoint pickup_travel_times (clock : Z) (pickup_sequence : list PickupInfo.t) : list Z :=
  match pickup_sequence with
  | [] => []
  | pickup :: rest =>
      (PickupInfo.arrival_time pickup - clock)
      :: pickup_travel_times
           (PickupInfo.arrival_time pickup + PickupInfo.pickup_duration pickup) rest
  end.

(** The total duration in the words of the specification: all dwell
    durations and all travel times of both sequences. *)
Definition spec_total_duration (now : Z) (plan : RoutePlan.t) : Z :=
  Py.Zsum (map PickupInfo.pickup_duration (RoutePlan.pickup_sequence plan))
  + Py.Zsum (pickup_travel_times (at_8am (date_of now) + 1440)
               (RoutePlan.pickup_sequence plan))
  + Py.Zsum (map DeliveryInfo.delivery_duration (RoutePlan.delivery_sequence plan))
  + Py.Zsum (map DeliveryInfo.travel_time (RoutePlan.delivery_sequence plan)).

(** A keyword without white space. *)
Fixpoint no_space (p : string) : Prop :=
  match p with
  | EmptyString => True
  | String c p' => Py.is_space c = false /\ no_space p'
  end.

(** The world after a confirmation of stop [stop_id], whose row is [s]:
    the stop is confirmed at the time of the clock, and the newest sent
    notification of the stop, if there is one, records the response. *)
Definition confirmed_world (stop_id : Z) (s : RouteStop.t) (response_content : string)
    (w : World) : World :=
  let w1 := put_stop stop_id (ConfirmationWorkflowService.confirm_stop s (clock w)) w in
  match first_sent stop_id (db_notifications w) with
  | Some (i, n) =>
      put_notification i (ConfirmationWorkflowService.record_response n response_content) w1
  | None => w1
  end.

(** The sent notifications of the stop [stop_id] were created at
    different times, so that [.first()] in the order of [-created_at]
    names one row. *)
Definition distinct_creation (stop_id : Z) (ns : list Notification.t) : Prop :=
  forall (i j : nat) (m n : Notification.t),
    ns !! i = Some m -> ns !! j = Some n ->
    sent_for stop_id m = true -> sent_for stop_id n = true ->
    Notification.created_at m = Notification.created_at n -> i = j.

(** The world after a response that is not a confirmation: the notes of
    the stop are replaced by the annotation. *)
Definition annotated_world (stop_id : Z) (s : RouteStop.t) (annotation : string)
    (w : World) : World :=
  put_stop stop_id (ConfirmationWorkflowService.set_notes s annotation) w.

(** A route of the scenario with a pickup stop (7) that carries notes
    and a delivery stop (8), two sent notifications for stop 7, and no
    database fault. *)
Module ScenarioDb.

Definition route : DeliveryRoute.t :=
  {| DeliveryRoute.id := 1; DeliveryRoute.scheduled_date := 20;
     DeliveryRoute.driver_team := "Team A"; DeliveryRoute.truck_identifier := "Truck 1" |}.

Definition pickup_stop (confirmed : bool) (notes : string) : RouteStop.t :=
  {| RouteStop.route := 1; RouteStop.stop_order := 1; RouteStop.stop_type := "pickup";
     RouteStop.grocery_store := Some Scenario.store; RouteStop.food_bank := None;
     RouteStop.estimated_arrival_time := 485; RouteStop.estimated_duration_minutes := 34;
     RouteStop.is_confirmed := confirmed; RouteStop.confirmed_at := None;
     RouteStop.notes := notes |}.

Definition delivery_stop (confirmed : bool) (bank : option FoodBank.t) : RouteStop.t :=
  {| RouteStop.route := 1; RouteStop.stop_order := 2; RouteStop.stop_type := "delivery";
     RouteStop.grocery_store := None; RouteStop.food_bank := bank;
     RouteStop.estimated_arrival_time := 524; RouteStop.estimated_duration_minutes := 63;
     RouteStop.is_confirmed := confirmed; RouteStop.confirmed_at := None;
     RouteStop.notes := EmptyString |}.

Definition notification (stop_id created_at : Z) (is_sent : bool) : Notification.t :=
  {| Notification.notification_type := "pickup_confirmation";
     Notification.recipient_email := "store@example.org";
     Notification.subject := "Pickup Confirmation Required";
     Notification.message_body := EmptyString;
     Notification.route_stop := Some stop_id;
     Notification.sent_at := if is_sent then Some created_at else None;
     Notification.is_sent := is_sent;
     Notification.response_received := false;
     Notification.response_content := EmptyString;
     Notification.created_at := created_at |}.

Definition world (faults : list bool) : World :=
  {| db_routes := {[ 1 := route ]};
     db_stops := {[ 7 := pickup_stop false "Leave at dock 4";
                    8 := delivery_stop false (Some (Scenario.bank 1 500 1000)) ]};
     db_notifications := [notification 7 100 true; notification 7 200 true];
     clock := 1000;
     db_faults := faults |}.

Definition str_date (d : Z) : string := "date".
Definition str_exn (e : exn) : string := "error".
Definition email_body (w : World) (stop : Z * RouteStop.t) : result string := Ok "body"%string.
Definition change_body (w : World) (stop : Z * RouteStop.t) (reason : string)
  : result string := Ok reason.

End ScenarioDb.

(** The number of rows of the stop table that belong to [route] and
    satisfy [P]. *)
Definition stops_where (P : RouteStop.t -> bool) (route : DeliveryRoute.t) (w : World) : Z :=
  count (List.filter
           (fun s => andb (RouteStop.route (snd s) =? DeliveryRoute.id route) (P (snd s)))
           (map_to_list (db_stops w))).








(** The dictionary of [_group_donations_by_store] after the donations
    [processed]: the keys are distinct stores, the store of every
    donation has a key, the list under a key is never empty and is the
    donations of that store in the order of the input, and no donation
    is lost or repeated. *)
Definition grouped (sd : list (GroceryStore.t * list FoodDonation.t))
    (processed : list FoodDonation.t) : Prop :=
  List.NoDup (map GroceryStore.pk (Py.dict_keys sd))
  /\ (forall d, In d processed ->
        exists s ds, In (s, ds) sd
          /\ GroceryStore.pk s = GroceryStore.pk (FoodDonation.grocery_store d))
  /\ (forall s ds, In (s, ds) sd ->
        ds <> []
        /\ ds = List.filter
                  (fun d => GroceryStore.pk (FoodDonation.grocery_store d) =? GroceryStore.pk s)
                  processed)
  /\ Permutation (concat (Py.dict_values sd)) processed.

(** The pickup and the delivery of the scenario, as the sequence
    planner returns them. *)
Module ScenarioPlan.

Definition pickup : PickupInfo.t :=
  {| PickupInfo.store := Scenario.store;
     PickupInfo.donations := Scenario.donations;
     PickupInfo.arrival_time := 1925;
     PickupInfo.pickup_duration := 39;
     PickupInfo.total_weight := inject_Z 50;
     PickupInfo.estimated_arrival := None |}.

Definition delivery : DeliveryInfo.t :=
  {| DeliveryInfo.food_bank := Scenario.bank 1 500 1000;
     DeliveryInfo.donations := Scenario.donations;
     DeliveryInfo.travel_time := 5;
     DeliveryInfo.delivery_duration := 71;
     DeliveryInfo.total_weight := inject_Z 50;
     DeliveryInfo.estimated_arrival := None |}.

End ScenarioPlan.



(** Two states of a stop row that agree on everything a response must
    not touch: the route, the order, the type, the store or bank and
    the planned times. *)
Definition same_schedule (s s' : RouteStop.t) : Prop :=
  RouteStop.route s' = RouteStop.route s
  /\ RouteStop.stop_order s' = RouteStop.stop_order s
  /\ RouteStop.stop_type s' = RouteStop.stop_type s
  /\ RouteStop.grocery_store s' = RouteStop.grocery_store s
  /\ RouteStop.food_bank s' = RouteStop.food_bank s
  /\ RouteStop.estimated_arrival_time s' = RouteStop.estimated_arrival_time s
  /\ RouteStop.estimated_duration_minutes s' = RouteStop.estimated_duration_minutes s.

(** Two worlds with the same rows and clock; only the schedule of
    faults to come may differ. *)
Definition same_data (w w' : World) : Prop :=
  db_routes w' = db_routes w
  /\ db_stops w' = db_stops w
  /\ db_notifications w' = db_notifications w
  /\ clock w' = clock w.

(** What sending one notification for the stop [stop_id] does to the
    world [w]: no route or stop changes and the clock stands still; the
    notification rows of [w] are kept and at most one row is added,
    which is for this stop and recipient, was created now, carries no
    response, and is marked as sent exactly when the send succeeded; a
    successful send always adds a row. *)
Definition send_outcome (notification_type : string) (recipient : option string)
    (stop_id : Z) (w : World) (success : bool) (w' : World) : Prop :=
  db_routes w' = db_routes w
  /\ db_stops w' = db_stops w
  /\ clock w' = clock w
  /\ exists new,
       db_notifications w' = db_notifications w ++ new
       /\ (length new <= 1)%nat
       /\ (success = true -> new <> [])
       /\ forall n, In n new ->
            Notification.notification_type n = notification_type
            /\ Some (Notification.recipient_email n) = recipient
            /\ Notification.route_stop n = Some stop_id
            /\ Notification.is_sent n = success
            /\ Notification.sent_at n = (if success then Some (clock w) else None)
            /\ Notification.created_at n = clock w
            /\ Notification.response_received n = false.

Definition is_ok_true (r : result bool) : bool :=
  match r with
  | Ok true => true
  | _ => false
  end.







(** * Properties *)

(** ** [sorted] is a stable sort *)

Section SortedFacts.
Context {A : Type} (key : A -> Z).

Lemma insert_by_perm (x : A) (l : list A) :
  Permutation (Py.insert_by key x l) (x :: l).
Proof.
  induction l as [|y l IH]; simpl; [reflexivity|].
  destruct (key y <=? key x); [|reflexivity].
  rewrite IH. apply perm_swap.
Qed.

Lemma sorted_acc_perm (l acc : list A) :
  Permutation (fold_left (fun acc x => Py.insert_by key x acc) l acc) (acc ++ l).
Proof.
  revert acc. induction l as [|x l IH]; intros acc; simpl.
  - now rewrite app_nil_r.
  - rewrite IH, insert_by_perm. simpl.
    apply Permutation_middle.
Qed.

Lemma sorted_perm (l : list A) : Permutation (Py.sorted key l) l.
Proof. unfold Py.sorted. now rewrite sorted_acc_perm. Qed.

Lemma insert_by_sorted (x : A) (l : list A) :
  StronglySorted (key_le key) l -> StronglySorted (key_le key) (Py.insert_by key x l).
Proof.
  induction 1 as [|y l Hs IH Hy]; simpl.
  - repeat constructor.
  - destruct (key y <=? key x) eqn:E.
    + constructor; [exact IH|].
      rewrite List.Forall_forall in *. intros z Hz.
      apply (Permutation_in _ (insert_by_perm x l)) in Hz.
      destruct Hz as [<-|Hz]; [apply Z.leb_le in E; exact E|now apply Hy].
    + apply Z.leb_gt in E. constructor; [now constructor|].
      constructor; [unfold key_le; lia|].
      rewrite List.Forall_forall in *. intros z Hz.
      specialize (Hy z Hz). unfold key_le in *. lia.
Qed.

Lemma sorted_acc_sorted (l acc : list A) :
  StronglySorted (key_le key) acc ->
  StronglySorted (key_le key) (fold_left (fun acc x => Py.insert_by key x acc) l acc).
Proof.
  revert acc. induction l as [|x l IH]; intros acc Hacc; simpl; [exact Hacc|].
  apply IH. now apply insert_by_sorted.
Qed.

Lemma sorted_sorted (l : list A) : StronglySorted (key_le key) (Py.sorted key l).
Proof. apply sorted_acc_sorted. constructor. Qed.

Lemma sorted_length (l : list A) : length (Py.sorted key l) = length l.
Proof. apply Permutation_length, sorted_perm. Qed.

End SortedFacts.

(** ** Numbers *)

Lemma Qltb_true (x y : Q) : Py.Qltb x y = true <-> (x < y)%Q.
Proof.
  unfold Py.Qltb. rewrite negb_true_iff. split.
  - intros H. apply Qnot_le_lt. intros Hle. apply Qle_bool_iff in Hle. congruence.
  - intros H. destruct (Qle_bool y x) eqn:E; [|reflexivity].
    apply Qle_bool_iff in E. exfalso. now apply (Qlt_not_le x y).
Qed.

Lemma Qltb_false (x y : Q) : Py.Qltb x y = false <-> (y <= x)%Q.
Proof.
  unfold Py.Qltb. rewrite negb_false_iff. apply Qle_bool_iff.
Qed.

Lemma Qle_bool_false (x y : Q) : Qle_bool x y = false <-> (y < x)%Q.
Proof.
  split.
  - intros H. apply Qnot_le_lt. intros Hle. apply Qle_bool_iff in Hle. congruence.
  - intros H. destruct (Qle_bool x y) eqn:E; [|reflexivity].
    apply Qle_bool_iff in E. exfalso. now apply (Qlt_not_le y x).
Qed.

(** The count of digits brackets the number. *)
Lemma digits_from_lower (fuel : nat) :
  forall n, 1 <= n -> 10 ^ (Py.digits_from fuel n - 1) <= n.
Proof.
  induction fuel as [|fuel IH]; intros n Hn; simpl.
  - change (10 ^ (0 - 1)) with 0. lia.
  - destruct (n <? 10) eqn:E.
    + change (10 ^ (1 - 1)) with 1. lia.
    + apply Z.ltb_ge in E.
      assert (Hq : 1 <= n / 10) by (apply Z.div_le_lower_bound; lia).
      specialize (IH (n / 10) Hq).
      replace (1 + Py.digits_from fuel (n / 10) - 1) with (Py.digits_from fuel (n / 10))
        by lia.
      assert (Hd : 10 * (n / 10) <= n) by (apply Z.mul_div_le; lia).
      destruct (Z.le_gt_cases 1 (Py.digits_from fuel (n / 10))) as [H1|H1].
      * replace (Py.digits_from fuel (n / 10))
          with (Z.succ (Py.digits_from fuel (n / 10) - 1)) at 1 by lia.
        rewrite Z.pow_succ_r by lia. lia.
      * assert (H0 : 10 ^ Py.digits_from fuel (n / 10) <= 1).
        { destruct (Z.eq_dec (Py.digits_from fuel (n / 10)) 0) as [->|Hne];
            [simpl; lia|].
          rewrite Z.pow_neg_r by lia. lia. }
        lia.
Qed.

Lemma digits_from_upper (fuel : nat) :
  forall n, 0 < n < 2 ^ Z.of_nat fuel -> n < 10 ^ Py.digits_from fuel n.
Proof.
  induction fuel as [|fuel IH]; intros n Hn.
  - simpl in Hn. lia.
  - cbn [Py.digits_from]. destruct (n <? 10) eqn:E.
    + apply Z.ltb_lt in E. simpl. lia.
    + apply Z.ltb_ge in E.
      rewrite Nat2Z.inj_succ, Z.pow_succ_r in Hn by lia.
      assert (Hq : 0 < n / 10 < 2 ^ Z.of_nat fuel).
      { split; [apply Z.div_str_pos; lia|].
        apply Z.div_lt_upper_bound; lia. }
      specialize (IH (n / 10) Hq).
      assert (Hpos : 0 <= Py.digits_from fuel (n / 10)).
      { destruct (Z.le_gt_cases 0 (Py.digits_from fuel (n / 10))); [assumption|].
        rewrite Z.pow_neg_r in IH by lia. lia. }
      replace (1 + Py.digits_from fuel (n / 10))
        with (Z.succ (Py.digits_from fuel (n / 10))) by lia.
      rewrite Z.pow_succ_r by lia.
      pose proof (Z.div_mod n 10 ltac:(lia)) as Hdm.
      pose proof (Z.mod_pos_bound n 10 ltac:(lia)). lia.
Qed.

Lemma digits_spec (n : Z) :
  1 <= n -> 10 ^ (Py.digits n - 1) <= n < 10 ^ Py.digits n.
Proof.
  intros Hn. unfold Py.digits. split; [now apply digits_from_lower|].
  apply digits_from_upper. split; [lia|].
  rewrite Nat2Z.inj_succ, Z2Nat.id by apply Z.log2_nonneg.
  apply Z.log2_spec. lia.
Qed.

(** The exponent of the leading digit of a positive rational below
    10^26 is at most 25. *)
Lemma adjusted_small (x : Q) :
  (0 < x)%Q -> (x < inject_Z (10 ^ 26))%Q -> Py.adjusted x <= 25.
Proof.
  destruct x as [p q]. unfold Qlt. simpl. rewrite !Z.mul_1_r. intros Hp Hx.
  unfold Py.adjusted. cbn [Qnum Qden].
  set (k := Py.digits p - Py.digits (Z.pos q)).
  destruct (Qle_bool (Qpower (10 # 1) k) (p # q)) eqn:E.
  - destruct (Z.le_gt_cases k 25) as [Hk|Hk]; [exact Hk|exfalso].
    apply Qle_bool_iff in E.
    change (10 # 1)%Q with (inject_Z 10) in E.
    rewrite <- Zpower_Qpower in E by lia.
    unfold Qle in E. simpl in E. rewrite Z.mul_1_r in E.
    assert (H26 : 10 ^ 26 <= 10 ^ k) by (apply Z.pow_le_mono_r; lia).
    nia.
  - pose proof (digits_spec p ltac:(lia)) as [Hlow _].
    pose proof (digits_spec (Z.pos q) ltac:(lia)) as [_ Hup].
    destruct (Z.le_gt_cases k 26) as [Hk|Hk]; [lia|exfalso].
    assert (H1 : 10 ^ (26 + Py.digits (Z.pos q)) <= 10 ^ (Py.digits p - 1)).
    { apply Z.pow_le_mono_r; [lia|]. unfold k in Hk. lia. }
    assert (Hdq : 0 <= Py.digits (Z.pos q)).
    { destruct (Z.le_gt_cases 0 (Py.digits (Z.pos q))); [assumption|].
      rewrite Z.pow_neg_r in Hup by lia. lia. }
    rewrite Z.pow_add_r in H1 by lia. nia.
Qed.

Lemma round_half_even_Z (y : Q) (m : Z) : (y == inject_Z m)%Q -> Py.round_half_even y = m.
Proof.
  intros Hy. unfold Py.round_half_even.
  assert (Hf : Qfloor y = m) by (rewrite Hy; apply Qfloor_Z).
  rewrite Hf.
  assert (H1 : Py.Qltb (1 # 2) (y - inject_Z m) = false).
  { apply Qltb_false. rewrite Hy. lra. }
  assert (H2 : Py.Qltb (y - inject_Z m) (1 # 2) = true).
  { apply Qltb_true. rewrite Hy. lra. }
  now rewrite H1, H2.
Qed.

(** A number of hundredths with at most 28 digits is a [Decimal] of the
    context: rounding leaves it as it is. *)
Lemma round28_exact (x : Q) (n : Z) :
  (x == n # 100)%Q -> Z.abs n < 10 ^ 28 -> (Py.round28 x == x)%Q.
Proof.
  intros Hx Hn. unfold Py.round28.
  destruct (Qeq_bool x 0) eqn:E0.
  { apply Qeq_bool_iff in E0. now rewrite E0. }
  apply Qeq_bool_neq in E0.
  assert (Hn0 : n <> 0).
  { intros ->. apply E0. rewrite Hx. reflexivity. }
  assert (Ha : Py.adjusted (Qabs x) <= 25).
  { apply adjusted_small.
    - rewrite Hx. unfold Qabs, Qlt. simpl. lia.
    - rewrite Hx. unfold Qabs, Qlt. simpl. lia. }
  set (a := Py.adjusted (Qabs x)) in *.
  set (e := 27 - a).
  assert (He : 2 <= e) by (unfold e; lia).
  assert (Hulp : (Qpower (10 # 1) (a - 27) == / inject_Z (10 ^ e))%Q).
  { replace (a - 27) with (- e) by (unfold e; lia).
    rewrite Qpower_opp. change (10 # 1)%Q with (inject_Z 10).
    rewrite <- Zpower_Qpower by lia. reflexivity. }
  assert (Hpow : 10 ^ e = 100 * 10 ^ (e - 2)).
  { replace e with (2 + (e - 2)) at 1 by lia. rewrite Z.pow_add_r by lia. reflexivity. }
  assert (Hpos : 0 < 10 ^ (e - 2)) by (apply Z.pow_pos_nonneg; lia).
  assert (Hy : (x / Qpower (10 # 1) (a - 27) == inject_Z (n * 10 ^ (e - 2)))%Q).
  { rewrite Hulp, Hx, Hpow. unfold Qdiv. rewrite Qinv_involutive.
    unfold Qeq, Qmult, inject_Z. simpl. lia. }
  rewrite (round_half_even_Z _ _ Hy), Qred_correct, Hulp, Hx, Hpow.
  unfold Qeq, Qmult, Qinv, inject_Z. simpl.
  destruct (100 * 10 ^ (e - 2)) as [|r|r] eqn:Er; try lia.
  simpl. nia.
Qed.
(** ** Rationals and dictionaries *)

Lemma Qsum_app (l1 l2 : list Q) : (Py.Qsum (l1 ++ l2) == Py.Qsum l1 + Py.Qsum l2)%Q.
Proof.
  induction l1 as [|x l1 IH]; simpl.
  - ring.
  - rewrite IH. ring.
Qed.

Lemma Qsum_nonneg (l : list Q) : List.Forall (fun q => (0 <= q)%Q) l -> (0 <= Py.Qsum l)%Q.
Proof.
  induction 1 as [|x l Hx _ IH]; simpl; [apply Qle_refl|].
  replace 0%Q with (0 + 0)%Q by reflexivity. now apply Qplus_le_compat.
Qed.

Section DictFacts.
Context {K V : Type} (pk : K -> Z).

Lemma dict_get_set (d : list (K * V)) (k k' : K) (v : V) :
  Py.dict_get pk (Py.dict_set pk d k v) k'
  = if pk k =? pk k' then Some v else Py.dict_get pk d k'.
Proof.
  induction d as [|[k0 v0] d IH]; simpl.
  - destruct (pk k =? pk k'); reflexivity.
  - destruct (pk k0 =? pk k) eqn:E0; simpl.
    + apply Z.eqb_eq in E0. rewrite E0. destruct (pk k =? pk k'); reflexivity.
    + destruct (pk k0 =? pk k') eqn:E1; [|exact IH].
      apply Z.eqb_eq in E1. rewrite <- E1, Z.eqb_sym, E0. reflexivity.
Qed.

Lemma dict_keys_set (d : list (K * V)) (k : K) (v v0 : V) :
  Py.dict_get pk d k = Some v0 ->
  Py.dict_keys (Py.dict_set pk d k v) = Py.dict_keys d.
Proof.
  induction d as [|[k0 v1] d IH]; simpl; [discriminate|].
  destruct (pk k0 =? pk k); simpl; [reflexivity|].
  intros H. f_equal. now apply IH.
Qed.

Lemma dict_get_keys (d : list (K * V)) (k : K) :
  In k (Py.dict_keys d) -> exists v, Py.dict_get pk d k = Some v.
Proof.
  induction d as [|[k0 v0] d IH]; simpl; [tauto|].
  intros H. destruct (pk k0 =? pk k) eqn:E; [eauto|].
  destruct H as [->|H]; [rewrite Z.eqb_refl in E; discriminate|now apply IH].
Qed.

Lemma dict_get_pk (d : list (K * V)) (k k' : K) :
  pk k = pk k' -> Py.dict_get pk d k = Py.dict_get pk d k'.
Proof.
  intros E. induction d as [|[k0 v0] d IH]; simpl; [reflexivity|].
  rewrite E, IH. reflexivity.
Qed.

Lemma dict_get_in (d : list (K * V)) (k : K) (v : V) :
  Py.dict_get pk d k = Some v -> exists k0, In (k0, v) d /\ pk k0 = pk k.
Proof.
  induction d as [|[k0 v0] d IH]; simpl; [discriminate|].
  destruct (pk k0 =? pk k) eqn:E.
  - intros [= ->]. apply Z.eqb_eq in E. eauto.
  - intros H. destruct (IH H) as (k1 & Hin & Hk). eauto.
Qed.

(** The dictionary comprehension [{k: v for k in keys}]. *)
Lemma dict_init_keys (v : V) (keys : list K) (d : list (K * V)) (k : K) :
  In k (Py.dict_keys (fold_left (fun d k => Py.dict_set pk d k v) keys d)) ->
  In k keys \/ In k (Py.dict_keys d).
Proof.
  revert d. induction keys as [|k0 keys IH]; intros d; simpl; [tauto|].
  intros H. apply IH in H. destruct H as [H|H]; [tauto|].
  clear IH. induction d as [|[k1 v1] d IHd]; simpl in *.
  - destruct H as [<-|[]]. tauto.
  - destruct (pk k1 =? pk k0); simpl in H.
    + tauto.
    + destruct H as [<-|H]; [tauto|]. specialize (IHd H). tauto.
Qed.

Lemma dict_init_get (v : V) (keys : list K) (d : list (K * V)) (k : K) :
  In k keys ->
  Py.dict_get pk (fold_left (fun d k => Py.dict_set pk d k v) keys d) k = Some v.
Proof.
  revert d. induction keys as [|k0 keys IH]; intros d; simpl; [tauto|].
  intros [->|H]; [|now apply IH].
  clear IH. revert d. induction keys as [|k1 keys IH]; intros d; simpl.
  - rewrite dict_get_set, Z.eqb_refl. reflexivity.
  - destruct (pk k1 =? pk k) eqn:E.
    + assert (Hg : Py.dict_get pk (Py.dict_set pk (Py.dict_set pk d k v) k1 v) k = Some v)
        by (rewrite dict_get_set, E; reflexivity).
      clear E. revert Hg. generalize (Py.dict_set pk (Py.dict_set pk d k v) k1 v).
      clear IH d. induction keys as [|k2 keys IH]; intros d Hg; simpl; [exact Hg|].
      apply IH. rewrite dict_get_set, Hg. destruct (pk k2 =? pk k); reflexivity.
    + assert (Hg : Py.dict_get pk (Py.dict_set pk (Py.dict_set pk d k v) k1 v) k = Some v)
        by (rewrite !dict_get_set, E, Z.eqb_refl; reflexivity).
      clear E. revert Hg. generalize (Py.dict_set pk (Py.dict_set pk d k v) k1 v).
      clear IH d. induction keys as [|k2 keys IH]; intros d Hg; simpl; [exact Hg|].
      apply IH. rewrite dict_get_set, Hg. destruct (pk k2 =? pk k); reflexivity.
Qed.

End DictFacts.

Section DictShape.
Context {K V : Type} (pk : K -> Z).

Lemma dict_get_none (d : list (K * V)) (k : K) :
  Py.dict_get pk d k = None <-> forall kv, In kv d -> pk (fst kv) <> pk k.
Proof.
  induction d as [|[k0 v0] d IH]; simpl.
  - split; [intros _ kv []|reflexivity].
  - destruct (pk k0 =? pk k) eqn:E.
    + apply Z.eqb_eq in E. split; [discriminate|].
      intros H. exfalso. apply (H (k0, v0)); auto.
    + apply Z.eqb_neq in E. rewrite IH. split.
      * intros H kv [<-|Hkv]; auto.
      * intros H kv Hkv. apply H. now right.
Qed.

Lemma dict_set_none (d : list (K * V)) (k : K) (v : V) :
  Py.dict_get pk d k = None -> Py.dict_set pk d k v = d ++ [(k, v)].
Proof.
  induction d as [|[k0 v0] d IH]; simpl; [reflexivity|].
  destruct (pk k0 =? pk k); [discriminate|]. intros H. now rewrite IH.
Qed.

Lemma dict_set_some (d : list (K * V)) (k : K) (v v0 : V) :
  Py.dict_get pk d k = Some v0 ->
  exists d1 k0 d2,
    d = d1 ++ (k0, v0) :: d2 /\ pk k0 = pk k
    /\ (forall kv, In kv d1 -> pk (fst kv) <> pk k)
    /\ Py.dict_set pk d k v = d1 ++ (k0, v) :: d2.
Proof.
  induction d as [|[k1 v1] d IH]; simpl; [discriminate|].
  destruct (pk k1 =? pk k) eqn:E.
  - intros [= ->]. apply Z.eqb_eq in E. exists [], k1, d. simpl. tauto.
  - intros H. destruct (IH H) as (d1 & k0 & d2 & -> & Hk & Hd1 & ->).
    exists ((k1, v1) :: d1), k0, d2. apply Z.eqb_neq in E.
    repeat split; auto. intros kv [<-|Hkv]; auto.
Qed.

End DictShape.


(** The dictionary comprehension over distinct keys lists them in
    order. *)
Lemma dict_init_map {K V : Type} (pk : K -> Z) (v : V) (keys : list K) (d : list (K * V)) :
  List.NoDup (map pk (Py.dict_keys d ++ keys)) ->
  fold_left (fun d k => Py.dict_set pk d k v) keys d = d ++ map (fun k => (k, v)) keys.
Proof.
  revert d. induction keys as [|k keys IH]; intros d Hnd; simpl.
  - now rewrite app_nil_r.
  - assert (Hnone : Py.dict_get pk d k = None).
    { apply dict_get_none. intros kv Hkv E.
      rewrite map_app in Hnd. simpl in Hnd. apply List.NoDup_remove_2 in Hnd.
      apply Hnd. apply in_or_app. left. rewrite <- E.
      apply (in_map fst) in Hkv. apply (in_map pk) in Hkv. exact Hkv. }
    rewrite (dict_set_none pk d k v Hnone), IH.
    + rewrite <- app_assoc. reflexivity.
    + unfold Py.dict_keys in *. rewrite !map_app in *. simpl in *.
      rewrite <- app_assoc. exact Hnd.
Qed.

Lemma dict_set_in {K V : Type} (pk : K -> Z) (d : list (K * V)) (k k' : K) (v v' : V) :
  In (k', v') (Py.dict_set pk d k v) -> In (k', v') d \/ v' = v.
Proof.
  induction d as [|[k0 v0] d IH]; simpl.
  - intros [[= <- <-]|[]]. now right.
  - destruct (pk k0 =? pk k); simpl.
    + intros [[= <- <-]|H]; [now right|left; now right].
    + intros [H|H]; [left; now left|].
      destruct (IH H) as [H'|H']; [left; now right|now right].
Qed.


(** ** The allocation loop on rows of the table *)

Lemma Qle_bool_ext (x x' y y' : Q) :
  (x == x')%Q -> (y == y')%Q -> Qle_bool x y = Qle_bool x' y'.
Proof.
  intros Hx Hy. destruct (Qle_bool x' y') eqn:E.
  - apply Qle_bool_iff. apply Qle_bool_iff in E. now rewrite Hx, Hy.
  - apply Qle_bool_false. apply Qle_bool_false in E. now rewrite Hx, Hy.
Qed.

Lemma capacity_nonneg (bank : FoodBank.t) : (0 <= capacity bank)%Q.
Proof. unfold capacity. rewrite <- (Zle_Qle 0). lia. Qed.

Lemma load_app (ds : list FoodDonation.t) (d : FoodDonation.t) :
  (load (ds ++ [d]) == load ds + pounds d)%Q.
Proof. unfold load. rewrite map_app, Qsum_app. simpl. ring. Qed.

(** The capacity check on a bucket of stored rows is the comparison of
    the weights they denote. *)
Lemma has_room_fits (d : FoodDonation.t) (w : Py.num) (bank : FoodBank.t)
    (ds : list FoodDonation.t) :
  stored d -> bucket_ok bank ds w ->
  Z.of_N (FoodBank.storage_capacity_pounds bank) <= max_positive_integer ->
  RouteOptimizer.has_room d w bank = Ok (fits d (bank, ds)).
Proof.
  intros (c & Eq & Hc) (Ht & (n & Hn & Hn0) & Hcap) Hmax.
  unfold RouteOptimizer.has_room, fits, pounds. rewrite Eq. cbn [fst snd].
  unfold capacity in *. unfold max_positive_integer in Hmax.
  set (cap := Z.of_N (FoodBank.storage_capacity_pounds bank)) in *.
  destruct Ht as [[-> H0] | (c' & -> & Hc')].
  - unfold Py.sub, Py.binop, Py.lt, Py.value_of, Py.value_lt, Py.exact, Py.Qltb.
    cbn [mbind result_bind Py.value_of]. rewrite negb_involutive. f_equal.
    apply Qle_bool_ext; [reflexivity|]. rewrite H0, Z.sub_0_r. ring.
  - unfold Py.sub, Py.binop, Py.lt, Py.value_of, Py.value_lt, Py.exact, Py.Qltb.
    cbn [mbind result_bind Py.value_of]. rewrite negb_involutive. f_equal.
    apply Qle_bool_ext; [reflexivity|].
    rewrite <- Hc'. apply (round28_exact _ (100 * cap - n)).
    + rewrite Hc', Hn. unfold Qeq, Qminus, Qplus, Qopp, inject_Z. simpl. lia.
    + assert (Hle : n <= 100 * cap).
      { rewrite Hn in Hcap. unfold Qle, inject_Z in Hcap. simpl in Hcap. lia. }
      change (10 ^ 28) with 10000000000000000000000000000. lia.
Qed.

(** The running weight after one more row in the bucket. *)
Lemma add_tracks (d : FoodDonation.t) (w : Py.num) (bank : FoodBank.t)
    (ds : list FoodDonation.t) :
  stored d -> bucket_ok bank ds w ->
  Z.of_N (FoodBank.storage_capacity_pounds bank) <= max_positive_integer ->
  fits d (bank, ds) = true ->
  exists w',
    Py.add w (FoodDonation.quantity_pounds d) = Ok w'
    /\ bucket_ok bank (ds ++ [d]) w'.
Proof.
  intros (c & Eq & Hc) (Ht & (n & Hn & Hn0) & Hcap) Hmax Hfit.
  unfold fits, pounds in Hfit. cbn [fst snd] in Hfit. apply Qle_bool_iff in Hfit.
  assert (Hp : pounds d = (c # 100)%Q) by (unfold pounds; now rewrite Eq).
  rewrite Eq in Hfit. change (Py.exact (Py.Decimal (c # 100))) with (c # 100)%Q in Hfit.
  assert (Hload : (load (ds ++ [d]) == (n + c) # 100)%Q).
  { rewrite load_app, Hp, Hn. unfold Qeq, Qplus. simpl. lia. }
  assert (Hle : n + c <= 100 * Z.of_N (FoodBank.storage_capacity_pounds bank)).
  { rewrite Hn in Hfit. unfold capacity, Qle, Qminus, Qplus, Qopp, inject_Z in Hfit.
    simpl in Hfit. lia. }
  unfold max_positive_integer in Hmax.
  assert (Hfits : (load (ds ++ [d]) <= capacity bank)%Q).
  { rewrite Hload. unfold capacity, Qle, inject_Z. simpl. lia. }
  rewrite Eq.
  destruct Ht as [[-> H0] | (c' & -> & Hc')].
  - eexists. split; [reflexivity|]. split; [|split; [exists (n + c); split; [exact Hload|lia]|exact Hfits]].
    right. eexists. split; [reflexivity|].
    rewrite (round28_exact _ c).
    + rewrite load_app, Hp, H0. ring.
    + unfold Qeq, Qplus, inject_Z. simpl. lia.
    + change (10 ^ 28) with 10000000000000000000000000000.
      change (10 ^ 8) with 100000000 in Hc. lia.
  - eexists. split; [reflexivity|]. split; [|split; [exists (n + c); split; [exact Hload|lia]|exact Hfits]].
    right. eexists. split; [reflexivity|].
    rewrite (round28_exact _ (n + c)).
    + rewrite load_app, Hp, Hc'. ring.
    + rewrite Hc', Hn. unfold Qeq, Qplus. simpl. lia.
    + change (10 ^ 28) with 10000000000000000000000000000.
      change (10 ^ 8) with 100000000 in Hc. lia.
Qed.

Lemma fits_capacity (d : FoodDonation.t) (bank : FoodBank.t) (ds : list FoodDonation.t)
    (w : Py.num) :
  stored d -> bucket_ok bank ds w -> fits d (bank, ds) = true ->
  0 < Z.of_N (FoodBank.storage_capacity_pounds bank).
Proof.
  intros (c & Eq & Hc) (_ & (n & Hn & Hn0) & _) Hfit.
  unfold fits, pounds in Hfit. cbn [fst snd] in Hfit. apply Qle_bool_iff in Hfit.
  rewrite Eq in Hfit. change (Py.exact (Py.Decimal (c # 100))) with (c # 100)%Q in Hfit.
  rewrite Hn in Hfit. unfold capacity, Qle, Qminus, Qplus, Qopp, inject_Z in Hfit.
  simpl in Hfit. lia.
Qed.

(** ** Allocation when no bank declares a need *)

(** The score of a bank that holds nothing is [0.0], whatever the
    donation. *)
Lemma zero_need_empty_score (d : FoodDonation.t) (bank : FoodBank.t) :
  FoodBank.storage_capacity_pounds bank <> 0%N ->
  RouteOptimizer.allocation_score d (Py.Int 0) 0 bank = Ok (Py.Float 0).
Proof.
  intros Hcap. unfold RouteOptimizer.allocation_score.
  change (0 <? 0) with false. cbv iota.
  unfold Py.truediv.
  destruct (Z.of_N (FoodBank.storage_capacity_pounds bank) =? 0) eqn:E;
    [apply Z.eqb_eq in E; lia|].
  change (0 =? 0) with true. cbv iota.
  replace (Z.of_N (FoodBank.storage_capacity_pounds bank) <? 0) with false
    by (symmetry; apply Z.ltb_ge; lia).
  cbn [mbind result_bind].
  change (Py.sub (Py.Int 1) (Py.Float 0)) with (Ok (Py.Float 1) : result Py.num).
  cbn [mbind result_bind].
  change (Py.mul (Py.Int 0) (Py.Float 1)) with (Ok (Py.Float 0) : result Py.num).
  cbn [mbind result_bind].
  destruct (FoodBank.can_self_pickup bank); [|reflexivity].
  assert (H : exists heavy, Py.lt (Py.Int 50) (FoodDonation.quantity_pounds d) = Ok heavy).
  { destruct (FoodDonation.quantity_pounds d); eexists; reflexivity. }
  destruct H as (heavy & ->). cbn [mbind result_bind].
  destruct heavy; reflexivity.
Qed.

Lemma zero_need_score (d : FoodDonation.t) (w : Py.num) (bank : FoodBank.t)
    (ds : list FoodDonation.t) :
  stored d -> bucket_ok bank ds w -> fits d (bank, ds) = true ->
  (FoodBank.can_self_pickup bank = true -> (pounds d <= inject_Z 50)%Q) ->
  exists s, RouteOptimizer.allocation_score d w 0 bank = Ok s /\ zero_score s.
Proof.
  intros Hd Hb Hfit Hself.
  pose proof (fits_capacity d bank ds w Hd Hb Hfit) as Hcap.
  destruct Hb as (Ht & _ & _).
  destruct Ht as [[-> _] | (c' & -> & _)].
  - exists (Py.Float 0). split; [|now left].
    apply zero_need_empty_score. lia.
  - destruct Hd as (c & Eq & Hc).
    exists (Py.Decimal 0). split; [|now right].
    unfold RouteOptimizer.allocation_score.
    change (0 <? 0) with false. cbv iota.
    unfold Py.truediv, Py.decimal_div.
    assert (E : Qeq_bool (inject_Z (Z.of_N (FoodBank.storage_capacity_pounds bank))) 0
                = false).
    { destruct (Qeq_bool _ 0) eqn:E; [|reflexivity].
      apply Qeq_bool_iff in E. unfold Qeq, inject_Z in E. simpl in E. lia. }
    rewrite E. cbn [mbind result_bind Py.sub Py.binop Py.mul].
    assert (Hz : forall u, Py.round28 (Qmult (inject_Z 0) u) = 0%Q).
    { intros u. unfold Py.round28.
      replace (Qeq_bool (inject_Z 0 * u) 0) with true; [reflexivity|].
      symmetry. apply Qeq_bool_iff. ring. }
    rewrite Hz.
    destruct (FoodBank.can_self_pickup bank) eqn:Es; [|reflexivity].
    rewrite Eq. unfold Py.lt, Py.value_of, Py.value_lt. cbn [mbind result_bind].
    replace (Py.Qltb (inject_Z 50) (c # 100)) with false; [reflexivity|].
    symmetry. apply Qltb_false. specialize (Hself eq_refl).
    unfold pounds in Hself. now rewrite Eq in Hself.
Qed.

Lemma zero_score_not_better (best s : Py.num) :
  zero_score best -> zero_score s -> Py.lt best s = Ok false.
Proof. intros [->| ->] [->| ->]; reflexivity. Qed.

Lemma zero_score_beats_start (s : Py.num) :
  zero_score s -> Py.lt (Py.Int (-1)) s = Ok true.
Proof. intros [->| ->]; reflexivity. Qed.

Section ZeroNeedScan.
Variable d : FoodDonation.t.
Variable W : list (FoodBank.t * Py.num).
Hypothesis Hd : stored d.

Lemma zero_need_keeps_best (A : list (FoodBank.t * list FoodDonation.t))
    (best : option FoodBank.t * Py.num) :
  zero_score (snd best) ->
  (forall a, In a A -> scanned d W a) ->
  RouteOptimizer.best_bank_loop d (map fst A) W 0 best = Ok best.
Proof.
  intros Hbest. induction A as [|[bank ds] A IH]; intros HA; simpl; [reflexivity|].
  destruct (HA (bank, ds) (or_introl eq_refl)) as ((w & Hw & Hok) & Hmax & Hself).
  cbn [fst snd] in *.
  unfold RouteOptimizer.best_bank_step. rewrite Hw. cbn [mbind result_bind].
  rewrite (has_room_fits d w bank ds Hd Hok Hmax). cbn [mbind result_bind].
  destruct (fits d (bank, ds)) eqn:Ef.
  - destruct (zero_need_score d w bank ds Hd Hok Ef Hself) as (s & -> & Hs).
    cbn [mbind result_bind]. rewrite (zero_score_not_better _ _ Hbest Hs).
    cbn [mbind result_bind]. apply IH. intros a Ha. apply HA. now right.
  - apply IH. intros a Ha. apply HA. now right.
Qed.

Lemma zero_need_first_fit (A : list (FoodBank.t * list FoodDonation.t)) :
  (forall a, In a A -> scanned d W a) ->
  exists best,
    RouteOptimizer.best_bank_loop d (map fst A) W 0 (None, Py.Int (-1)) = Ok best
    /\ fst best = option_map fst (List.find (fits d) A).
Proof.
  induction A as [|[bank ds] A IH]; intros HA; simpl.
  - eexists. split; reflexivity.
  - destruct (HA (bank, ds) (or_introl eq_refl)) as ((w & Hw & Hok) & Hmax & Hself).
    cbn [fst snd] in *.
    assert (HA' : forall a, In a A -> scanned d W a) by (intros a Ha; apply HA; now right).
    unfold RouteOptimizer.best_bank_step. rewrite Hw. cbn [mbind result_bind].
    rewrite (has_room_fits d w bank ds Hd Hok Hmax). cbn [mbind result_bind].
    destruct (fits d (bank, ds)) eqn:Ef.
    + destruct (zero_need_score d w bank ds Hd Hok Ef Hself) as (s & -> & Hs).
      cbn [mbind result_bind snd]. rewrite (zero_score_beats_start s Hs).
      cbn [mbind result_bind].
      rewrite (zero_need_keeps_best A (Some bank, s) Hs HA').
      eexists. split; reflexivity.
    + exact (IH HA').
Qed.

End ZeroNeedScan.

Lemma parallel_get (A : list (FoodBank.t * list FoodDonation.t))
    (W : list (FoodBank.t * Py.num)) :
  Forall2 entry_ok A W ->
  List.NoDup (map FoodBank.pk (map fst A)) ->
  forall a, In a A ->
    exists w, Py.dict_get FoodBank.pk W (fst a) = Some w /\ bucket_ok (fst a) (snd a) w.
Proof.
  induction 1 as [|a0 e0 A W [Hk Hok] HF IH]; intros Hnd a; simpl; [tauto|].
  apply List.NoDup_cons_iff in Hnd. destruct Hnd as [Hnew Hnd].
  destruct e0 as [k0 w0]. cbn [fst snd] in *. subst k0.
  intros [<-|Ha].
  - rewrite Z.eqb_refl. eauto.
  - destruct (FoodBank.pk (fst a0) =? FoodBank.pk (fst a)) eqn:E; [|now apply IH].
    exfalso. apply Hnew. apply Z.eqb_eq in E. rewrite E.
    apply in_map, in_map, Ha.
Qed.

Lemma place_none (d : FoodDonation.t) (A : list (FoodBank.t * list FoodDonation.t)) :
  List.find (fits d) A = None -> place d A = A.
Proof.
  induction A as [|a A IH]; simpl; [reflexivity|].
  destruct (fits d a); [discriminate|]. intros H. now rewrite IH.
Qed.

Lemma place_keys (d : FoodDonation.t) (A : list (FoodBank.t * list FoodDonation.t)) :
  map fst (place d A) = map fst A.
Proof.
  induction A as [|a A IH]; simpl; [reflexivity|].
  destruct (fits d a); simpl; [reflexivity|]. now rewrite IH.
Qed.

(** The two dictionary updates of the loop, on the first bucket that
    fits. *)
Lemma place_step (d : FoodDonation.t) (A : list (FoodBank.t * list FoodDonation.t))
    (W : list (FoodBank.t * Py.num)) (a : FoodBank.t * list FoodDonation.t) :
  Forall2 entry_ok A W ->
  List.NoDup (map FoodBank.pk (map fst A)) ->
  List.find (fits d) A = Some a ->
  Py.dict_get FoodBank.pk A (fst a) = Some (snd a)
  /\ Py.dict_set FoodBank.pk A (fst a) (snd a ++ [d]) = place d A
  /\ forall w', bucket_ok (fst a) (snd a ++ [d]) w' ->
       Forall2 entry_ok (place d A) (Py.dict_set FoodBank.pk W (fst a) w').
Proof.
  induction 1 as [|a0 e0 A W [Hk Hok] HF IH]; intros Hnd; simpl; [discriminate|].
  apply List.NoDup_cons_iff in Hnd. destruct Hnd as [Hnew Hnd].
  destruct a0 as [k0 v0], e0 as [k0' w0]. cbn [fst snd] in *. subst k0'.
  destruct (fits d (k0, v0)) eqn:Ef.
  - intros [= <-]. cbn [fst snd]. rewrite Z.eqb_refl.
    split; [reflexivity|]. split; [reflexivity|].
    intros w' Hw'. constructor; [|exact HF]. split; [reflexivity|exact Hw'].
  - intros Hfind.
    assert (Ha : In a A) by (eapply List.find_some; exact Hfind).
    assert (E : (FoodBank.pk k0 =? FoodBank.pk (fst a)) = false).
    { apply Z.eqb_neq. intros E. apply Hnew. rewrite E. apply in_map, in_map, Ha. }
    rewrite E. destruct (IH Hnd Hfind) as (H1 & H2 & H3).
    split; [exact H1|]. split; [now rewrite H2|].
    intros w' Hw'. constructor; [split; [reflexivity|exact Hok]|now apply H3].
Qed.

Lemma zero_need_loop (food_banks : list FoodBank.t) :
  List.NoDup (map FoodBank.pk food_banks) ->
  (forall bank, In bank food_banks ->
     Z.of_N (FoodBank.storage_capacity_pounds bank) <= max_positive_integer) ->
  forall (sorted : list FoodDonation.t) (A : list (FoodBank.t * list FoodDonation.t))
         (W : list (FoodBank.t * Py.num)),
    List.Forall stored sorted ->
    (forall bank d, In bank food_banks -> In d sorted ->
       FoodBank.can_self_pickup bank = true -> (pounds d <= inject_Z 50)%Q) ->
    map fst A = food_banks ->
    Forall2 entry_ok A W ->
    RouteOptimizer.allocate_loop sorted food_banks 0 A W
    = Ok (fold_left (fun buckets d => place d buckets) sorted A).
Proof.
  intros Hnd Hmax. induction sorted as [|d rest IH]; intros A W Hst Hself HA HF;
    simpl; [reflexivity|].
  apply List.Forall_cons_iff in Hst. destruct Hst as [Hd Hst].
  assert (Hnd' : List.NoDup (map FoodBank.pk (map fst A))) by now rewrite HA.
  assert (Hscan : forall a, In a A -> scanned d W a).
  { intros a Ha.
    assert (Hin : In (fst a) food_banks) by (rewrite <- HA; now apply in_map).
    split; [now apply (parallel_get A W HF Hnd')|].
    split; [now apply Hmax|]. apply Hself; [exact Hin|now left]. }
  unfold RouteOptimizer._find_best_bank_for_donation.
  rewrite <- HA at 1.
  destruct (zero_need_first_fit d W Hd A Hscan) as (best & -> & Hbest).
  cbn [mbind result_bind]. rewrite Hbest.
  assert (Hrest : forall bank d0, In bank food_banks -> In d0 rest ->
            FoodBank.can_self_pickup bank = true -> (pounds d0 <= inject_Z 50)%Q)
    by (intros bank d0 Hb Hd0; apply Hself; [exact Hb|now right]).
  destruct (List.find (fits d) A) as [a|] eqn:Efind; cbn [option_map].
  - destruct (place_step d A W a HF Hnd' Efind) as (Hget & Hset & Hnext).
    assert (Ha : In a A) by (eapply List.find_some; exact Efind).
    destruct (Hscan a Ha) as ((w & Hw & Hok) & Hm & _).
    assert (Hfit : fits d (fst a, snd a) = true).
    { destruct a. eapply List.find_some. exact Efind. }
    rewrite Hget, Hw.
    destruct (add_tracks d w (fst a) (snd a) Hd Hok Hm Hfit) as (w' & -> & Hok').
    cbn [mbind result_bind]. rewrite Hset.
    apply IH; auto. now rewrite place_keys.
  - rewrite (place_none d A Efind). now apply IH.
Qed.

(** C3, as stated, fails: with a single bank of daily need 0 and
    capacity 100, a donation of 10 pounds is assigned to that bank
    instead of being left unallocated, be it a row of the table or a
    donation built from an e-mail. *)
Lemma zero_need_unallocated_counterexample :
  total_daily_need [Scenario.bank 1 0 100] = 0
  /\ RouteOptimizer._allocate_food_to_banks 0
       [Scenario.row Scenario.store 1 1000 None None] [Scenario.bank 1 0 100]
     = Ok [(Scenario.bank 1 0 100, [Scenario.row Scenario.store 1 1000 None None])]
  /\ RouteOptimizer._allocate_food_to_banks 0
       [Scenario.donation 1 10 None None] [Scenario.bank 1 0 100]
     = Ok [(Scenario.bank 1 0 100, [Scenario.donation 1 10 None None])].
Proof. repeat split. Qed.

(** C3, amended.  When the daily needs of the banks sum to zero, the
    score of a bank that holds nothing is 0.0, which exceeds the
    initial best score -1.  For rows of the donation table and banks
    that are distinct rows of the bank table, no bank that can pick up
    by itself being offered more than 50 pounds, the allocation is
    first fit: each donation, in sorted order, is assigned to the first
    bank of the list whose remaining capacity is at least its weight,
    and is left unallocated only when there is no such bank. *)
Theorem zero_need_is_first_fit (now : Z) (donations : list FoodDonation.t)
    (food_banks : list FoodBank.t) :
  total_daily_need food_banks = 0 ->
  List.NoDup (map FoodBank.pk food_banks) ->
  (forall bank, In bank food_banks ->
     Z.of_N (FoodBank.storage_capacity_pounds bank) <= max_positive_integer) ->
  List.Forall stored donations ->
  (forall bank d, In bank food_banks -> In d donations ->
     FoodBank.can_self_pickup bank = true -> (pounds d <= inject_Z 50)%Q) ->
  (forall bank d, In bank food_banks ->
     FoodBank.storage_capacity_pounds bank <> 0%N ->
     RouteOptimizer.allocation_score d (Py.Int 0) (total_daily_need food_banks) bank
     = Ok (Py.Float 0))
  /\ RouteOptimizer._allocate_food_to_banks now donations food_banks
     = Ok (first_fit (RouteOptimizer.sorted_donations now donations) food_banks).
Proof.
  intros Hneed Hnd Hmax Hst Hself. split.
  - intros bank d _ Hcap. rewrite Hneed. now apply zero_need_empty_score.
  - unfold RouteOptimizer._allocate_food_to_banks, first_fit.
    destruct food_banks as [|bank0 banks] eqn:Ebanks.
    { simpl. induction (RouteOptimizer.sorted_donations now donations);
        simpl; [reflexivity|assumption]. }
    rewrite <- Ebanks in *. fold (total_daily_need food_banks). rewrite Hneed.
    rewrite !dict_init_map by exact Hnd. cbn [app].
    apply zero_need_loop; auto.
    + rewrite List.Forall_forall in *. intros d Hd. apply Hst.
      eapply Permutation_in; [apply sorted_perm|exact Hd].
    + intros bank d Hb Hd. apply Hself; [exact Hb|].
      eapply Permutation_in; [apply sorted_perm|exact Hd].
    + rewrite map_map. apply map_id.
    + clear. induction food_banks as [|bank banks IH]; simpl; constructor; [|exact IH].
      split; [reflexivity|]. cbn [fst snd]. split; [left; split; reflexivity|].
      split; [exists 0; split; [reflexivity|lia]|apply capacity_nonneg].
Qed.

Lemma zero_need_is_first_fit_witness :
  RouteOptimizer._allocate_food_to_banks 0
    [Scenario.row Scenario.store 1 6000 (Some 3) None;
     Scenario.row Scenario.store 2 5000 (Some 1) None;
     Scenario.row Scenario.market 3 3050 None None]
    [Scenario.bank 1 0 100; Scenario.bank 2 0 100]
  = Ok (first_fit
          (RouteOptimizer.sorted_donations 0
             [Scenario.row Scenario.store 1 6000 (Some 3) None;
              Scenario.row Scenario.store 2 5000 (Some 1) None;
              Scenario.row Scenario.market 3 3050 None None])
          [Scenario.bank 1 0 100; Scenario.bank 2 0 100])
  /\ first_fit
       (RouteOptimizer.sorted_donations 0
          [Scenario.row Scenario.store 1 6000 (Some 3) None;
           Scenario.row Scenario.store 2 5000 (Some 1) None;
           Scenario.row Scenario.market 3 3050 None None])
       [Scenario.bank 1 0 100; Scenario.bank 2 0 100]
     = [(Scenario.bank 1 0 100,
         [Scenario.row Scenario.store 2 5000 (Some 1) None;
          Scenario.row Scenario.market 3 3050 None None]);
        (Scenario.bank 2 0 100, [Scenario.row Scenario.store 1 6000 (Some 3) None])].
Proof.
  split; [|reflexivity].
  apply (zero_need_is_first_fit 0
           [Scenario.row Scenario.store 1 6000 (Some 3) None;
            Scenario.row Scenario.store 2 5000 (Some 1) None;
            Scenario.row Scenario.market 3 3050 None None]
           [Scenario.bank 1 0 100; Scenario.bank 2 0 100]).
  - reflexivity.
  - repeat constructor; simpl; intuition discriminate.
  - intros bank [<-|[<-|[]]]; vm_compute; discriminate.
  - repeat constructor; eexists; (split; [reflexivity|lia]).
  - intros bank d [<-|[<-|[]]] _ H; discriminate H.
Defined.

(** ** Allocation when the banks declare a need *)

(** Two rows of the table offered, in this order, to one bank with a
    need and with room for both: the first is scored with the [float]
    need ratio and the [float] utilisation 0.0 and goes into the
    bucket; the running weight is then a [Decimal], and the score of
    the second is the product of a [float] and a [Decimal]. *)
Lemma second_row_raises (bank : FoodBank.t) (d1 d2 : FoodDonation.t) :
  FoodBank.daily_average_need_pounds bank = 10%N ->
  FoodBank.can_self_pickup bank = false ->
  stored d1 -> stored d2 ->
  (pounds d1 + pounds d2 <= capacity bank)%Q ->
  Z.of_N (FoodBank.storage_capacity_pounds bank) <= max_positive_integer ->
  RouteOptimizer.allocate_loop [d1; d2] [bank] 10 [(bank, [])] [(bank, Py.Int 0)]
  = Raise TypeError.
Proof.
  intros Hneed Hself H1 H2 Hsum Hmax.
  assert (Hempty : bucket_ok bank [] (Py.Int 0)).
  { split; [left; split; reflexivity|].
    split; [exists 0; split; [reflexivity|lia]|apply capacity_nonneg]. }
  assert (Hp1 : (0 < pounds d1)%Q).
  { destruct H1 as (c & E & Hc). unfold pounds. rewrite E. unfold Qlt. simpl. lia. }
  assert (Hp2 : (0 < pounds d2)%Q).
  { destruct H2 as (c & E & Hc). unfold pounds. rewrite E. unfold Qlt. simpl. lia. }
  assert (Hfit1 : fits d1 (bank, []) = true).
  { unfold fits. apply Qle_bool_iff. cbn [fst snd]. unfold load. simpl. lra. }
  assert (Hfit2 : fits d2 (bank, [d1]) = true).
  { unfold fits. apply Qle_bool_iff. cbn [fst snd]. unfold load. simpl. lra. }
  assert (Hcap : 0 < Z.of_N (FoodBank.storage_capacity_pounds bank))
    by exact (fits_capacity d1 bank [] (Py.Int 0) H1 Hempty Hfit1).
  assert (Hratio : Py.truediv (Py.Int (Z.of_N (FoodBank.daily_average_need_pounds bank)))
                     (Py.Int 10) = Ok (Py.Float 1))
    by (rewrite Hneed; reflexivity).
  assert (Hscore1 : RouteOptimizer.allocation_score d1 (Py.Int 0) 10 bank = Ok (Py.Float 1)).
  { unfold RouteOptimizer.allocation_score.
    change (0 <? 10) with true. cbv iota. rewrite Hratio, Hself.
    cbn [mbind result_bind]. unfold Py.truediv.
    replace (Z.of_N (FoodBank.storage_capacity_pounds bank) =? 0) with false
      by (symmetry; apply Z.eqb_neq; lia).
    change (0 =? 0) with true. cbv iota.
    replace (Z.of_N (FoodBank.storage_capacity_pounds bank) <? 0) with false
      by (symmetry; apply Z.ltb_ge; lia).
    reflexivity. }
  destruct (add_tracks d1 (Py.Int 0) bank [] H1 Hempty Hmax Hfit1) as (w1 & Hadd & Hok1).
  assert (Hw1 : exists c1, w1 = Py.Decimal c1).
  { destruct H1 as (c & E & _). rewrite E in Hadd. injection Hadd as <-. eauto. }
  destruct Hw1 as (c1 & ->).
  assert (Hscore2 : RouteOptimizer.allocation_score d2 (Py.Decimal c1) 10 bank
                    = Raise TypeError).
  { unfold RouteOptimizer.allocation_score.
    change (0 <? 10) with true. cbv iota. rewrite Hratio.
    cbn [mbind result_bind]. unfold Py.truediv, Py.decimal_div.
    replace (Qeq_bool (inject_Z (Z.of_N (FoodBank.storage_capacity_pounds bank))) 0)
      with false; [reflexivity|].
    symmetry. destruct (Qeq_bool _ 0) eqn:E; [|reflexivity].
    apply Qeq_bool_iff in E. unfold Qeq, inject_Z in E. simpl in E. lia. }
  cbn [RouteOptimizer.allocate_loop].
  unfold RouteOptimizer._find_best_bank_for_donation.
  cbn [RouteOptimizer.best_bank_loop].
  unfold RouteOptimizer.best_bank_step.
  cbn [Py.dict_get]. rewrite !Z.eqb_refl. cbn [mbind result_bind].
  rewrite (has_room_fits d1 (Py.Int 0) bank [] H1 Hempty Hmax), Hfit1.
  cbn [mbind result_bind]. rewrite Hscore1. cbn [mbind result_bind snd].
  change (Py.lt (Py.Int (-1)) (Py.Float 1)) with (Ok true : result bool).
  cbn [mbind result_bind fst Py.dict_get]. rewrite !Z.eqb_refl, Hadd.
  cbn [mbind result_bind Py.dict_set Py.dict_get app]. rewrite !Z.eqb_refl.
  cbn [mbind result_bind Py.dict_get]. rewrite !Z.eqb_refl.
  cbn [mbind result_bind].
  rewrite (has_room_fits d2 (Py.Decimal c1) bank [d1] H2 Hok1 Hmax), Hfit2.
  cbn [mbind result_bind]. rewrite Hscore2. reflexivity.
Qed.

(** C2 does not hold of the code.  For two rows of the donation table
    and one bank with a daily need and with room for both, whatever the
    weights, the dates and the day, [_allocate_food_to_banks] returns no
    allocation: it raises [TypeError] when it scores the bank for the
    second donation. *)
Theorem allocation_raises_on_stored_rows (now : Z) (d1 d2 : FoodDonation.t)
    (capacity_pounds : N) :
  stored d1 -> stored d2 ->
  (pounds d1 + pounds d2 <= inject_Z (Z.of_N capacity_pounds))%Q ->
  Z.of_N capacity_pounds <= max_positive_integer ->
  0 < total_daily_need [Scenario.bank 1 10 capacity_pounds]
  /\ (Py.Qsum (map pounds [d1; d2])
      <= Py.Qsum (map capacity [Scenario.bank 1 10 capacity_pounds]))%Q
  /\ RouteOptimizer._allocate_food_to_banks now [d1; d2]
       [Scenario.bank 1 10 capacity_pounds]
     = Raise TypeError.
Proof.
  intros H1 H2 Hsum Hmax. split; [reflexivity|]. split.
  { simpl. unfold capacity. simpl. lra. }
  unfold RouteOptimizer._allocate_food_to_banks.
  change (Py.Zsum (map (fun bank => Z.of_N (FoodBank.daily_average_need_pounds bank))
                     [Scenario.bank 1 10 capacity_pounds])) with 10.
  cbn [fold_left Py.dict_set].
  unfold RouteOptimizer.sorted_donations, Py.sorted. cbn [fold_left Py.insert_by].
  destruct (RouteOptimizer.urgency_key now d1 <=? RouteOptimizer.urgency_key now d2).
  - apply second_row_raises; auto.
  - apply second_row_raises; auto.
    unfold capacity. simpl. lra.
Qed.

Lemma allocation_raises_on_stored_rows_witness :
  0 < total_daily_need [Scenario.bank 1 10 100]
  /\ Qle (Py.Qsum (map pounds [Scenario.row Scenario.store 1 2000 (Some 1) None;
                               Scenario.row Scenario.store 2 3000 (Some 10) None]))
         (Py.Qsum (map capacity [Scenario.bank 1 10 100]))
  /\ RouteOptimizer._allocate_food_to_banks 0
       [Scenario.row Scenario.store 1 2000 (Some 1) None;
        Scenario.row Scenario.store 2 3000 (Some 10) None]
       [Scenario.bank 1 10 100]
     = Raise TypeError.
Proof.
  apply (allocation_raises_on_stored_rows 0
           (Scenario.row Scenario.store 1 2000 (Some 1) None)
           (Scenario.row Scenario.store 2 3000 (Some 10) None) 100).
  - eexists. split; [reflexivity|lia].
  - eexists. split; [reflexivity|lia].
  - vm_compute. discriminate.
  - vm_compute. discriminate.
Defined.

(** ** The order in which donations are offered *)

Section StableSort.
Context {A : Type} (key : A -> Z).

Lemma filter_above (k : Z) (l : list A) :
  List.Forall (fun y => k < key y) l -> List.filter (fun y => key y =? k) l = [].
Proof.
  induction 1 as [|y l Hy _ IH]; simpl; [reflexivity|].
  replace (key y =? k) with false by (symmetry; apply Z.eqb_neq; lia). exact IH.
Qed.

(** Insertion keeps the elements of every key in their order, the new
    one last. *)
Lemma insert_by_stable (k : Z) (x : A) (l : list A) :
  StronglySorted (key_le key) l ->
  List.filter (fun y => key y =? k) (Py.insert_by key x l)
  = List.filter (fun y => key y =? k) l ++ (if key x =? k then [x] else []).
Proof.
  induction 1 as [|y l Hs IH Hy]; simpl; [reflexivity|].
  destruct (key y <=? key x) eqn:E; simpl.
  - rewrite IH. destruct (key y =? k); reflexivity.
  - apply Z.leb_gt in E. destruct (key x =? k) eqn:Ex.
    + apply Z.eqb_eq in Ex.
      replace (key y =? k) with false by (symmetry; apply Z.eqb_neq; lia).
      rewrite filter_above; [reflexivity|].
      rewrite List.Forall_forall in *. intros z Hz. specialize (Hy z Hz).
      unfold key_le in Hy. lia.
    + now rewrite app_nil_r.
Qed.

Lemma sorted_acc_stable (k : Z) (l acc : list A) :
  StronglySorted (key_le key) acc ->
  List.filter (fun y => key y =? k) (fold_left (fun acc x => Py.insert_by key x acc) l acc)
  = List.filter (fun y => key y =? k) acc ++ List.filter (fun y => key y =? k) l.
Proof.
  revert acc. induction l as [|x l IH]; intros acc Hacc; simpl.
  - now rewrite app_nil_r.
  - rewrite IH by now apply insert_by_sorted.
    rewrite insert_by_stable by exact Hacc.
    rewrite <- app_assoc. destruct (key x =? k); reflexivity.
Qed.

Lemma sorted_stable (k : Z) (l : list A) :
  List.filter (fun y => key y =? k) (Py.sorted key l) = List.filter (fun y => key y =? k) l.
Proof. unfold Py.sorted. rewrite sorted_acc_stable by constructor. reflexivity. Qed.

Lemma insert_by_last (x : A) (l : list A) :
  List.Forall (fun y => key y <= key x) l -> Py.insert_by key x l = l ++ [x].
Proof.
  induction 1 as [|y l Hy _ IH]; simpl; [reflexivity|].
  replace (key y <=? key x) with true by (symmetry; apply Z.leb_le; exact Hy).
  now rewrite IH.
Qed.

Lemma sorted_acc_sorted_input (l acc : list A) :
  StronglySorted (key_le key) (acc ++ l) ->
  fold_left (fun acc x => Py.insert_by key x acc) l acc = acc ++ l.
Proof.
  revert acc. induction l as [|x l IH]; intros acc Hs; simpl.
  - now rewrite app_nil_r.
  - rewrite insert_by_last.
    + rewrite IH; rewrite <- app_assoc; [reflexivity|exact Hs].
    + clear IH. induction acc as [|y acc IHacc]; simpl in *; [constructor|].
      inversion Hs as [|? ? Hs' Hall]. subst. constructor.
      * rewrite List.Forall_forall in Hall. apply Hall.
        apply in_or_app. right. now left.
      * now apply IHacc.
Qed.

(** Sorting a sorted list changes nothing. *)
Lemma sorted_of_sorted (l : list A) :
  StronglySorted (key_le key) l -> Py.sorted key l = l.
Proof. intros Hs. unfold Py.sorted. now rewrite sorted_acc_sorted_input. Qed.

End StableSort.

(** Every bucket lists its donations in the order in which the loop
    took them. *)
Lemma allocate_loop_order (food_banks : list FoodBank.t) (total_daily_need : Z) :
  forall (sorted taken : list FoodDonation.t)
         (A : list (FoodBank.t * list FoodDonation.t)) (W : list (FoodBank.t * Py.num))
         (allocation : list (FoodBank.t * list FoodDonation.t)),
    RouteOptimizer.allocate_loop sorted food_banks total_daily_need A W = Ok allocation ->
    (forall bank ds, In (bank, ds) A -> sublist ds taken) ->
    forall bank ds, In (bank, ds) allocation -> sublist ds (taken ++ sorted).
Proof.
  induction sorted as [|d rest IH]; intros taken A W allocation; simpl.
  - intros [= <-] HA bank ds Hin. rewrite app_nil_r. exact (HA bank ds Hin).
  - destruct (RouteOptimizer._find_best_bank_for_donation d food_banks W total_daily_need)
      as [[best|]|e]; cbn [mbind result_bind]; [| |discriminate].
    + destruct (Py.dict_get FoodBank.pk A best) as [ds0|] eqn:EA; [|discriminate].
      destruct (Py.dict_get FoodBank.pk W best) as [w|]; [|discriminate].
      destruct (Py.add w (FoodDonation.quantity_pounds d)) as [w'|e];
        cbn [mbind result_bind]; [|discriminate].
      intros Hrun HA bank ds Hin.
      replace (taken ++ d :: rest) with ((taken ++ [d]) ++ rest)
        by (rewrite <- app_assoc; reflexivity).
      refine (IH (taken ++ [d]) _ _ _ Hrun _ bank ds Hin).
      intros bank' ds' Hin'. apply dict_set_in in Hin'. destruct Hin' as [Hin'| ->].
      * apply sublist_inserts_r. exact (HA bank' ds' Hin').
      * destruct (dict_get_in FoodBank.pk A best ds0 EA) as (k0 & Hk0 & _).
        apply sublist_app; [exact (HA k0 ds0 Hk0)|reflexivity].
    + intros Hrun HA bank ds Hin.
      replace (taken ++ d :: rest) with ((taken ++ [d]) ++ rest)
        by (rewrite <- app_assoc; reflexivity).
      refine (IH (taken ++ [d]) _ _ _ Hrun _ bank ds Hin).
      intros bank' ds' Hin'. apply sublist_inserts_r. exact (HA bank' ds' Hin').
Qed.

Lemma dict_init_empty_buckets (food_banks : list FoodBank.t)
    (A : list (FoodBank.t * list FoodDonation.t)) :
  (forall bank ds, In (bank, ds) A -> ds = []) ->
  forall bank ds,
    In (bank, ds) (fold_left (fun d bank => Py.dict_set FoodBank.pk d bank []) food_banks A) ->
    ds = [].
Proof.
  revert A. induction food_banks as [|b banks IH]; intros A HA bank ds; simpl.
  - apply HA.
  - apply IH. intros bank' ds' Hin. apply dict_set_in in Hin.
    destruct Hin as [Hin|Hin]; [exact (HA bank' ds' Hin)|exact Hin].
Qed.

(** C4, as stated, fails: a donation with no expiration date and a
    sell-by date tomorrow is offered after a donation that expires in
    ten days. *)
Lemma sorted_by_nearest_date_counterexample :
  ~ StronglySorted (key_le (nearest_date_key 0))
      (RouteOptimizer.sorted_donations 0
         [Scenario.donation 1 10 None (Some 1); Scenario.donation 2 30 (Some 10) None]).
Proof.
  assert (E : RouteOptimizer.sorted_donations 0
                [Scenario.donation 1 10 None (Some 1); Scenario.donation 2 30 (Some 10) None]
              = [Scenario.donation 2 30 (Some 10) None; Scenario.donation 1 10 None (Some 1)])
    by reflexivity.
  rewrite E. intros H. inversion H as [|? ? _ HF]. subst.
  inversion HF as [|? ? Hle _]. subst. vm_compute in Hle. now apply Hle.
Qed.

(** C4, amended.  Before allocation the donations are sorted by their
    expiration date alone, a donation without an expiration date
    counting as today + 365 days whatever its sell-by date.  The order
    offered to the banks is a rearrangement of the input, ascending in
    this key, that keeps donations of the same key in the order of the
    input.  The allocation depends on the input through this order
    only: it is the allocation of the sorted list; and every bucket of
    an allocation lists its donations in this order. *)
Theorem donations_sorted_by_expiration (now : Z) (donations : list FoodDonation.t)
    (food_banks : list FoodBank.t) :
  let offered := RouteOptimizer.sorted_donations now donations in
  Permutation offered donations
  /\ StronglySorted (key_le (expiration_or_next_year now)) offered
  /\ (forall day,
        List.filter (fun d => expiration_or_next_year now d =? day) offered
        = List.filter (fun d => expiration_or_next_year now d =? day) donations)
  /\ RouteOptimizer._allocate_food_to_banks now donations food_banks
     = RouteOptimizer._allocate_food_to_banks now offered food_banks
  /\ (forall allocation,
        RouteOptimizer._allocate_food_to_banks now donations food_banks = Ok allocation ->
        forall bank ds, In (bank, ds) allocation -> sublist ds offered).
Proof.
  cbv zeta. split; [apply sorted_perm|]. split; [apply sorted_sorted|].
  split; [intros day; apply sorted_stable|]. split.
  - unfold RouteOptimizer._allocate_food_to_banks.
    destruct food_banks; [reflexivity|].
    unfold RouteOptimizer.sorted_donations.
    rewrite (sorted_of_sorted (RouteOptimizer.urgency_key now)
               (Py.sorted (RouteOptimizer.urgency_key now) donations))
      by apply sorted_sorted.
    reflexivity.
  - intros allocation. unfold RouteOptimizer._allocate_food_to_banks.
    destruct food_banks as [|bank0 banks] eqn:Ebanks.
    + intros [= <-] bank ds [].
    + rewrite <- Ebanks. intros Hrun bank ds Hin.
      refine (allocate_loop_order _ _ _ [] _ _ _ Hrun _ bank ds Hin).
      intros bank' ds' Hin'.
      rewrite (dict_init_empty_buckets food_banks [] (fun _ _ H => match H with end)
                 bank' ds' Hin').
      constructor.
Qed.
(** ** The duration of a route plan *)

Lemma process_pickups_duration (pickup_sequence : list PickupInfo.t) (t d : Z) :
  snd (RouteOptimizer.process_pickups pickup_sequence t d)
  = d + Py.Zsum (map PickupInfo.pickup_duration pickup_sequence).
Proof.
  revert t d. induction pickup_sequence as [|p rest IH]; intros t d; simpl; [lia|].
  specialize (IH (t + PickupInfo.pickup_duration p) (d + PickupInfo.pickup_duration p)).
  destruct (RouteOptimizer.process_pickups rest _ _) as [[r t'] d']. simpl in *. lia.
Qed.

Lemma process_deliveries_duration (delivery_sequence : list DeliveryInfo.t) (t d : Z) :
  snd (RouteOptimizer.process_deliveries delivery_sequence t d)
  = d + Py.Zsum (map DeliveryInfo.travel_time delivery_sequence)
      + Py.Zsum (map DeliveryInfo.delivery_duration delivery_sequence).
Proof.
  revert t d. induction delivery_sequence as [|x rest IH]; intros t d; simpl; [lia|].
  match goal with |- context [RouteOptimizer.process_deliveries rest ?a ?b] =>
    specialize (IH a b); destruct (RouteOptimizer.process_deliveries rest a b) as [[r t'] d']
  end.
  simpl in *. lia.
Qed.

(** What [_create_route_plan] reports: the dwell time of the pickups and
    the travel and dwell time of the deliveries. *)
Lemma create_route_plan_total_duration (region : Region.t)
    (pickup_sequence : list PickupInfo.t) (delivery_sequence : list DeliveryInfo.t)
    (target_date : Z) (plan : RoutePlan.t) :
  RouteOptimizer._create_route_plan region pickup_sequence delivery_sequence target_date
  = Ok plan ->
  RoutePlan.total_duration_minutes plan
  = Py.Zsum (map PickupInfo.pickup_duration pickup_sequence)
    + Py.Zsum (map DeliveryInfo.travel_time delivery_sequence)
    + Py.Zsum (map DeliveryInfo.delivery_duration delivery_sequence).
Proof.
  unfold RouteOptimizer._create_route_plan.
  pose proof (process_pickups_duration pickup_sequence (at_8am target_date) 0) as Hp.
  destruct (RouteOptimizer.process_pickups pickup_sequence _ _) as [[ps t] d].
  pose proof (process_deliveries_duration delivery_sequence t d) as Hd.
  destruct (RouteOptimizer.process_deliveries delivery_sequence _ _) as [[ds t'] d'].
  destruct (RouteOptimizer._calculate_efficiency_score region ps ds); simpl; [|discriminate].
  intros [= <-]. simpl in *. lia.
Qed.

(** C1 does not hold of the code.  For one donation of 10 pounds and a
    region without food banks, whatever the distances and the day, the
    plan reports 17 minutes, the dwell time of the single pickup; the
    travel from the depot to the store, which the pickup planner put on
    the clock and which is at least 5 minutes, is not in the total. *)
Theorem total_duration_omits_pickup_travel (geodesic_miles : Q * Q -> Q * Q -> Q) (now : Z) :
  exists plan,
    RouteOptimizer.optimize_route geodesic_miles now (Scenario.region [])
      [Scenario.donation 1 10 None None] None = Ok plan
    /\ RoutePlan.total_duration_minutes plan = 17
    /\ spec_total_duration now plan
       = 17 + RouteOptimizer.travel_minutes geodesic_miles
                (RouteOptimizer.region_center (Scenario.region []))
                (RouteOptimizer.store_location Scenario.store)
    /\ RoutePlan.total_duration_minutes plan + 5 <= spec_total_duration now plan.
Proof.
  assert (Hd : RouteOptimizer._estimate_pickup_duration [Scenario.donation 1 10 None None]
               = Ok 17) by reflexivity.
  assert (Hs : Py.sum (weights [Scenario.donation 1 10 None None])
               = Ok (Py.Float 10)) by reflexivity.
  assert (Hc : RouteOptimizer.valid_point (RouteOptimizer.region_center (Scenario.region []))
               = true) by reflexivity.
  assert (Hv : RouteOptimizer.valid_point (RouteOptimizer.store_location Scenario.store)
               = true) by reflexivity.
  assert (E : forall t travel, Py.Zsum [t + travel - t] = travel)
    by (intros; simpl; lia).
  eexists. split.
  { unfold RouteOptimizer.optimize_route.
    cbn -[Z.add Z.sub Z.mul Z.max at_8am date_of Py.Zsum
          RouteOptimizer._estimate_pickup_duration Py.sum Py.exact weights
          RouteOptimizer._calculate_travel_time].
    rewrite Hd.
    cbn -[Z.add Z.sub Z.mul Z.max at_8am date_of Py.Zsum
          RouteOptimizer._estimate_pickup_duration Py.sum Py.exact weights
          RouteOptimizer._calculate_travel_time].
    rewrite Hs, Hc, Hv.
    cbn -[Z.add Z.sub Z.mul Z.max at_8am date_of Py.Zsum Py.exact
          RouteOptimizer._calculate_travel_time].
    reflexivity. }
  split; [reflexivity|].
  unfold spec_total_duration.
  cbn -[Z.add Z.sub Z.mul Z.max at_8am date_of Py.Zsum Py.exact
        RouteOptimizer._calculate_travel_time].
  unfold RouteOptimizer._calculate_travel_time. rewrite E.
  split.
  - cbn -[RouteOptimizer.travel_minutes]. lia.
  - unfold RouteOptimizer.travel_minutes. cbn -[Z.max Py.int]. lia.
Qed.

(** ** Nearest-neighbour sequences *)

Section NearestFacts.
Context (geodesic_miles : Q * Q -> Q * Q -> Q).
Context {L : Type} (location_of : L -> Q * Q) (current_location : Q * Q).

Lemma nearer_fold (l : list L) (acc : option Q * option L) :
  (fst acc = None -> snd acc = None) ->
  (snd acc = None -> fst acc = None) ->
  let r := fold_left (RouteOptimizer.nearer geodesic_miles location_of current_location) l acc in
  (forall x, snd r = Some x -> In x l \/ snd acc = Some x)
  /\ (l <> [] -> snd r <> None).
Proof.
  revert acc. induction l as [|y l IH]; intros acc H1 H2; simpl.
  - split; [auto|congruence].
  - set (acc' := RouteOptimizer.nearer geodesic_miles location_of current_location acc y).
    assert (Hacc' : (acc' = acc /\ fst acc <> None)
                    \/ exists d, acc' = (Some d, Some y)).
    { unfold acc', RouteOptimizer.nearer. destruct (fst acc) as [m|] eqn:E.
      - destruct (Py.Qltb _ m); [right; eauto|left; split; [reflexivity|congruence]].
      - right; eauto. }
    destruct Hacc' as [[-> Hne]|[d ->]].
    + destruct (IH acc H1 H2) as [Ha Hb]. split.
      * intros x Hx. destruct (Ha x Hx); auto.
      * intros _. destruct l as [|z l]; [simpl; auto|apply Hb; discriminate].
    + destruct (IH (Some d, Some y)) as [Ha Hb]; [discriminate|discriminate|].
      split.
      * intros x Hx. destruct (Ha x Hx) as [H|H]; [auto|].
        simpl in H. injection H as <-. auto.
      * intros _. destruct l as [|z l]; [simpl; discriminate|apply Hb; discriminate].
Qed.

Lemma nearest_in (x0 : L) (l : list L) :
  exists x,
    snd (fold_left (RouteOptimizer.nearer geodesic_miles location_of current_location)
           (x0 :: l) (None, None)) = Some x
    /\ In x (x0 :: l).
Proof.
  destruct (nearer_fold (x0 :: l) (None, None)) as [Ha Hb]; [auto|auto|].
  cbv zeta in Ha, Hb.
  destruct (snd (fold_left _ (x0 :: l) (None, None))) as [x|] eqn:E.
  - exists x. split; [reflexivity|]. destruct (Ha x eq_refl) as [H|H]; [exact H|discriminate].
  - exfalso. apply Hb; [discriminate|reflexivity].
Qed.

End NearestFacts.


Lemma list_remove_ok {K : Type} (pk : K -> Z) (x : K) (l : list K) :
  In x l -> exists r, Py.list_remove pk x l = Ok r.
Proof.
  induction l as [|y l IH]; simpl; [tauto|].
  intros Hin. destruct (pk y =? pk x) eqn:E; [eauto|].
  destruct Hin as [->|Hin]; [rewrite Z.eqb_refl in E; discriminate|].
  destruct (IH Hin) as (r & ->). eauto.
Qed.

(** The sum of the weights of rows of the table is a [Decimal]. *)
Lemma sum_from_decimal (ds : list FoodDonation.t) :
  List.Forall from_table ds ->
  forall acc, exists q, Py.sum_from (Py.Decimal acc) (weights ds) = Ok (Py.Decimal q).
Proof.
  induction 1 as [|d ds Hd _ IH]; intros acc; simpl; [eauto|].
  unfold from_table in Hd. destruct (FoodDonation.quantity_pounds d); try contradiction.
  cbn [Py.add Py.binop mbind result_bind]. apply IH.
Qed.

Lemma sum_decimal (ds : list FoodDonation.t) :
  ds <> [] -> List.Forall from_table ds ->
  exists q, Py.sum (weights ds) = Ok (Py.Decimal q).
Proof.
  intros Hne Hall. destruct Hall as [|d ds Hd Hall]; [congruence|].
  unfold Py.sum. simpl. unfold from_table in Hd.
  destruct (FoodDonation.quantity_pounds d); try contradiction.
  cbn [Py.add Py.binop mbind result_bind]. now apply sum_from_decimal.
Qed.

(** The dwell times of rows of the table: the weight, a [Decimal], is
    multiplied by a [float]. *)
Lemma dwell_raises_on_rows (ds : list FoodDonation.t) :
  ds <> [] -> List.Forall from_table ds ->
  RouteOptimizer._estimate_pickup_duration ds = Raise TypeError
  /\ RouteOptimizer._estimate_delivery_duration ds = Raise TypeError.
Proof.
  intros Hne Hall. destruct (sum_decimal ds Hne Hall) as (q & Hq).
  unfold RouteOptimizer._estimate_pickup_duration,
    RouteOptimizer._estimate_delivery_duration.
  rewrite Hq. split; reflexivity.
Qed.

Section RowsRaise.
Context (geodesic_miles : Q * Q -> Q * Q -> Q) (now : Z) (region : Region.t).

Lemma pickup_loop_raises (store_donations : list (GroceryStore.t * list FoodDonation.t))
    (fuel : nat) (current_location : Q * Q) (store : GroceryStore.t)
    (stores : list GroceryStore.t) (current_time : Z) :
  (forall s, In s (store :: stores) ->
     exists ds, Py.dict_get GroceryStore.pk store_donations s = Some ds
                /\ ds <> [] /\ List.Forall from_table ds) ->
  RouteOptimizer.pickup_loop geodesic_miles (S fuel) store_donations current_location
    (store :: stores) current_time
  = Raise (if forallb RouteOptimizer.valid_point
                (current_location :: map RouteOptimizer.store_location (store :: stores))
           then TypeError else ValueError).
Proof.
  intros Hget. cbn [RouteOptimizer.pickup_loop]. unfold RouteOptimizer.check_points.
  cbn [map].
  destruct (forallb RouteOptimizer.valid_point _); [|reflexivity].
  cbn [mbind result_bind]. unfold RouteOptimizer._find_nearest_store.
  destruct (nearest_in geodesic_miles RouteOptimizer.store_location current_location
              store stores) as (x & -> & Hx).
  destruct (list_remove_ok GroceryStore.pk x (store :: stores) Hx) as (r & ->).
  destruct (Hget x Hx) as (ds & -> & Hne & Hall). cbn [mbind result_bind].
  now rewrite (proj1 (dwell_raises_on_rows ds Hne Hall)).
Qed.

Lemma delivery_loop_raises (banks_with_food : list (FoodBank.t * list FoodDonation.t))
    (fuel : nat) (current_location : Q * Q) (bank : FoodBank.t)
    (banks : list FoodBank.t) :
  (forall b, In b (bank :: banks) ->
     exists ds, Py.dict_get FoodBank.pk banks_with_food b = Some ds
                /\ ds <> [] /\ List.Forall from_table ds) ->
  RouteOptimizer.delivery_loop geodesic_miles (S fuel) banks_with_food current_location
    (bank :: banks)
  = Raise (if forallb RouteOptimizer.valid_point
                (current_location :: map RouteOptimizer.bank_location (bank :: banks))
           then TypeError else ValueError).
Proof.
  intros Hget. cbn [RouteOptimizer.delivery_loop]. unfold RouteOptimizer.check_points.
  cbn [map].
  destruct (forallb RouteOptimizer.valid_point _); [|reflexivity].
  cbn [mbind result_bind]. unfold RouteOptimizer._find_nearest_bank.
  destruct (nearest_in geodesic_miles RouteOptimizer.bank_location current_location
              bank banks) as (x & -> & Hx).
  destruct (list_remove_ok FoodBank.pk x (bank :: banks) Hx) as (r & ->).
  destruct (Hget x Hx) as (ds & -> & Hne & Hall). cbn [mbind result_bind].
  now rewrite (proj2 (dwell_raises_on_rows ds Hne Hall)).
Qed.

End RowsRaise.

Lemma banks_with_food_nonempty (food_allocation : list (FoodBank.t * list FoodDonation.t))
    (k : FoodBank.t) (ds : list FoodDonation.t) :
  In (k, ds) (RouteOptimizer.banks_with_food food_allocation) ->
  ds <> [] /\ In (k, ds) food_allocation.
Proof.
  unfold RouteOptimizer.banks_with_food. rewrite List.filter_In. simpl.
  intros [Hin Hne]. split; [|exact Hin]. destruct ds; [discriminate|discriminate].
Qed.

Lemma pickup_planner_raises (geodesic_miles : Q * Q -> Q * Q -> Q) (now : Z)
    (region : Region.t) (store_donations : list (GroceryStore.t * list FoodDonation.t)) :
  store_donations <> [] ->
  (forall store ds, In (store, ds) store_donations ->
     ds <> [] /\ List.Forall from_table ds) ->
  RouteOptimizer._optimize_pickup_sequence geodesic_miles now region store_donations
  = Raise (if forallb RouteOptimizer.valid_point
                (RouteOptimizer.region_center region
                 :: map RouteOptimizer.store_location (Py.dict_keys store_donations))
           then TypeError else ValueError).
Proof.
  intros Hs Hrows. unfold RouteOptimizer._optimize_pickup_sequence.
  destruct store_donations as [|kv rest] eqn:E; [congruence|].
  rewrite <- E in *.
  assert (Hkeys : exists k ks, Py.dict_keys store_donations = k :: ks)
    by (rewrite E; simpl; eauto).
  destruct Hkeys as (k & ks & Hk). rewrite Hk. cbn [length].
  apply pickup_loop_raises. rewrite <- Hk. intros s Hin.
  destruct (dict_get_keys GroceryStore.pk store_donations s Hin) as (ds & Hds).
  exists ds. split; [exact Hds|].
  destruct (dict_get_in GroceryStore.pk store_donations s ds Hds) as (k0 & Hk0 & _).
  exact (Hrows k0 ds Hk0).
Qed.

Lemma delivery_planner_raises (geodesic_miles : Q * Q -> Q * Q -> Q) (region : Region.t)
    (food_allocation : list (FoodBank.t * list FoodDonation.t)) :
  RouteOptimizer.banks_with_food food_allocation <> [] ->
  (forall bank ds, In (bank, ds) food_allocation -> List.Forall from_table ds) ->
  RouteOptimizer._optimize_delivery_sequence geodesic_miles region food_allocation
  = Raise (if forallb RouteOptimizer.valid_point
                (RouteOptimizer.region_center region
                 :: map RouteOptimizer.bank_location
                      (Py.dict_keys (RouteOptimizer.banks_with_food food_allocation)))
           then TypeError else ValueError).
Proof.
  intros Hb Hbuckets. unfold RouteOptimizer._optimize_delivery_sequence.
  destruct (RouteOptimizer.banks_with_food food_allocation) as [|kv rest] eqn:E;
    [congruence|].
  rewrite <- E in *.
  assert (Hkeys : exists k ks,
            Py.dict_keys (RouteOptimizer.banks_with_food food_allocation) = k :: ks)
    by (rewrite E; simpl; eauto).
  destruct Hkeys as (k & ks & Hk). rewrite Hk. cbn [length].
  apply delivery_loop_raises. rewrite <- Hk. intros b Hin.
  destruct (dict_get_keys FoodBank.pk _ b Hin) as (ds & Hds).
  exists ds. split; [exact Hds|].
  destruct (dict_get_in FoodBank.pk _ b ds Hds) as (k0 & Hk0 & _).
  destruct (banks_with_food_nonempty food_allocation k0 ds Hk0) as [Hne Hin0].
  split; [exact Hne|exact (Hbuckets k0 ds Hin0)].
Qed.

(** C5 does not hold of the code.  On donations read from the table
    neither planner returns a sequence for an input that is not empty:
    the pickup planner raises on the dwell time of the first store it
    reaches, and the delivery planner on that of the first bank;
    [TypeError] when geopy accepts the coordinates and [ValueError]
    when a latitude is out of range.  An empty input gives the empty
    sequence. *)
Theorem sequence_planners_raise_on_stored_rows (geodesic_miles : Q * Q -> Q * Q -> Q)
    (now : Z) (region : Region.t)
    (store_donations : list (GroceryStore.t * list FoodDonation.t))
    (food_allocation : list (FoodBank.t * list FoodDonation.t)) :
  store_donations <> [] ->
  (forall store ds, In (store, ds) store_donations ->
     ds <> [] /\ List.Forall from_table ds) ->
  RouteOptimizer.banks_with_food food_allocation <> [] ->
  (forall bank ds, In (bank, ds) food_allocation -> List.Forall from_table ds) ->
  RouteOptimizer._optimize_pickup_sequence geodesic_miles now region store_donations
  = Raise (if forallb RouteOptimizer.valid_point
                (RouteOptimizer.region_center region
                 :: map RouteOptimizer.store_location (Py.dict_keys store_donations))
           then TypeError else ValueError)
  /\ RouteOptimizer._optimize_delivery_sequence geodesic_miles region food_allocation
     = Raise (if forallb RouteOptimizer.valid_point
                   (RouteOptimizer.region_center region
                    :: map RouteOptimizer.bank_location
                         (Py.dict_keys (RouteOptimizer.banks_with_food food_allocation)))
              then TypeError else ValueError)
  /\ RouteOptimizer._optimize_pickup_sequence geodesic_miles now region [] = Ok []
  /\ RouteOptimizer._optimize_delivery_sequence geodesic_miles region [] = Ok [].
Proof.
  intros Hs Hrows Hb Hbuckets. split; [|split; [|split; reflexivity]].
  - now apply pickup_planner_raises.
  - now apply delivery_planner_raises.
Qed.

Lemma sequence_planners_raise_on_stored_rows_witness :
  RouteOptimizer._optimize_pickup_sequence Scenario.miles 0 (Scenario.region Scenario.banks)
    [(Scenario.store, [Scenario.row Scenario.store 1 2000 (Some 1) None;
                       Scenario.row Scenario.store 2 3000 (Some 10) None]);
     (Scenario.market, [Scenario.row Scenario.market 3 4550 None None])]
  = Raise TypeError
  /\ RouteOptimizer._optimize_delivery_sequence Scenario.miles
       (Scenario.region Scenario.banks)
       [(Scenario.bank 1 500 1000,
         [Scenario.row Scenario.store 1 2000 (Some 1) None;
          Scenario.row Scenario.market 3 4550 None None]);
        (Scenario.bank 2 100 1000, [Scenario.row Scenario.store 2 3000 (Some 10) None])]
     = Raise TypeError
  /\ RouteOptimizer._optimize_pickup_sequence Scenario.miles 0
       (Scenario.region Scenario.banks) [] = Ok []
  /\ RouteOptimizer._optimize_delivery_sequence Scenario.miles
       (Scenario.region Scenario.banks) [] = Ok [].
Proof.
  apply (sequence_planners_raise_on_stored_rows Scenario.miles 0
           (Scenario.region Scenario.banks)
           [(Scenario.store, [Scenario.row Scenario.store 1 2000 (Some 1) None;
                              Scenario.row Scenario.store 2 3000 (Some 10) None]);
            (Scenario.market, [Scenario.row Scenario.market 3 4550 None None])]
           [(Scenario.bank 1 500 1000,
             [Scenario.row Scenario.store 1 2000 (Some 1) None;
              Scenario.row Scenario.market 3 4550 None None]);
            (Scenario.bank 2 100 1000,
             [Scenario.row Scenario.store 2 3000 (Some 10) None])]).
  - discriminate.
  - intros store ds [[= <- <-]|[[= <- <-]|[]]]; (split; [discriminate|repeat constructor]).
  - discriminate.
  - intros bank ds [[= <- <-]|[[= <- <-]|[]]]; repeat constructor.
Defined.
(** ** Text classification *)

Lemma startswith_space (p : string) (c : ascii) (s : string) :
  p <> EmptyString -> no_space p -> Py.is_space c = true ->
  Py.startswith p (String c s) = false.
Proof.
  destruct p as [|a p]; [congruence|]. intros _ [Ha _] Hc. simpl.
  destruct (Ascii.eqb a c) eqn:E; [|reflexivity].
  apply Ascii.eqb_eq in E. congruence.
Qed.

Lemma contains_lstrip (p s : string) :
  p <> EmptyString -> no_space p -> Py.contains p (Py.lstrip s) = Py.contains p s.
Proof.
  intros Hne Hp. induction s as [|c s IH]; [reflexivity|].
  cbn [Py.lstrip]. destruct (Py.is_space c) eqn:Hc; [|reflexivity].
  rewrite IH. cbn [Py.contains]. now rewrite startswith_space.
Qed.

Lemma startswith_rstrip (p s : string) :
  no_space p -> Py.startswith p (Py.rstrip s) = Py.startswith p s.
Proof.
  revert p. induction s as [|c s IH]; intros p Hp; [reflexivity|].
  destruct p as [|a p]; [reflexivity|]. destruct Hp as [Ha Hp].
  specialize (IH p Hp). cbn [Py.rstrip].
  destruct (Py.rstrip s) as [|c' r] eqn:Er.
  - destruct (Py.is_space c) eqn:Hc.
    + symmetry. apply startswith_space; [discriminate|split; assumption|exact Hc].
    + cbn [Py.startswith]. now rewrite <- IH.
  - cbn [Py.startswith]. now rewrite <- IH.
Qed.

Lemma contains_rstrip (p s : string) :
  p <> EmptyString -> no_space p -> Py.contains p (Py.rstrip s) = Py.contains p s.
Proof.
  intros Hne Hp. induction s as [|c s IH]; [reflexivity|].
  pose proof (startswith_rstrip p (String c s) Hp) as Hs.
  cbn [Py.rstrip] in *. cbn [Py.contains]. rewrite <- IH, <- Hs.
  destruct (Py.rstrip s) as [|c' r] eqn:Er.
  - destruct (Py.is_space c); cbn [Py.contains];
      destruct p; try congruence; simpl; now rewrite ?orb_false_r.
  - reflexivity.
Qed.

Lemma contains_strip (p s : string) :
  p <> EmptyString -> no_space p -> Py.contains p (Py.strip s) = Py.contains p s.
Proof.
  intros Hne Hp. unfold Py.strip. now rewrite contains_rstrip, contains_lstrip.
Qed.

Lemma contains_confirmed_strip (s : string) :
  Py.contains "confirmed" (Py.strip s) = Py.contains "confirmed" s.
Proof. apply contains_strip; [discriminate|repeat split]. Qed.

Lemma contains_reschedule_strip (s : string) :
  Py.contains "reschedule" (Py.strip s) = Py.contains "reschedule" s.
Proof. apply contains_strip; [discriminate|repeat split]. Qed.

(** ** Processing a response *)

Section ResponseFacts.
Context (str_exn : exn -> string).

Lemma db_write_no_faults (f : World -> World) (w : World) :
  db_faults w = [] -> db_write f w = (Ok tt, f w).
Proof. intros H. unfold db_write. now rewrite H. Qed.

Lemma process_confirmed (stop_id : Z) (response_content : string) (w : World)
    (s : RouteStop.t) :
  db_stops w !! stop_id = Some s ->
  db_faults w = [] ->
  Py.contains "confirmed" (Py.lower response_content) = true ->
  ConfirmationWorkflowService.process_email_response str_exn stop_id response_content w
  = (Ok (ConfirmationWorkflowService.response stop_id true (Some "confirmed"%string)
           "Pickup/delivery confirmed successfully"),
     confirmed_world stop_id s response_content w).
Proof.
  intros Hs Hf Hc.
  unfold ConfirmationWorkflowService.process_email_response, try_except, get_stop.
  unfold mbind, M_bind. rewrite Hs. cbn [fst snd].
  rewrite contains_confirmed_strip, Hc.
  unfold timezone_now, get_world, mret, M_ret.
  rewrite db_write_no_faults by exact Hf.
  unfold confirmed_world. cbn [db_notifications put_stop].
  destruct (first_sent stop_id (db_notifications w)) as [[i n]|]; [|reflexivity].
  rewrite db_write_no_faults by exact Hf. reflexivity.
Qed.

Lemma process_annotated (stop_id : Z) (response_content : string) (w : World)
    (s : RouteStop.t) :
  db_stops w !! stop_id = Some s ->
  db_faults w = [] ->
  Py.contains "confirmed" (Py.lower response_content) = false ->
  ConfirmationWorkflowService.process_email_response str_exn stop_id response_content w
  = if Py.contains "reschedule" (Py.lower response_content)
    then (Ok (ConfirmationWorkflowService.response stop_id true
                (Some "reschedule_requested"%string)
                "Reschedule request received - manual review required"),
          annotated_world stop_id s
            (String.append "Reschedule requested: " response_content) w)
    else (Ok (ConfirmationWorkflowService.response stop_id true
                (Some "response_recorded"%string)
                "Response recorded - may require manual review"),
          annotated_world stop_id s
            (String.append "Response received: " response_content) w).
Proof.
  intros Hs Hf Hc.
  unfold ConfirmationWorkflowService.process_email_response, try_except, get_stop.
  unfold mbind, M_bind. rewrite Hs. cbn [fst snd].
  rewrite contains_confirmed_strip, Hc, contains_reschedule_strip.
  unfold mret, M_ret, annotated_world.
  destruct (Py.contains "reschedule" (Py.lower response_content));
    rewrite db_write_no_faults by exact Hf; reflexivity.
Qed.

Lemma first_sent_spec (stop_id : Z) (ns : list Notification.t) (i : nat)
    (n : Notification.t) :
  first_sent stop_id ns = Some (i, n) ->
  ns !! i = Some n
  /\ sent_for stop_id n = true
  /\ forall m, In m ns -> sent_for stop_id m = true ->
       Notification.created_at m <= Notification.created_at n.
Proof.
  unfold first_sent.
  assert (G : forall (l : list Notification.t) (k : nat) (best : option (nat * Notification.t))
                     (pre : list Notification.t),
             length pre = k -> ns = pre ++ l ->
             (forall j b, best = Some (j, b) ->
                ns !! j = Some b /\ sent_for stop_id b = true
                /\ forall m, In m pre -> sent_for stop_id m = true ->
                     Notification.created_at m <= Notification.created_at b) ->
             (best = None -> forall m, In m pre -> sent_for stop_id m = false) ->
             forall j b,
               fold_left
                 (fun best '(i, n) =>
                    if sent_for stop_id n then
                      match best with
                      | None => Some (i, n)
                      | Some (_, b) =>
                          if Notification.created_at b <=? Notification.created_at n
                          then Some (i, n) else best
                      end
                    else best)
                 (combine (seq k (length l)) l) best = Some (j, b) ->
               ns !! j = Some b /\ sent_for stop_id b = true
               /\ forall m, In m ns -> sent_for stop_id m = true ->
                    Notification.created_at m <= Notification.created_at b).
  { induction l as [|x l IH]; intros k best pre Hlen Hns Hbest Hnone j b; simpl.
    - intros E. rewrite app_nil_r in Hns. subst pre. eauto.
    - apply (IH (S k) _ (pre ++ [x])).
      + rewrite length_app. simpl. lia.
      + rewrite <- app_assoc. exact Hns.
      + intros j' b'. destruct (sent_for stop_id x) eqn:Ex.
        * assert (Hx : ns !! k = Some x).
          { rewrite Hns, lookup_app_r by lia.
            replace (k - length pre)%nat with 0%nat by lia. reflexivity. }
          destruct best as [[j0 b0]|].
          -- destruct (Hbest j0 b0 eq_refl) as (H1 & H2 & H3).
             destruct (Notification.created_at b0 <=? Notification.created_at x) eqn:Ele.
             ++ intros [= <- <-]. apply Z.leb_le in Ele.
                split; [exact Hx|]. split; [exact Ex|].
                intros m Hm Hsm. apply in_app_or in Hm.
                destruct Hm as [Hm|[<-|[]]]; [|lia].
                specialize (H3 m Hm Hsm). lia.
             ++ intros [= <- <-]. apply Z.leb_gt in Ele.
                split; [exact H1|]. split; [exact H2|].
                intros m Hm Hsm. apply in_app_or in Hm.
                destruct Hm as [Hm|[<-|[]]]; [|lia]. now apply H3.
          -- intros [= <- <-]. split; [exact Hx|]. split; [exact Ex|].
             intros m Hm Hsm. apply in_app_or in Hm.
             destruct Hm as [Hm|[<-|[]]]; [|lia].
             rewrite (Hnone eq_refl m Hm) in Hsm. discriminate.
        * intros E. destruct (Hbest j' b' E) as (H1 & H2 & H3).
          split; [exact H1|]. split; [exact H2|].
          intros m Hm Hsm. apply in_app_or in Hm.
          destruct Hm as [Hm|[<-|[]]]; [now apply H3|congruence].
      + destruct (sent_for stop_id x) eqn:Ex.
        * destruct best as [[j0 b0]|]; [|discriminate].
          destruct (_ <=? _); discriminate.
        * intros E m Hm. apply in_app_or in Hm.
          destruct Hm as [Hm|[<-|[]]]; [now apply Hnone|exact Ex]. }
  apply (G ns 0%nat None []); auto; try discriminate. intros _ m [].
Qed.

End ResponseFacts.

Lemma confirmed_world_stops (stop_id : Z) (s : RouteStop.t) (text : string) (w : World) :
  db_stops (confirmed_world stop_id s text w)
  = <[stop_id := ConfirmationWorkflowService.confirm_stop s (clock w)]> (db_stops w).
Proof.
  unfold confirmed_world. destruct (first_sent stop_id (db_notifications w)) as [[i n]|];
    reflexivity.
Qed.

(** C6, as stated, fails: a stop whose notes read "Leave at dock 4"
    and that receives the response "reschedule" ends with the notes
    "Reschedule requested: reschedule"; the annotation has replaced the
    previous notes instead of being appended to them. *)
Lemma reschedule_appends_counterexample :
  exists s',
    db_stops (snd (ConfirmationWorkflowService.process_email_response ScenarioDb.str_exn
                     7 "reschedule" (ScenarioDb.world []))) !! 7 = Some s'
    /\ RouteStop.notes s' = "Reschedule requested: reschedule"%string
    /\ ~ exists annotation,
           RouteStop.notes s' = String.append "Leave at dock 4" annotation.
Proof.
  eexists. split; [reflexivity|]. split; [reflexivity|].
  intros [annotation H]. discriminate H.
Qed.

(** C6, amended.  For an existing stop, a database without faults and
    sent notifications of the stop that were created at different
    times, the response is classified on its lower-cased text.  If it
    contains "confirmed", the stop becomes confirmed with
    [confirmed_at] the current time and its notes unchanged, and the
    sent notification of the stop that was created last, when the stop
    has one, is marked as responded with the response text: every other
    sent notification of the stop is strictly older.  Otherwise the
    confirmation flag is unchanged and the notes of the stop are
    replaced, not extended, by "Reschedule requested: " followed by the
    text when it contains "reschedule", and by "Response received: "
    followed by the text when it does not; no notification changes. *)
Theorem record_response_classifies (str_exn : exn -> string) (stop_id : Z)
    (response_content : string) (w : World) (s : RouteStop.t) :
  db_stops w !! stop_id = Some s ->
  db_faults w = [] ->
  distinct_creation stop_id (db_notifications w) ->
  ConfirmationWorkflowService.process_email_response str_exn stop_id response_content w
  = (if Py.contains "confirmed" (Py.lower response_content) then
       (Ok (ConfirmationWorkflowService.response stop_id true (Some "confirmed"%string)
              "Pickup/delivery confirmed successfully"),
        confirmed_world stop_id s response_content w)
     else if Py.contains "reschedule" (Py.lower response_content) then
       (Ok (ConfirmationWorkflowService.response stop_id true
              (Some "reschedule_requested"%string)
              "Reschedule request received - manual review required"),
        annotated_world stop_id s
          (String.append "Reschedule requested: " response_content) w)
     else
       (Ok (ConfirmationWorkflowService.response stop_id true
              (Some "response_recorded"%string)
              "Response recorded - may require manual review"),
        annotated_world stop_id s
          (String.append "Response received: " response_content) w))
  /\ (exists s',
        db_stops (confirmed_world stop_id s response_content w) !! stop_id = Some s'
        /\ RouteStop.is_confirmed s' = true
        /\ RouteStop.confirmed_at s' = Some (clock w)
        /\ RouteStop.notes s' = RouteStop.notes s)
  /\ match first_sent stop_id (db_notifications w) with
     | Some (i, n) =>
         db_notifications w !! i = Some n
         /\ sent_for stop_id n = true
         /\ (forall j m, db_notifications w !! j = Some m -> sent_for stop_id m = true ->
               j <> i -> Notification.created_at m < Notification.created_at n)
         /\ db_notifications (confirmed_world stop_id s response_content w)
            = <[i := ConfirmationWorkflowService.record_response n response_content]>
                (db_notifications w)
     | None =>
         db_notifications (confirmed_world stop_id s response_content w)
         = db_notifications w
     end
  /\ (forall annotation,
        exists s',
          db_stops (annotated_world stop_id s annotation w) !! stop_id = Some s'
          /\ RouteStop.is_confirmed s' = RouteStop.is_confirmed s
          /\ RouteStop.confirmed_at s' = RouteStop.confirmed_at s
          /\ RouteStop.notes s' = annotation)
  /\ (forall annotation,
        db_notifications (annotated_world stop_id s annotation w) = db_notifications w).
Proof.
  intros Hs Hf Hdistinct. split; [|split; [|split; [|split]]].
  - destruct (Py.contains "confirmed" (Py.lower response_content)) eqn:Hc.
    + now apply process_confirmed.
    + now apply process_annotated.
  - eexists. rewrite confirmed_world_stops, lookup_insert_eq.
    split; [reflexivity|]. repeat split.
  - unfold confirmed_world.
    destruct (first_sent stop_id (db_notifications w)) as [[i n]|] eqn:E; [|reflexivity].
    destruct (first_sent_spec stop_id (db_notifications w) i n E) as (H1 & H2 & H3).
    split; [exact H1|]. split; [exact H2|]. split; [|reflexivity].
    intros j m Hj Hm Hji.
    assert (Hle : Notification.created_at m <= Notification.created_at n).
    { apply H3; [|exact Hm]. apply list_elem_of_In. eapply list_elem_of_lookup_2, Hj. }
    assert (Hne : Notification.created_at m <> Notification.created_at n).
    { intros Heq. apply Hji. exact (Hdistinct j i m n Hj H1 Hm H2 Heq). }
    lia.
  - intros annotation. eexists. unfold annotated_world. cbn [db_stops put_stop].
    rewrite lookup_insert_eq. split; [reflexivity|]. repeat split.
  - reflexivity.
Qed.

Lemma record_response_classifies_witness :
  ConfirmationWorkflowService.process_email_response ScenarioDb.str_exn 7
    "CONFIRMED, see you then" (ScenarioDb.world [])
  = (Ok (ConfirmationWorkflowService.response 7 true (Some "confirmed"%string)
           "Pickup/delivery confirmed successfully"),
     confirmed_world 7 (ScenarioDb.pickup_stop false "Leave at dock 4")
       "CONFIRMED, see you then" (ScenarioDb.world []))
  /\ first_sent 7 (db_notifications (ScenarioDb.world []))
     = Some (1%nat, ScenarioDb.notification 7 200 true).
Proof.
  split; [|reflexivity].
  refine (proj1 (record_response_classifies ScenarioDb.str_exn 7 "CONFIRMED, see you then"
                   (ScenarioDb.world []) (ScenarioDb.pickup_stop false "Leave at dock 4")
                   eq_refl eq_refl _)).
  intros [|[|i]] [|[|j]] m n Hi Hj _ _ Heq; try reflexivity;
    simpl in Hi, Hj; try discriminate;
    injection Hi as <-; injection Hj as <-; discriminate Heq.
Defined.



(** C10, as stated, fails: when the write of the stop row fails, a
    response that contains both "confirmed" and "reschedule" is not
    processed; the outcome is an error and the stop stays as it was,
    unconfirmed. *)
Lemma confirmed_wins_over_reschedule_counterexample :
  Py.contains "confirmed" (Py.lower "Confirmed - no need to reschedule") = true
  /\ Py.contains "reschedule" (Py.lower "Confirmed - no need to reschedule") = true
  /\ exists w',
       ConfirmationWorkflowService.process_email_response ScenarioDb.str_exn 7
         "Confirmed - no need to reschedule" (ScenarioDb.world [true])
       = (Ok (ConfirmationWorkflowService.response 7 false None
                "Error processing response: error"), w')
       /\ db_stops w' !! 7 = Some (ScenarioDb.pickup_stop false "Leave at dock 4")
       /\ RouteStop.is_confirmed (ScenarioDb.pickup_stop false "Leave at dock 4") = false.
Proof.
  split; [reflexivity|]. split; [reflexivity|].
  eexists. split; [reflexivity|]. split; reflexivity.
Qed.

(** C10, amended.  For an existing stop and a database without faults,
    a response whose lower-cased text contains both "confirmed" and
    "reschedule" is a confirmation: the action is "confirmed", the stop
    becomes confirmed, and its notes stay as they were, without any
    reschedule annotation. *)
Theorem confirmed_wins_over_reschedule (str_exn : exn -> string) (stop_id : Z)
    (response_content : string) (w : World) (s : RouteStop.t) :
  db_stops w !! stop_id = Some s ->
  db_faults w = [] ->
  Py.contains "confirmed" (Py.lower response_content) = true ->
  Py.contains "reschedule" (Py.lower response_content) = true ->
  exists w' s',
    ConfirmationWorkflowService.process_email_response str_exn stop_id response_content w
    = (Ok (ConfirmationWorkflowService.response stop_id true (Some "confirmed"%string)
             "Pickup/delivery confirmed successfully"), w')
    /\ db_stops w' !! stop_id = Some s'
    /\ RouteStop.is_confirmed s' = true
    /\ RouteStop.notes s' = RouteStop.notes s.
Proof.
  intros Hs Hf Hc _. eexists. eexists.
  rewrite (process_confirmed str_exn stop_id response_content w s Hs Hf Hc).
  split; [reflexivity|]. rewrite confirmed_world_stops, lookup_insert_eq.
  split; [reflexivity|]. split; reflexivity.
Qed.

Lemma confirmed_wins_over_reschedule_witness :
  exists w' s',
    ConfirmationWorkflowService.process_email_response ScenarioDb.str_exn 7
      "Confirmed - no need to reschedule" (ScenarioDb.world [])
    = (Ok (ConfirmationWorkflowService.response 7 true (Some "confirmed"%string)
             "Pickup/delivery confirmed successfully"), w')
    /\ db_stops w' !! 7 = Some s'
    /\ RouteStop.is_confirmed s' = true
    /\ RouteStop.notes s' = RouteStop.notes (ScenarioDb.pickup_stop false "Leave at dock 4").
Proof.
  apply (confirmed_wins_over_reschedule ScenarioDb.str_exn 7
           "Confirmed - no need to reschedule" (ScenarioDb.world [])
           (ScenarioDb.pickup_stop false "Leave at dock 4")); reflexivity.
Defined.

(** ** Readiness of a route *)

Lemma filter_filter {A : Type} (f g : A -> bool) (l : list A) :
  List.filter f (List.filter g l) = List.filter (fun x => andb (g x) (f x)) l.
Proof.
  induction l as [|x l IH]; simpl; [reflexivity|].
  destruct (g x); simpl; [destruct (f x)|]; now rewrite IH.
Qed.

Lemma filter_perm_length {A : Type} (f : A -> bool) (l l' : list A) :
  Permutation l l' -> length (List.filter f l) = length (List.filter f l').
Proof.
  induction 1 as [|x l l' _ IH|x y l|l l' l'' _ IH1 _ IH2]; simpl.
  - reflexivity.
  - destruct (f x); simpl; now rewrite IH.
  - destruct (f x), (f y); reflexivity.
  - now rewrite IH1.
Qed.


Lemma route_stops_count (f : RouteStop.t -> bool) (route : DeliveryRoute.t) (w : World) :
  count (List.filter (fun s => f (snd s)) (route_stops route w)) = stops_where f route w.
Proof.
  unfold count, stops_where, route_stops. f_equal.
  rewrite (filter_perm_length _ _ _ (sorted_perm _ _)).
  now rewrite filter_filter.
Qed.

Lemma route_stops_in (route : DeliveryRoute.t) (w : World) (id : Z) (s : RouteStop.t) :
  In (id, s) (route_stops route w)
  <-> db_stops w !! id = Some s /\ RouteStop.route s = DeliveryRoute.id route.
Proof.
  unfold route_stops. split.
  - intros H. apply (Permutation_in _ (sorted_perm _ _)) in H.
    apply List.filter_In in H. destruct H as [H E]. simpl in E.
    apply list_elem_of_In, elem_of_map_to_list in H. apply Z.eqb_eq in E. auto.
  - intros [H E]. apply (Permutation_in _ (Permutation_sym (sorted_perm _ _))).
    apply List.filter_In. split.
    + now apply list_elem_of_In, elem_of_map_to_list.
    + simpl. now apply Z.eqb_eq.
Qed.


(** ** Batch sends *)










(** The query succeeds and the first write fails: the first stop counts
    as failed and the second stop is still sent. *)
Example schedule_change_partial_failure :
  fst (ConfirmationWorkflowService.send_schedule_change_notifications ScenarioDb.str_date
         ScenarioDb.change_body ScenarioDb.route "truck delayed"
         (ScenarioDb.world [false; true]))
  = Ok {| BatchResult.sent := 1; BatchResult.failed := 1; BatchResult.total := 2 |}.
Proof. reflexivity. Qed.
(** * Further properties of the route optimizer *)

(** ** The nearest-neighbour scan *)

Section NearestIsNearest.
Context (geodesic_miles : Q * Q -> Q * Q -> Q).
Context {L : Type} (location_of : L -> Q * Q) (current_location : Q * Q).

Local Abbreviation dist x := (geodesic_miles current_location (location_of x)).

(** The accumulator after the scan of [pre]: nothing when [pre] is
    empty, otherwise the distance and the place of the first element of
    [pre] that no element of [pre] beats. *)
Lemma nearer_fold_first_min (l pre : list L) (acc : option Q * option L) :
  (acc = (None, None) /\ pre = []
   \/ exists a p1 p2,
        acc = (Some (dist a), Some a) /\ pre = p1 ++ a :: p2
        /\ (forall y, In y p1 -> (dist a < dist y)%Q)
        /\ (forall y, In y p2 -> (dist a <= dist y)%Q)) ->
  let r := fold_left (RouteOptimizer.nearer geodesic_miles location_of current_location)
             l acc in
  (r = (None, None) /\ pre ++ l = []
   \/ exists a p1 p2,
        r = (Some (dist a), Some a) /\ pre ++ l = p1 ++ a :: p2
        /\ (forall y, In y p1 -> (dist a < dist y)%Q)
        /\ (forall y, In y p2 -> (dist a <= dist y)%Q)).
Proof.
  revert pre acc. induction l as [|x l IH]; intros pre acc Hacc; cbn zeta.
  - rewrite app_nil_r. exact Hacc.
  - cbn [fold_left]. replace (pre ++ x :: l) with ((pre ++ [x]) ++ l)
      by (rewrite <- app_assoc; reflexivity).
    apply IH. right. destruct Hacc as [[-> ->]|(a & p1 & p2 & -> & -> & H1 & H2)].
    + exists x, [], []. repeat split; simpl; tauto.
    + unfold RouteOptimizer.nearer. cbn [fst].
      destruct (Py.Qltb (dist x) (dist a)) eqn:E.
      * apply Qltb_true in E. exists x, (p1 ++ a :: p2), []. split; [reflexivity|].
        split; [reflexivity|]. split; [|simpl; tauto].
        intros y Hy. apply in_app_or in Hy. destruct Hy as [Hy|[<-|Hy]].
        -- specialize (H1 y Hy). lra.
        -- exact E.
        -- specialize (H2 y Hy). lra.
      * apply Qltb_false in E. exists a, p1, (p2 ++ [x]). split; [reflexivity|].
        split; [rewrite <- app_assoc; reflexivity|]. split; [exact H1|].
        intros y Hy. apply in_app_or in Hy. destruct Hy as [Hy|[<-|[]]]; auto.
Qed.

Lemma nearest_first_min (l : list L) :
  match snd (fold_left (RouteOptimizer.nearer geodesic_miles location_of current_location)
               l (None, None)) with
  | None => l = []
  | Some a =>
      exists p1 p2, l = p1 ++ a :: p2
        /\ (forall y, In y p1 -> (dist a < dist y)%Q)
        /\ (forall y, In y p2 -> (dist a <= dist y)%Q)
  end.
Proof.
  destruct (nearer_fold_first_min l [] (None, None)) as [[-> H]|(a & p1 & p2 & -> & H)].
  - left. auto.
  - exact H.
  - simpl in H. destruct H as (-> & H1 & H2). simpl. eauto.
Qed.

End NearestIsNearest.

(** [_find_nearest_store] and [_find_nearest_bank] return nothing only
    for an empty list; otherwise they return the first element of the
    list at the least distance from the current location: every element
    before it is strictly farther, every element after it is at least as
    far. *)
Theorem find_nearest_is_first_nearest (geodesic_miles : Q * Q -> Q * Q -> Q)
    (current_location : Q * Q) (stores : list GroceryStore.t) (banks : list FoodBank.t) :
  match RouteOptimizer._find_nearest_store geodesic_miles current_location stores with
  | None => stores = []
  | Some s =>
      exists before after, stores = before ++ s :: after
        /\ (forall y, In y before ->
              (geodesic_miles current_location (RouteOptimizer.store_location s)
               < geodesic_miles current_location (RouteOptimizer.store_location y))%Q)
        /\ (forall y, In y after ->
              (geodesic_miles current_location (RouteOptimizer.store_location s)
               <= geodesic_miles current_location (RouteOptimizer.store_location y))%Q)
  end
  /\ match RouteOptimizer._find_nearest_bank geodesic_miles current_location banks with
     | None => banks = []
     | Some b =>
         exists before after, banks = before ++ b :: after
           /\ (forall y, In y before ->
                 (geodesic_miles current_location (RouteOptimizer.bank_location b)
                  < geodesic_miles current_location (RouteOptimizer.bank_location y))%Q)
           /\ (forall y, In y after ->
                 (geodesic_miles current_location (RouteOptimizer.bank_location b)
                  <= geodesic_miles current_location (RouteOptimizer.bank_location y))%Q)
     end.
Proof.
  split.
  - apply (nearest_first_min geodesic_miles RouteOptimizer.store_location
             current_location stores).
  - apply (nearest_first_min geodesic_miles RouteOptimizer.bank_location
             current_location banks).
Qed.

(** ** Grouping donations by store *)

Lemma filter_app_last {A : Type} (f : A -> bool) (l : list A) (x : A) :
  List.filter f (l ++ [x]) = List.filter f l ++ (if f x then [x] else []).
Proof. rewrite List.filter_app. reflexivity. Qed.

Lemma dict_set_app_none {K V : Type} (pk : K -> Z) (d : list (K * V)) (k : K) (v0 v : V) :
  Py.dict_get pk d k = None ->
  Py.dict_set pk (d ++ [(k, v0)]) k v = d ++ [(k, v)].
Proof.
  induction d as [|[k1 v1] d IH]; simpl.
  - now rewrite Z.eqb_refl.
  - destruct (pk k1 =? pk k); [discriminate|]. intros H. now rewrite IH.
Qed.

Lemma filter_none {A : Type} (f : A -> bool) (l : list A) :
  (forall x, In x l -> f x = false) -> List.filter f l = [].
Proof.
  induction l as [|x l IH]; simpl; [reflexivity|].
  intros H. rewrite (H x (or_introl eq_refl)). apply IH. auto.
Qed.

(** One turn of the loop of [_group_donations_by_store]. *)
Lemma group_step (sd : list (GroceryStore.t * list FoodDonation.t))
    (processed : list FoodDonation.t) (x : FoodDonation.t) :
  grouped sd processed ->
  grouped
    (let store := FoodDonation.grocery_store x in
     let store_donations :=
       match Py.dict_get GroceryStore.pk sd store with
       | None => Py.dict_set GroceryStore.pk sd store []
       | Some _ => sd
       end in
     match Py.dict_get GroceryStore.pk store_donations store with
     | Some ds => Py.dict_set GroceryStore.pk store_donations store (ds ++ [x])
     | None => store_donations
     end)
    (processed ++ [x]).
Proof.
  intros (Hnd & Hkey & Hent & Hperm). cbn zeta.
  remember (FoodDonation.grocery_store x) as store eqn:Estore.
  destruct (Py.dict_get GroceryStore.pk sd store) as [ds0|] eqn:Eget.
  - rewrite Eget.
    destruct (dict_set_some GroceryStore.pk sd store (ds0 ++ [x]) ds0 Eget)
      as (d1 & k0 & d2 & Esd & Hk0 & Hd1 & ->).
    subst sd. unfold grouped, Py.dict_keys, Py.dict_values in *.
    rewrite !map_app in *. cbn [map fst snd] in *.
    split; [exact Hnd|]. split; [|split].
    + intros d Hd. apply in_app_or in Hd. destruct Hd as [Hd|[<-|[]]].
      * destruct (Hkey d Hd) as (s & ds & Hin & Hs).
        apply in_app_or in Hin. destruct Hin as [Hin|[[= <- <-]|Hin]].
        -- exists s, ds. split; [apply in_or_app; auto|exact Hs].
        -- exists k0, (ds0 ++ [x]). split; [apply in_or_app; simpl; auto|exact Hs].
        -- exists s, ds. split; [apply in_or_app; simpl; auto|exact Hs].
      * exists k0, (ds0 ++ [x]). split; [apply in_or_app; simpl; auto|congruence].
    + intros s ds Hin. rewrite filter_app_last.
      apply in_app_or in Hin. destruct Hin as [Hin|[[= <- <-]|Hin]].
      * destruct (Hent s ds) as [Hne ->]; [apply in_or_app; auto|].
        split; [exact Hne|].
        replace (_ =? GroceryStore.pk s) with false; [now rewrite app_nil_r|].
        symmetry. apply Z.eqb_neq. intros E. apply (Hd1 _ Hin). simpl. congruence.
      * destruct (Hent k0 ds0) as [Hne E0]; [apply in_or_app; simpl; auto|].
        split; [destruct ds0; discriminate|].
        rewrite <- Estore, <- Hk0, Z.eqb_refl. now rewrite <- E0.
      * destruct (Hent s ds) as [Hne ->]; [apply in_or_app; simpl; auto|].
        split; [exact Hne|].
        replace (_ =? GroceryStore.pk s) with false; [now rewrite app_nil_r|].
        symmetry. apply Z.eqb_neq. intros E.
        apply List.NoDup_remove_2 in Hnd. apply Hnd. apply in_or_app. right.
        replace (GroceryStore.pk k0) with (GroceryStore.pk s) by congruence.
        apply (in_map fst) in Hin. apply (in_map GroceryStore.pk) in Hin. exact Hin.
    + rewrite !concat_app in *. cbn [concat] in *.
      rewrite <- Hperm, <- !app_assoc.
      apply Permutation_app_head. apply Permutation_app_head.
      apply Permutation_cons_append.
  - rewrite dict_get_set, Z.eqb_refl.
    rewrite (dict_set_none GroceryStore.pk sd store [] Eget).
    rewrite (dict_set_app_none GroceryStore.pk sd store [] ([] ++ [x]) Eget).
    cbn [app]. pose proof (proj1 (dict_get_none GroceryStore.pk sd store) Eget) as Hfresh.
    assert (Hnew : List.filter
                     (fun d => GroceryStore.pk (FoodDonation.grocery_store d)
                               =? GroceryStore.pk store) processed = []).
    { apply filter_none. intros d Hd. apply Z.eqb_neq. intros E.
      destruct (Hkey d Hd) as (s & ds & Hin & Hs).
      apply (Hfresh (s, ds) Hin). simpl. congruence. }
    unfold grouped, Py.dict_keys, Py.dict_values in *.
    rewrite !map_app. cbn [map fst snd]. split; [|split; [|split]].
    + apply List.NoDup_app; [exact Hnd|repeat constructor; simpl; tauto|].
      intros k Hk [<-|[]].
      rewrite map_map in Hk. apply in_map_iff in Hk.
      destruct Hk as (kv & E & Hin). apply (Hfresh kv Hin E).
    + intros d Hd. apply in_app_or in Hd. destruct Hd as [Hd|[<-|[]]].
      * destruct (Hkey d Hd) as (s & ds & Hin & Hs).
        exists s, ds. split; [apply in_or_app; auto|exact Hs].
      * exists store, [x]. split; [apply in_or_app; simpl; auto|congruence].
    + intros s ds Hin. rewrite filter_app_last.
      apply in_app_or in Hin. destruct Hin as [Hin|[[= <- <-]|[]]].
      * destruct (Hent s ds Hin) as [Hne ->]. split; [exact Hne|].
        replace (_ =? GroceryStore.pk s) with false; [now rewrite app_nil_r|].
        symmetry. apply Z.eqb_neq. intros E. apply (Hfresh _ Hin). simpl. congruence.
      * split; [discriminate|]. rewrite Hnew, <- Estore. now rewrite Z.eqb_refl.
    + rewrite concat_app. cbn [concat]. rewrite app_nil_r.
      now apply Permutation_app_tail.
Qed.

Lemma group_fold (rest processed : list FoodDonation.t)
    (sd : list (GroceryStore.t * list FoodDonation.t)) :
  grouped sd processed ->
  grouped
    (fold_left
       (fun store_donations donation =>
          let store := FoodDonation.grocery_store donation in
          let store_donations :=
            match Py.dict_get GroceryStore.pk store_donations store with
            | None => Py.dict_set GroceryStore.pk store_donations store []
            | Some _ => store_donations
            end in
          match Py.dict_get GroceryStore.pk store_donations store with
          | Some ds => Py.dict_set GroceryStore.pk store_donations store (ds ++ [donation])
          | None => store_donations
          end)
       rest sd)
    (processed ++ rest).
Proof.
  revert processed sd. induction rest as [|x rest IH]; intros processed sd H.
  - simpl. now rewrite app_nil_r.
  - cbn [fold_left].
    replace (processed ++ x :: rest) with ((processed ++ [x]) ++ rest)
      by (rewrite <- app_assoc; reflexivity).
    apply IH. exact (group_step sd processed x H).
Qed.

(** [_group_donations_by_store] partitions the donations by store: the
    keys are distinct stores, every donation is under the key of its
    store, the list under a key is not empty and holds exactly the
    donations of that store in the order of the input, and the lists
    together are the input, nothing lost and nothing repeated. *)
Theorem group_donations_by_store_partitions (donations : list FoodDonation.t) :
  let store_donations := RouteOptimizer._group_donations_by_store donations in
  List.NoDup (map GroceryStore.pk (Py.dict_keys store_donations))
  /\ (forall d, In d donations ->
        exists s ds, In (s, ds) store_donations
          /\ GroceryStore.pk s = GroceryStore.pk (FoodDonation.grocery_store d))
  /\ (forall s ds, In (s, ds) store_donations ->
        ds <> []
        /\ ds = List.filter
                  (fun d => GroceryStore.pk (FoodDonation.grocery_store d) =? GroceryStore.pk s)
                  donations)
  /\ Permutation (concat (Py.dict_values store_donations)) donations.
Proof.
  apply (group_fold donations [] []).
  unfold grouped. simpl. repeat split; try constructor; try tauto.
Qed.

(** ** The route plan *)

Lemma process_pickups_shape (pickup_sequence : list PickupInfo.t) :
  forall t d,
  exists r t' d',
    RouteOptimizer.process_pickups pickup_sequence t d = (r, t', d')
    /\ t' - t = d' - d
    /\ map PickupInfo.store r = map PickupInfo.store pickup_sequence
    /\ map PickupInfo.total_weight r = map PickupInfo.total_weight pickup_sequence
    /\ map PickupInfo.pickup_duration r = map PickupInfo.pickup_duration pickup_sequence
    /\ (r = [] <-> pickup_sequence = []).
Proof.
  induction pickup_sequence as [|p rest IH]; intros t d; simpl.
  - exists [], t, d. repeat split; lia.
  - destruct (IH (t + PickupInfo.pickup_duration p) (d + PickupInfo.pickup_duration p))
      as (r & t' & d' & -> & Hc & H1 & H2 & H3 & _).
    eexists _, t', d'. split; [reflexivity|]. simpl. rewrite H1, H2, H3.
    repeat split; try lia; discriminate.
Qed.

Lemma process_deliveries_shape (delivery_sequence : list DeliveryInfo.t) :
  forall t d,
  exists r t' d',
    RouteOptimizer.process_deliveries delivery_sequence t d = (r, t', d')
    /\ t' - t = d' - d
    /\ map DeliveryInfo.food_bank r = map DeliveryInfo.food_bank delivery_sequence
    /\ map DeliveryInfo.delivery_duration r
       = map DeliveryInfo.delivery_duration delivery_sequence
    /\ (r = [] <-> delivery_sequence = []).
Proof.
  induction delivery_sequence as [|x rest IH]; intros t d; simpl.
  - exists [], t, d. repeat split; lia.
  - match goal with |- context [RouteOptimizer.process_deliveries rest ?a ?b] =>
      destruct (IH a b) as (r & t' & d' & -> & Hc & H1 & H2 & _)
    end.
    eexists _, t', d'. split; [reflexivity|]. simpl. rewrite H1, H2.
    repeat split; try lia; discriminate.
Qed.

(** A plan that [_create_route_plan] returns keeps the stops in the
    order given.  Its completion time is 08:00 of the target date plus
    the total duration it reports, so the plan is within the time limit
    exactly when it completes by noon. *)
Theorem route_plan_clock_and_flags (region : Region.t)
    (pickup_sequence : list PickupInfo.t) (delivery_sequence : list DeliveryInfo.t)
    (target_date : Z) (plan : RoutePlan.t) :
  RouteOptimizer._create_route_plan region pickup_sequence delivery_sequence target_date
  = Ok plan ->
  RoutePlan.estimated_completion_time plan
  = at_8am target_date + RoutePlan.total_duration_minutes plan
  /\ (RoutePlan.within_time_limit plan = true
      <-> RoutePlan.estimated_completion_time plan <= target_date * 1440 + 720)
  /\ map PickupInfo.store (RoutePlan.pickup_sequence plan)
     = map PickupInfo.store pickup_sequence
  /\ map DeliveryInfo.food_bank (RoutePlan.delivery_sequence plan)
     = map DeliveryInfo.food_bank delivery_sequence.
Proof.
  unfold RouteOptimizer._create_route_plan.
  destruct (process_pickups_shape pickup_sequence (at_8am target_date) 0)
    as (ps & t1 & d1 & -> & Hc1 & Hs1 & Hw1 & _ & _).
  destruct (process_deliveries_shape delivery_sequence t1 d1)
    as (ds & t2 & d2 & -> & Hc2 & Hs2 & _ & _).
  destruct (RouteOptimizer._calculate_efficiency_score region ps ds); simpl; [|discriminate].
  intros [= <-]. cbn [RoutePlan.estimated_completion_time RoutePlan.total_duration_minutes
    RoutePlan.within_time_limit RoutePlan.pickup_sequence RoutePlan.delivery_sequence].
  unfold RouteOptimizer.max_duration_hours.
  split; [lia|]. split; [|auto].
  rewrite Z.leb_le. unfold at_8am in *. lia.
Qed.

Lemma route_plan_clock_and_flags_witness :
  exists plan,
    RouteOptimizer._create_route_plan (Scenario.region Scenario.banks)
      [ScenarioPlan.pickup] [ScenarioPlan.delivery] 20 = Ok plan
    /\ RoutePlan.total_duration_minutes plan = 115
    /\ RoutePlan.estimated_completion_time plan
       = at_8am 20 + RoutePlan.total_duration_minutes plan
    /\ (RoutePlan.within_time_limit plan = true
        <-> RoutePlan.estimated_completion_time plan <= 20 * 1440 + 720)
    /\ map PickupInfo.store (RoutePlan.pickup_sequence plan)
       = map PickupInfo.store [ScenarioPlan.pickup]
    /\ map DeliveryInfo.food_bank (RoutePlan.delivery_sequence plan)
       = map DeliveryInfo.food_bank [ScenarioPlan.delivery].
Proof.
  eexists. split; [reflexivity|]. split; [reflexivity|].
  apply (route_plan_clock_and_flags (Scenario.region Scenario.banks)
           [ScenarioPlan.pickup] [ScenarioPlan.delivery] 20).
  reflexivity.
Defined.

(** [_create_route_plan] fails only through the efficiency score: it
    raises [ZeroDivisionError] exactly when the truck capacity of the
    region is 0 and the plan has at least one stop, and returns a plan
    in every other case, feasible or not. *)
Theorem route_plan_needs_truck_capacity (region : Region.t)
    (pickup_sequence : list PickupInfo.t) (delivery_sequence : list DeliveryInfo.t)
    (target_date : Z) :
  match RouteOptimizer._create_route_plan region pickup_sequence delivery_sequence
          target_date with
  | Ok plan =>
      Region.truck_capacity_pounds region <> 0%N
      \/ (pickup_sequence = [] /\ delivery_sequence = [])
  | Raise e =>
      e = ZeroDivisionError
      /\ Region.truck_capacity_pounds region = 0%N
      /\ (pickup_sequence <> [] \/ delivery_sequence <> [])
  end.
Proof.
  unfold RouteOptimizer._create_route_plan.
  destruct (process_pickups_shape pickup_sequence (at_8am target_date) 0)
    as (ps & t1 & d1 & -> & _ & _ & _ & _ & Hp).
  destruct (process_deliveries_shape delivery_sequence t1 d1)
    as (ds & t2 & d2 & -> & _ & _ & _ & Hd).
  unfold RouteOptimizer._calculate_efficiency_score, RouteOptimizer.truck_capacity.
  destruct (N.eq_dec (Region.truck_capacity_pounds region) 0%N) as [E|E].
  - rewrite E. destruct ps as [|p ps]; [destruct ds as [|x ds]|]; cbn.
    + right. split; [now apply Hp|now apply Hd].
    + repeat split. right. intros H. apply Hd in H. discriminate.
    + repeat split. left. intros H. apply Hp in H. discriminate.
  - assert (Hz : (Z.of_N (Region.truck_capacity_pounds region) =? 0) = false)
      by (apply Z.eqb_neq; lia).
    destruct ps as [|p ps]; [destruct ds as [|x ds]|]; rewrite ?Hz; cbn; auto.
Qed.

(** ** The efficiency score *)

Lemma Qmin100_range (q : Q) :
  (0 <= q)%Q -> (0 <= RouteOptimizer.Qmin100 q <= 100)%Q.
Proof.
  intros H. unfold RouteOptimizer.Qmin100.
  destruct (Py.Qltb q (inject_Z 100)) eqn:E.
  - apply Qltb_true in E. change (inject_Z 100) with 100%Q in E. split; lra.
  - change (inject_Z 100) with 100%Q. split; lra.
Qed.

Lemma Qdiv_nonneg (a b : Q) : (0 <= a)%Q -> (0 < b)%Q -> (0 <= a / b)%Q.
Proof.
  intros Ha Hb. apply Qle_shift_div_l; [exact Hb|]. lra.
Qed.

Lemma round1_range (x : Q) :
  (0 <= x <= 100)%Q -> (0 <= RouteOptimizer.round1 x <= 100)%Q.
Proof.
  intros [H0 H100]. unfold RouteOptimizer.round1. cbv zeta.
  set (y := (x * inject_Z 10)%Q). set (n := Qfloor y).
  assert (Hy : (0 <= y <= 1000)%Q)
    by (unfold y; change (inject_Z 10) with 10%Q; split; lra).
  pose proof (Qfloor_le y) as Hfl. pose proof (Qlt_floor y) as Hlt. fold n in Hfl, Hlt.
  assert (Hn0 : 0 <= n).
  { change 0 with (Qfloor 0). apply Qfloor_resp_le. tauto. }
  assert (Hup : (inject_Z n < y)%Q -> n + 1 <= 1000).
  { intros Hny. assert (Hn : (inject_Z n < inject_Z 1000)%Q)
      by (change (inject_Z 1000) with 1000%Q; lra).
    rewrite <- Zlt_Qlt in Hn. lia. }
  assert (Hn1000 : n <= 1000).
  { assert (Hn : (inject_Z n <= inject_Z 1000)%Q)
      by (change (inject_Z 1000) with 1000%Q; lra).
    rewrite <- Zle_Qle in Hn. exact Hn. }
  assert (Hm : forall m, 0 <= m <= 1000 -> (0 <= inject_Z m / inject_Z 10 <= 100)%Q).
  { intros m [Hm0 Hm1]. rewrite Zle_Qle in Hm0, Hm1.
    change (inject_Z 0) with 0%Q in Hm0. change (inject_Z 1000) with 1000%Q in Hm1.
    change (inject_Z 10) with 10%Q. split.
    - apply Qle_shift_div_l; lra.
    - apply Qle_shift_div_r; lra. }
  apply Hm.
  destruct (Py.Qltb (1 # 2) (y - inject_Z n)) eqn:E1.
  - apply Qltb_true in E1. split; [lia|]. apply Hup. lra.
  - destruct (Py.Qltb (y - inject_Z n) (1 # 2)) eqn:E2; [lia|].
    apply Qltb_false in E2. destruct (Z.odd n); [|lia].
    split; [lia|]. apply Hup. lra.
Qed.

(** The efficiency score of a plan whose weights and dwell times are
    not negative lies between 0 and 100. *)
Theorem efficiency_score_in_range (region : Region.t)
    (pickup_sequence : list PickupInfo.t) (delivery_sequence : list DeliveryInfo.t)
    (score : Q) :
  RouteOptimizer._calculate_efficiency_score region pickup_sequence delivery_sequence
  = Ok score ->
  List.Forall (fun p => (0 <= PickupInfo.total_weight p)%Q
                        /\ 0 <= PickupInfo.pickup_duration p) pickup_sequence ->
  List.Forall (fun x => 0 <= DeliveryInfo.delivery_duration x) delivery_sequence ->
  (0 <= score <= 100)%Q.
Proof.
  intros Hscore Hp Hd.
  assert (Hw : (0 <= Py.Qsum (map PickupInfo.total_weight pickup_sequence))%Q).
  { apply Qsum_nonneg. apply List.Forall_map. eapply List.Forall_impl; [|exact Hp].
    cbn beta. tauto. }
  assert (Hpd : 0 <= Py.Zsum (map PickupInfo.pickup_duration pickup_sequence)).
  { clear -Hp. induction Hp as [|p l [_ H] _ IH]; simpl; lia. }
  assert (Hdd : 0 <= Py.Zsum (map DeliveryInfo.delivery_duration delivery_sequence)).
  { clear -Hd. induction Hd as [|x l H _ IH]; simpl; lia. }
  assert (Hgen :
    forall total_stops,
      (capacity_score ←
         (if RouteOptimizer.truck_capacity region =? 0 then Raise ZeroDivisionError
          else Ok (RouteOptimizer.Qmin100
                     (Py.Qsum (map PickupInfo.total_weight pickup_sequence)
                      / inject_Z (RouteOptimizer.truck_capacity region) * inject_Z 100)%Q));
       Ok (RouteOptimizer.round1
             (RouteOptimizer.Qmin100
                (inject_Z 1000 / inject_Z (Z.max 1 (total_stops * 5))) * (3 # 10)
              + capacity_score * (4 # 10)
              + RouteOptimizer.Qmin100
                  (inject_Z (Py.Zsum (map PickupInfo.pickup_duration pickup_sequence)
                             + Py.Zsum (map DeliveryInfo.delivery_duration
                                          delivery_sequence))
                   / inject_Z (RouteOptimizer.max_duration_hours * 60) * inject_Z 100)
                * (3 # 10))%Q) : result Q) = Ok score ->
      (0 <= score <= 100)%Q).
  { intros total_stops. destruct (RouteOptimizer.truck_capacity region =? 0) eqn:Ecap;
      [discriminate|]. cbn [mbind result_bind]. intros [= <-].
    apply Z.eqb_neq in Ecap.
    assert (Hcap : (0 < inject_Z (RouteOptimizer.truck_capacity region))%Q).
    { change 0%Q with (inject_Z 0). rewrite <- Zlt_Qlt.
      unfold RouteOptimizer.truck_capacity in *. lia. }
    assert (Hstops : (0 < inject_Z (Z.max 1 (total_stops * 5)))%Q).
    { change 0%Q with (inject_Z 0). rewrite <- Zlt_Qlt. lia. }
    assert (Hdur : (0 <= inject_Z (Py.Zsum (map PickupInfo.pickup_duration pickup_sequence)
                                   + Py.Zsum (map DeliveryInfo.delivery_duration
                                                delivery_sequence)))%Q).
    { change 0%Q with (inject_Z 0). rewrite <- Zle_Qle. lia. }
    pose proof (Qmin100_range _ (Qdiv_nonneg (inject_Z 1000) _ ltac:(discriminate) Hstops))
      as H1.
    assert (H2 : (0 <= Py.Qsum (map PickupInfo.total_weight pickup_sequence)
                       / inject_Z (RouteOptimizer.truck_capacity region) * inject_Z 100)%Q).
    { apply Qmult_le_0_compat; [|discriminate]. now apply Qdiv_nonneg. }
    apply Qmin100_range in H2.
    assert (H3 : (0 <= inject_Z (Py.Zsum (map PickupInfo.pickup_duration pickup_sequence)
                                 + Py.Zsum (map DeliveryInfo.delivery_duration
                                              delivery_sequence))
                       / inject_Z (RouteOptimizer.max_duration_hours * 60)
                       * inject_Z 100)%Q).
    { apply Qmult_le_0_compat; [|discriminate]. apply Qdiv_nonneg; [exact Hdur|].
      reflexivity. }
    apply Qmin100_range in H3.
    apply round1_range. split; lra. }
  unfold RouteOptimizer._calculate_efficiency_score in Hscore.
  destruct pickup_sequence as [|p ps]; [destruct delivery_sequence as [|x ds]|].
  - injection Hscore as <-. split; [apply Qle_refl|discriminate].
  - eapply Hgen. exact Hscore.
  - eapply Hgen. exact Hscore.
Qed.

Lemma efficiency_score_in_range_witness :
  exists score,
    RouteOptimizer._calculate_efficiency_score (Scenario.region Scenario.banks)
      [ScenarioPlan.pickup] [ScenarioPlan.delivery] = Ok score
    /\ (0 <= score <= 100)%Q.
Proof.
  eexists. split; [reflexivity|].
  apply (efficiency_score_in_range (Scenario.region Scenario.banks)
           [ScenarioPlan.pickup] [ScenarioPlan.delivery]).
  - reflexivity.
  - repeat constructor; vm_compute; discriminate.
  - repeat constructor; vm_compute; discriminate.
Defined.

(** ** The two sequences, when the dwell times can be computed *)







Lemma list_remove_subset {K : Type} (pk : K -> Z) (x : K) (l r : list K) :
  Py.list_remove pk x l = Ok r -> forall y, In y r -> In y l.
Proof.
  revert r. induction l as [|z l IH]; intros r; simpl; [discriminate|].
  destruct (pk z =? pk x).
  - intros [= <-] y Hy. now right.
  - destruct (Py.list_remove pk x l) as [r'|e]; [|discriminate].
    intros [= <-] y [<-|Hy]; [now left|]. right. now apply (IH r').
Qed.






Section SequenceFacts.
Context (geodesic_miles : Q * Q -> Q * Q -> Q).



End SequenceFacts.




(** ** The whole planning run *)

Lemma group_donations_grouped (donations : list FoodDonation.t) :
  grouped (RouteOptimizer._group_donations_by_store donations) donations.
Proof.
  apply (group_fold donations [] []).
  unfold grouped. simpl. repeat split; try constructor; try tauto.
Qed.

Lemma banks_with_food_empty (A : list (FoodBank.t * list FoodDonation.t)) :
  (forall bank ds, In (bank, ds) A -> ds = []) -> RouteOptimizer.banks_with_food A = [].
Proof.
  unfold RouteOptimizer.banks_with_food.
  induction A as [|[k ds] A IH]; intros HA; [reflexivity|]. simpl.
  rewrite (HA k ds (or_introl eq_refl)). apply IH.
  intros bank' ds' Hin. apply (HA bank'). now right.
Qed.

Lemma allocate_nothing (now : Z) (food_banks : list FoodBank.t) :
  exists allocation,
    RouteOptimizer._allocate_food_to_banks now [] food_banks = Ok allocation
    /\ RouteOptimizer.banks_with_food allocation = [].
Proof.
  unfold RouteOptimizer._allocate_food_to_banks.
  destruct food_banks as [|bank banks] eqn:E; [exists []; split; reflexivity|].
  rewrite <- E. eexists. split; [reflexivity|].
  apply banks_with_food_empty. apply dict_init_empty_buckets. intros _ _ [].
Qed.

(** [optimize_route] on donations read from the table.  For no donation
    it returns the empty plan: no stop, no duration, score 0.  For a
    list that is not empty it returns no plan: the pickup planner, which
    runs first, raises on the dwell time of the first store,
    [TypeError] when geopy accepts the coordinates and [ValueError]
    when a latitude is out of range. *)
Theorem optimize_route_raises_on_stored_rows (geodesic_miles : Q * Q -> Q * Q -> Q)
    (now : Z) (region : Region.t) (donations : list FoodDonation.t)
    (target_date : option Z) :
  donations <> [] ->
  List.Forall from_table donations ->
  RouteOptimizer.optimize_route geodesic_miles now region donations target_date
  = Raise (if forallb RouteOptimizer.valid_point
                (RouteOptimizer.region_center region
                 :: map RouteOptimizer.store_location
                      (Py.dict_keys (RouteOptimizer._group_donations_by_store donations)))
           then TypeError else ValueError)
  /\ exists plan,
       RouteOptimizer.optimize_route geodesic_miles now region [] target_date = Ok plan
       /\ RoutePlan.pickup_sequence plan = []
       /\ RoutePlan.delivery_sequence plan = []
       /\ RoutePlan.total_duration_minutes plan = 0
       /\ RoutePlan.efficiency_score plan = 0%Q.
Proof.
  intros Hne Hrows. split.
  - unfold RouteOptimizer.optimize_route.
    destruct (group_donations_grouped donations) as (_ & Hkeys & Hlists & _).
    assert (Hsd : RouteOptimizer._group_donations_by_store donations <> []).
    { destruct donations as [|d ds]; [congruence|].
      destruct (Hkeys d (or_introl eq_refl)) as (s & l & Hin & _).
      intros E. rewrite E in Hin. destruct Hin. }
    assert (Hentries : forall store ds,
              In (store, ds) (RouteOptimizer._group_donations_by_store donations) ->
              ds <> [] /\ List.Forall from_table ds).
    { intros store ds Hin. destruct (Hlists store ds Hin) as [Hds Hfilter].
      split; [exact Hds|]. rewrite Hfilter. rewrite List.Forall_forall in *.
      intros d Hd. apply List.filter_In in Hd. now apply Hrows. }
    rewrite (pickup_planner_raises geodesic_miles now region _ Hsd Hentries).
    reflexivity.
  - unfold RouteOptimizer.optimize_route.
    change (RouteOptimizer._group_donations_by_store []) with
      (@nil (GroceryStore.t * list FoodDonation.t)).
    cbn [RouteOptimizer._optimize_pickup_sequence mbind result_bind].
    destruct (allocate_nothing now (List.filter FoodBank.is_active (Region.food_banks region)))
      as (allocation & -> & Hnone).
    cbn [mbind result_bind]. unfold RouteOptimizer._optimize_delivery_sequence.
    rewrite Hnone. cbn. eexists. split; [reflexivity|]. repeat split.
Qed.

Lemma optimize_route_raises_on_stored_rows_witness :
  RouteOptimizer.optimize_route Scenario.miles 0 (Scenario.region Scenario.banks)
    [Scenario.row Scenario.store 1 2000 (Some 1) None;
     Scenario.row Scenario.market 2 4550 None None;
     Scenario.row Scenario.store 3 3000 (Some 10) None] None
  = Raise TypeError
  /\ exists plan,
       RouteOptimizer.optimize_route Scenario.miles 0 (Scenario.region Scenario.banks)
         [] None = Ok plan
       /\ RoutePlan.pickup_sequence plan = []
       /\ RoutePlan.delivery_sequence plan = []
       /\ RoutePlan.total_duration_minutes plan = 0
       /\ RoutePlan.efficiency_score plan = 0%Q.
Proof.
  apply (optimize_route_raises_on_stored_rows Scenario.miles 0
           (Scenario.region Scenario.banks)
           [Scenario.row Scenario.store 1 2000 (Some 1) None;
            Scenario.row Scenario.market 2 4550 None None;
            Scenario.row Scenario.store 3 3000 (Some 10) None] None).
  - discriminate.
  - repeat constructor.
Defined.
(** * Further properties of the confirmation workflow *)

(** ** Responses under database faults *)

Lemma same_data_refl (w : World) : same_data w w.
Proof. repeat split. Qed.

Lemma same_data_with_faults (fs : list bool) (w : World) : same_data w (with_faults fs w).
Proof. repeat split. Qed.

(** A write either applies its update or raises [DatabaseError] and
    changes no row. *)
Lemma db_write_cases (f : World -> World) (w : World) :
  exists w0, same_data w w0
    /\ (db_write f w = (Ok tt, f w0) \/ db_write f w = (Raise DatabaseError, w0)).
Proof.
  unfold db_write. destruct (db_faults w) as [|[|] fs].
  - exists w. split; [apply same_data_refl|now left].
  - exists (with_faults fs w). split; [apply same_data_with_faults|now right].
  - exists (with_faults fs w). split; [apply same_data_with_faults|now left].
Qed.

Lemma same_schedule_confirm (s : RouteStop.t) (now : Z) :
  same_schedule s (ConfirmationWorkflowService.confirm_stop s now).
Proof. repeat split. Qed.

Lemma same_schedule_notes (s : RouteStop.t) (notes : string) :
  same_schedule s (ConfirmationWorkflowService.set_notes s notes).
Proof. repeat split. Qed.

(** [process_email_response] returns a dictionary whatever the stop id,
    the text and the database faults, and never raises.  It creates and
    deletes no row: the routes, the clock, the number of notifications
    and every stop other than the one addressed stay as they were, and
    of the stop addressed only the confirmation fields and the notes can
    change.  A response reported as processed names one of the three
    actions, and one reported as not processed names none. *)
Theorem process_email_response_never_raises (str_exn : exn -> string) (stop_id : Z)
    (response_content : string) (w : World) :
  exists r w',
    ConfirmationWorkflowService.process_email_response str_exn stop_id response_content w
    = (Ok r, w')
    /\ Response.stop_id r = stop_id
    /\ db_routes w' = db_routes w
    /\ clock w' = clock w
    /\ length (db_notifications w') = length (db_notifications w)
    /\ (forall id, id <> stop_id -> db_stops w' !! id = db_stops w !! id)
    /\ match db_stops w !! stop_id with
       | Some s => exists s', db_stops w' !! stop_id = Some s' /\ same_schedule s s'
       | None => db_stops w' !! stop_id = None /\ Response.processed r = false
       end
    /\ (if Response.processed r
        then Response.action r = Some "confirmed"%string
             \/ Response.action r = Some "reschedule_requested"%string
             \/ Response.action r = Some "response_recorded"%string
        else Response.action r = None).
Proof.
  unfold ConfirmationWorkflowService.process_email_response, try_except, get_stop.
  unfold mbind, M_bind.
  destruct (db_stops w !! stop_id) as [s|] eqn:Hs.
  2:{ do 2 eexists. split; [reflexivity|]. rewrite Hs. repeat split. }
  cbn [fst snd].
  destruct (Py.contains "confirmed" (Py.strip (Py.lower response_content))).
  - unfold timezone_now, get_world.
    destruct (db_write_cases
                (put_stop stop_id (ConfirmationWorkflowService.confirm_stop s (clock w))) w)
      as (w0 & (Hr0 & Hs0 & Hn0 & Hc0) & [-> | ->]).
    + cbn [db_notifications put_stop].
      destruct (first_sent stop_id (db_notifications w0)) as [[i n]|].
      * match goal with |- context [db_write ?f ?x] =>
          destruct (db_write_cases f x) as (w1 & (Hr1 & Hs1 & Hn1 & Hc1) & [-> | ->])
        end.
        -- do 2 eexists. split; [reflexivity|]. cbn in *.
           rewrite Hr1, Hc1, Hs1, Hn1, Hr0, Hc0, Hs0, Hn0, length_insert.
           repeat split; auto.
           ++ intros id Hid. now rewrite lookup_insert_ne by congruence.
           ++ eexists. rewrite lookup_insert_eq. split; [reflexivity|].
              apply same_schedule_confirm.
        -- do 2 eexists. split; [reflexivity|]. cbn in *.
           rewrite Hr1, Hc1, Hs1, Hn1, Hr0, Hc0, Hs0, Hn0.
           repeat split; auto.
           ++ intros id Hid. now rewrite lookup_insert_ne by congruence.
           ++ eexists. rewrite lookup_insert_eq. split; [reflexivity|].
              apply same_schedule_confirm.
      * unfold mret, M_ret. do 2 eexists. split; [reflexivity|]. cbn in *.
        rewrite Hr0, Hc0, Hs0, Hn0. repeat split; auto.
        -- intros id Hid. now rewrite lookup_insert_ne by congruence.
        -- eexists. rewrite lookup_insert_eq. split; [reflexivity|].
           apply same_schedule_confirm.
    + do 2 eexists. split; [reflexivity|]. cbn. rewrite Hr0, Hc0, Hs0, Hn0, Hs.
      repeat split; auto. exists s. split; [reflexivity|repeat split].
  - destruct (Py.contains "reschedule" (Py.strip (Py.lower response_content)));
      match goal with |- context [db_write ?f ?x] =>
        destruct (db_write_cases f x) as (w0 & (Hr0 & Hs0 & Hn0 & Hc0) & [-> | ->])
      end;
      do 2 eexists; (split; [reflexivity|]); cbn in *;
      rewrite ?Hr0, ?Hc0, ?Hs0, ?Hn0, ?Hs; repeat split; auto;
      try (intros id Hid; now rewrite lookup_insert_ne by congruence);
      try (eexists; rewrite lookup_insert_eq; split; [reflexivity|];
           apply same_schedule_notes);
      try (exists s; split; [reflexivity|repeat split]).
Qed.

(** A confirmation is two writes without a transaction.  When the
    first one, of the stop, succeeds and the second one, of the
    notification, raises, the caller is told that the response was not
    processed, with the text of the error, and yet the stop is stored as
    confirmed; the notification keeps no trace of the response. *)
Theorem confirmation_is_not_atomic (str_exn : exn -> string) (stop_id : Z)
    (response_content : string) (w : World) (s : RouteStop.t)
    (i : nat) (n : Notification.t) (faults : list bool) :
  db_stops w !! stop_id = Some s ->
  Py.contains "confirmed" (Py.lower response_content) = true ->
  first_sent stop_id (db_notifications w) = Some (i, n) ->
  db_faults w = false :: true :: faults ->
  exists w',
    ConfirmationWorkflowService.process_email_response str_exn stop_id response_content w
    = (Ok (ConfirmationWorkflowService.response stop_id false None
             (String.append "Error processing response: " (str_exn DatabaseError))), w')
    /\ db_stops w'
       = <[stop_id := ConfirmationWorkflowService.confirm_stop s (clock w)]> (db_stops w)
    /\ db_notifications w' = db_notifications w
    /\ db_faults w' = faults.
Proof.
  intros Hs Hc Hn Hf.
  unfold ConfirmationWorkflowService.process_email_response, try_except, get_stop.
  unfold mbind, M_bind. rewrite Hs. cbn [fst snd].
  rewrite contains_confirmed_strip, Hc.
  unfold timezone_now, get_world, db_write. rewrite Hf.
  cbn [db_notifications put_stop with_faults db_faults]. rewrite Hn.
  cbn [db_faults put_stop with_faults fst snd].
  eexists. split; [reflexivity|]. repeat split.
Qed.

Lemma confirmation_is_not_atomic_witness :
  exists w',
    ConfirmationWorkflowService.process_email_response ScenarioDb.str_exn 7 "Confirmed"
      (ScenarioDb.world [false; true])
    = (Ok (ConfirmationWorkflowService.response 7 false None
             (String.append "Error processing response: "
                (ScenarioDb.str_exn DatabaseError))), w')
    /\ db_stops w'
       = <[7 := ConfirmationWorkflowService.confirm_stop
                  (ScenarioDb.pickup_stop false "Leave at dock 4")
                  (clock (ScenarioDb.world [false; true]))]>
           (db_stops (ScenarioDb.world [false; true]))
    /\ db_notifications w' = db_notifications (ScenarioDb.world [false; true])
    /\ db_faults w' = [].
Proof.
  apply (confirmation_is_not_atomic ScenarioDb.str_exn 7 "Confirmed"
           (ScenarioDb.world [false; true])
           (ScenarioDb.pickup_stop false "Leave at dock 4")
           1%nat (ScenarioDb.notification 7 200 true) []); reflexivity.
Defined.

(** When the write of the stop raises, no row changes, whatever the
    text of the response: the caller is told that the response was not
    processed, with the text of the error. *)
Theorem failed_stop_write_changes_nothing (str_exn : exn -> string) (stop_id : Z)
    (response_content : string) (w : World) (s : RouteStop.t) (faults : list bool) :
  db_stops w !! stop_id = Some s ->
  db_faults w = true :: faults ->
  ConfirmationWorkflowService.process_email_response str_exn stop_id response_content w
  = (Ok (ConfirmationWorkflowService.response stop_id false None
           (String.append "Error processing response: " (str_exn DatabaseError))),
     with_faults faults w).
Proof.
  intros Hs Hf.
  unfold ConfirmationWorkflowService.process_email_response, try_except, get_stop.
  unfold mbind, M_bind. rewrite Hs. cbn [fst snd].
  destruct (Py.contains "confirmed" _);
    [|destruct (Py.contains "reschedule" _)];
    unfold timezone_now, db_write; cbn [db_faults]; rewrite Hf; reflexivity.
Qed.

Lemma failed_stop_write_changes_nothing_witness :
  ConfirmationWorkflowService.process_email_response ScenarioDb.str_exn 7
    "please reschedule" (ScenarioDb.world [true])
  = (Ok (ConfirmationWorkflowService.response 7 false None
           (String.append "Error processing response: "
              (ScenarioDb.str_exn DatabaseError))),
     with_faults [] (ScenarioDb.world [true])).
Proof.
  apply (failed_stop_write_changes_nothing ScenarioDb.str_exn 7 "please reschedule"
           (ScenarioDb.world [true]) (ScenarioDb.pickup_stop false "Leave at dock 4") []);
    reflexivity.
Defined.

(** ** Sending one notification *)

Lemma insert_last {A : Type} (l : list A) (x y : A) :
  <[length l := y]> (l ++ [x]) = l ++ [y].
Proof.
  rewrite insert_app_r_alt by lia. now rewrite Nat.sub_diag.
Qed.

(** The common tail of the three senders: create the row, then mark it
    as sent. *)
Lemma create_and_send (notification_type to_email subject message_body : string)
    (stop_id : Z) (w : World) :
  let run :=
    (notification ← create_notification notification_type to_email subject message_body
                      stop_id;
     ConfirmationWorkflowService._send_email to_email subject message_body notification) w in
  send_outcome notification_type (Some to_email) stop_id w (is_ok_true (fst run)) (snd run)
  /\ (fst run = Ok true \/ fst run = Ok false \/ fst run = Raise DatabaseError)
  /\ (db_faults w = [] -> fst run = Ok true /\ db_faults (snd run) = []).
Proof.
  cbv zeta. unfold create_notification, ConfirmationWorkflowService._send_email.
  unfold mbind, M_bind, try_except, timezone_now, db_write, mret, M_ret.
  unfold send_outcome.
  destruct (db_faults w) as [|[|] fs] eqn:Hf;
    cbn [fst snd db_faults add_notification with_faults].
  - rewrite Hf. cbn. rewrite insert_last. split; [|split; [auto|auto]].
    repeat split. eexists. split; [reflexivity|]. split; [simpl; lia|].
    split; [discriminate|]. intros n [<-|[]]. repeat split.
  - split; [|split; [auto|discriminate]].
    repeat split. exists []. rewrite app_nil_r. split; [reflexivity|].
    split; [simpl; lia|]. split; [discriminate|]. intros n [].
  - destruct fs as [|[|] fs']; cbn; rewrite ?insert_last;
      (split; [|split; [auto|discriminate]]); repeat split;
      eexists; (split; [reflexivity|]); (split; [simpl; lia|]);
      (split; [discriminate|]); intros n [<-|[]]; repeat split.
Qed.

Lemma send_outcome_nothing (notification_type : string) (recipient : option string)
    (stop_id : Z) (w : World) :
  send_outcome notification_type recipient stop_id w false w.
Proof.
  repeat split. exists []. rewrite app_nil_r. split; [reflexivity|].
  split; [simpl; lia|]. split; [discriminate|]. intros n [].
Qed.

(** The shape shared by [_send_pickup_confirmation] and
    [_send_delivery_confirmation], for the recipient read from the
    stop. *)
Lemma confirmation_send_generic (str_date : Z -> string)
    (notification_type prefix : string) (recipient : option string)
    (generate : World -> Z * RouteStop.t -> result string)
    (stop : Z * RouteStop.t) (w : World) :
  let run :=
    try_except
      (match recipient with
       | None => mret false
       | Some to_email =>
           route ← ConfirmationWorkflowService.stop_route stop;
           let subject :=
             String.append prefix (str_date (DeliveryRoute.scheduled_date route)) in
           w ← get_world;
           message_body ← lift (generate w stop);
           notification ← create_notification notification_type to_email subject
                            message_body (fst stop);
           ConfirmationWorkflowService._send_email to_email subject message_body
             notification
       end)
      (fun e => mret false) w in
  exists success w',
    run = (Ok success, w')
    /\ send_outcome notification_type recipient (fst stop) w success w'
    /\ (recipient = None -> success = false /\ w' = w)
    /\ (db_faults w = [] ->
        (success = true
         <-> recipient <> None
             /\ is_Some (db_routes w !! RouteStop.route (snd stop))
             /\ exists message_body, generate w stop = Ok message_body))
    /\ (db_faults w = [] -> db_faults w' = []).
Proof.
  cbv zeta. unfold try_except.
  destruct recipient as [to_email|].
  2:{ exists false, w. split; [reflexivity|]. split; [apply send_outcome_nothing|].
      split; [auto|]. split; [|auto].
      intros _. split; [discriminate|]. intros (H & _). congruence. }
  unfold mbind at 1. unfold M_bind at 1. unfold ConfirmationWorkflowService.stop_route.
  destruct (db_routes w !! RouteStop.route (snd stop)) as [route|] eqn:Hr.
  2:{ exists false, w. split; [reflexivity|]. split; [apply send_outcome_nothing|].
      split; [discriminate|]. split; [|auto]. intros _. split; [discriminate|].
      intros (_ & [r Hr'] & _). discriminate. }
  unfold mbind at 1. unfold M_bind at 1. unfold get_world.
  unfold mbind at 1. unfold M_bind at 1. unfold lift.
  destruct (generate w stop) as [message_body|e] eqn:Hg.
  2:{ exists false, w. split; [reflexivity|]. split; [apply send_outcome_nothing|].
      split; [discriminate|]. split; [|auto]. intros _. split; [discriminate|].
      intros (_ & _ & body & Hb). discriminate. }
  pose proof (create_and_send notification_type to_email
                (String.append prefix (str_date (DeliveryRoute.scheduled_date route)))
                message_body (fst stop) w) as H.
  cbv zeta in H.
  match type of H with
  | context [is_ok_true (fst ?run)] => destruct run as [res w'] eqn:Erun
  end.
  destruct H as (Hout & Hres & Hok). cbn [fst snd] in *.
  exists (is_ok_true res), w'. split.
  { unfold mret, M_ret. destruct Hres as [-> | [-> | ->]]; reflexivity. }
  split; [exact Hout|]. split; [discriminate|]. split; [|intros Hf; now apply Hok].
  intros Hf. destruct (Hok Hf) as [-> _]. simpl.
  split; [|reflexivity]. intros _. split; [discriminate|]. split; [now exists route|].
  now exists message_body.
Qed.

(** A confirmation send for one stop returns [True] or [False] and never
    raises, whatever the e-mail generator and the database faults do.
    It changes no route and no stop; it keeps the notification rows and
    adds at most one, for this stop and its store or bank, marked as
    sent exactly when the send succeeded.  A stop without store (or
    bank) sends nothing and changes nothing.  In a database without
    faults the send succeeds exactly when the stop has its store (or
    bank) and its route and the generator returns a body. *)
Theorem confirmation_send_outcome (str_date : Z -> string)
    (pickup_email delivery_email : World -> Z * RouteStop.t -> result string)
    (stop : Z * RouteStop.t) (w : World) :
  (exists success w',
     ConfirmationWorkflowService._send_pickup_confirmation str_date pickup_email stop w
     = (Ok success, w')
     /\ send_outcome "pickup_confirmation"
          (option_map GroceryStore.email (RouteStop.grocery_store (snd stop)))
          (fst stop) w success w'
     /\ (RouteStop.grocery_store (snd stop) = None -> success = false /\ w' = w)
     /\ (db_faults w = [] ->
         (success = true
          <-> RouteStop.grocery_store (snd stop) <> None
              /\ is_Some (db_routes w !! RouteStop.route (snd stop))
              /\ exists message_body, pickup_email w stop = Ok message_body)))
  /\ (exists success w',
        ConfirmationWorkflowService._send_delivery_confirmation str_date delivery_email
          stop w
        = (Ok success, w')
        /\ send_outcome "delivery_confirmation"
             (option_map FoodBank.email (RouteStop.food_bank (snd stop)))
             (fst stop) w success w'
        /\ (RouteStop.food_bank (snd stop) = None -> success = false /\ w' = w)
        /\ (db_faults w = [] ->
            (success = true
             <-> RouteStop.food_bank (snd stop) <> None
                 /\ is_Some (db_routes w !! RouteStop.route (snd stop))
                 /\ exists message_body, delivery_email w stop = Ok message_body))).
Proof.
  split.
  - unfold ConfirmationWorkflowService._send_pickup_confirmation.
    destruct (RouteStop.grocery_store (snd stop)) as [store|].
    + destruct (confirmation_send_generic str_date "pickup_confirmation"
                  "Pickup Confirmation Required - " (Some (GroceryStore.email store))
                  pickup_email stop w) as (b & w' & E & H1 & H2 & H3 & _).
      exists b, w'. split; [exact E|]. split; [exact H1|]. split; [discriminate|].
      intros Hf. rewrite (H3 Hf). split; intros (_ & H); (split; [discriminate|exact H]).
    + destruct (confirmation_send_generic str_date "pickup_confirmation"
                  "Pickup Confirmation Required - " None pickup_email stop w)
        as (b & w' & E & H1 & H2 & H3 & _).
      exists b, w'. split; [exact E|]. split; [exact H1|]. split; [auto|].
      intros Hf. rewrite (H3 Hf). tauto.
  - unfold ConfirmationWorkflowService._send_delivery_confirmation.
    destruct (RouteStop.food_bank (snd stop)) as [bank|].
    + destruct (confirmation_send_generic str_date "delivery_confirmation"
                  "Delivery Schedule Confirmation - " (Some (FoodBank.email bank))
                  delivery_email stop w) as (b & w' & E & H1 & H2 & H3 & _).
      exists b, w'. split; [exact E|]. split; [exact H1|]. split; [discriminate|].
      intros Hf. rewrite (H3 Hf). split; intros (_ & H); (split; [discriminate|exact H]).
    + destruct (confirmation_send_generic str_date "delivery_confirmation"
                  "Delivery Schedule Confirmation - " None delivery_email stop w)
        as (b & w' & E & H1 & H2 & H3 & _).
      exists b, w'. split; [exact E|]. split; [exact H1|]. split; [auto|].
      intros Hf. rewrite (H3 Hf). tauto.
Qed.

(** ** What a batch leaves in the database *)










(** ** Bounds of the readiness report *)

Lemma tallies_bounds (stops : list (Z * RouteStop.t)) :
  0 <= count (filter_confirmed stops) <= count stops
  /\ count (filter_stop_type "pickup" stops) + count (filter_stop_type "delivery" stops)
     <= count stops
  /\ count (filter_confirmed (filter_stop_type "pickup" stops))
     + count (filter_confirmed (filter_stop_type "delivery" stops))
     <= count (filter_confirmed stops)
  /\ 0 <= count (filter_confirmed (filter_stop_type "pickup" stops))
       <= count (filter_stop_type "pickup" stops)
  /\ 0 <= count (filter_confirmed (filter_stop_type "delivery" stops))
       <= count (filter_stop_type "delivery" stops)
  /\ (count (filter_stop_type "pickup" stops)
      - count (filter_confirmed (filter_stop_type "pickup" stops)))
     + (count (filter_stop_type "delivery" stops)
        - count (filter_confirmed (filter_stop_type "delivery" stops)))
     <= count stops - count (filter_confirmed stops)
  /\ (List.Forall (fun stop => RouteStop.stop_type (snd stop) = "pickup"%string
                               \/ RouteStop.stop_type (snd stop) = "delivery"%string) stops ->
      count (filter_stop_type "pickup" stops) + count (filter_stop_type "delivery" stops)
      = count stops
      /\ count (filter_confirmed (filter_stop_type "pickup" stops))
         + count (filter_confirmed (filter_stop_type "delivery" stops))
         = count (filter_confirmed stops)).
Proof.
  unfold count, filter_confirmed, filter_stop_type.
  induction stops as [|[id s] stops IH]; [simpl; repeat split; lia|].
  destruct IH as (H1 & H2 & H3 & H4 & H5 & H6 & H7).
  cbn [List.filter snd].
  destruct (String.eqb (RouteStop.stop_type s) "pickup") eqn:Ep;
    destruct (String.eqb (RouteStop.stop_type s) "delivery") eqn:Ed.
  { apply String.eqb_eq in Ep, Ed. congruence. }
  all: cbn [List.filter snd]; destruct (RouteStop.is_confirmed s); cbn [length].
  all: repeat match goal with |- _ /\ _ => split end; try lia.
  all: intros Hall; apply List.Forall_cons_iff in Hall; destruct Hall as [Hs Hall];
    specialize (H7 Hall); try lia.
  all: destruct Hs as [Hs|Hs]; simpl in Hs; rewrite Hs in *; discriminate.
Qed.

(** The numbers of the readiness report keep within their bounds: the
    confirmed and the pending stops are between 0 and the total, the
    rate is between 0 and 100, the pickup and delivery tallies do not
    add up to more than the totals of the route, and a route that is
    ready has no pending pickup and no pending delivery.  When every
    stop of the route is a pickup or a delivery, the two tallies add up
    to the totals exactly. *)
Theorem readiness_counts_bounded (route : DeliveryRoute.t) (w : World) :
  let status := ConfirmationWorkflowService.check_pending_confirmations route w in
  let pickups := Status.pickup_confirmations status in
  let deliveries := Status.delivery_confirmations status in
  0 <= Status.confirmed_stops status <= Status.total_stops status
  /\ 0 <= Status.pending_stops status <= Status.total_stops status
  /\ (0 <= Status.confirmation_rate status <= 100)%Q
  /\ 0 <= Tally.confirmed pickups <= Tally.total pickups
  /\ 0 <= Tally.confirmed deliveries <= Tally.total deliveries
  /\ Tally.total pickups + Tally.total deliveries <= Status.total_stops status
  /\ Tally.confirmed pickups + Tally.confirmed deliveries <= Status.confirmed_stops status
  /\ Tally.pending pickups + Tally.pending deliveries <= Status.pending_stops status
  /\ (Status.ready_for_execution status = true ->
      Tally.pending pickups = 0 /\ Tally.pending deliveries = 0)
  /\ ((forall id s, db_stops w !! id = Some s ->
         RouteStop.route s = DeliveryRoute.id route ->
         RouteStop.stop_type s = "pickup"%string
         \/ RouteStop.stop_type s = "delivery"%string) ->
      Tally.total pickups + Tally.total deliveries = Status.total_stops status
      /\ Tally.confirmed pickups + Tally.confirmed deliveries
         = Status.confirmed_stops status
      /\ Tally.pending pickups + Tally.pending deliveries = Status.pending_stops status).
Proof.
  cbv zeta. unfold ConfirmationWorkflowService.check_pending_confirmations.
  cbn [Status.total_stops Status.confirmed_stops Status.pending_stops
       Status.pickup_confirmations Status.delivery_confirmations
       Status.confirmation_rate Status.ready_for_execution
       Tally.total Tally.confirmed Tally.pending].
  destruct (tallies_bounds (route_stops route w)) as (H1 & H2 & H3 & H4 & H5 & H6 & H7).
  set (total := count (route_stops route w)) in *.
  set (confirmed := count (filter_confirmed (route_stops route w))) in *.
  split; [lia|]. split; [lia|]. split.
  { destruct (0 <? total) eqn:Et; [|split; lra].
    apply Z.ltb_lt in Et.
    assert (Ht : (0 < inject_Z total)%Q)
      by (change 0%Q with (inject_Z 0); rewrite <- Zlt_Qlt; lia).
    assert (Hc : (0 <= inject_Z confirmed)%Q)
      by (change 0%Q with (inject_Z 0); rewrite <- Zle_Qle; lia).
    assert (Hct : (inject_Z confirmed <= inject_Z total)%Q) by (rewrite <- Zle_Qle; lia).
    pose proof (Qdiv_nonneg _ _ Hc Ht) as Hq.
    assert (Hq1 : (inject_Z confirmed / inject_Z total <= 1)%Q)
      by (apply Qle_shift_div_r; [exact Ht|lra]).
    change (inject_Z 100) with 100%Q. split; nra. }
  split; [lia|]. split; [lia|]. split; [lia|]. split; [lia|]. split; [lia|].
  split.
  { intros Hready. apply Z.eqb_eq in Hready. lia. }
  intros Htypes.
  assert (Hall : List.Forall
            (fun stop => RouteStop.stop_type (snd stop) = "pickup"%string
                         \/ RouteStop.stop_type (snd stop) = "delivery"%string)
            (route_stops route w)).
  { apply List.Forall_forall. intros [id s] Hin. apply route_stops_in in Hin.
    destruct Hin as [Hs Hr]. simpl. eauto. }
  specialize (H7 Hall). lia.
Qed.

(** ** Responses and the readiness report *)

Lemma status_by_counts (route : DeliveryRoute.t) (w : World) :
  ConfirmationWorkflowService.check_pending_confirmations route w
  = let total := stops_where (fun _ => true) route w in
    let confirmed := stops_where RouteStop.is_confirmed route w in
    let of_type ty :=
      stops_where (fun s => String.eqb (RouteStop.stop_type s) ty) route w in
    let confirmed_of_type ty :=
      stops_where (fun s => andb (String.eqb (RouteStop.stop_type s) ty)
                              (RouteStop.is_confirmed s)) route w in
    {| Status.route_id := DeliveryRoute.id route;
       Status.total_stops := total;
       Status.confirmed_stops := confirmed;
       Status.pending_stops := total - confirmed;
       Status.confirmation_rate :=
         if 0 <? total
         then (inject_Z confirmed / inject_Z total * inject_Z 100)%Q
         else 0%Q;
       Status.pickup_confirmations :=
         {| Tally.total := of_type "pickup"%string;
            Tally.confirmed := confirmed_of_type "pickup"%string;
            Tally.pending := of_type "pickup"%string - confirmed_of_type "pickup"%string |};
       Status.delivery_confirmations :=
         {| Tally.total := of_type "delivery"%string;
            Tally.confirmed := confirmed_of_type "delivery"%string;
            Tally.pending :=
              of_type "delivery"%string - confirmed_of_type "delivery"%string |};
       Status.ready_for_execution := total - confirmed =? 0 |}.
Proof.
  cbv zeta. unfold ConfirmationWorkflowService.check_pending_confirmations.
  unfold filter_confirmed, filter_stop_type.
  rewrite !filter_filter.
  assert (Ht : count (route_stops route w) = stops_where (fun _ => true) route w).
  { rewrite <- route_stops_count. f_equal.
    induction (route_stops route w) as [|x l IH]; simpl; [reflexivity|]. now f_equal. }
  rewrite Ht.
  rewrite !(route_stops_count RouteStop.is_confirmed).
  rewrite !(route_stops_count (fun s => String.eqb (RouteStop.stop_type s) _)).
  rewrite !(route_stops_count
              (fun s => andb (String.eqb (RouteStop.stop_type s) _) (RouteStop.is_confirmed s))).
  reflexivity.
Qed.

Lemma status_ext (route : DeliveryRoute.t) (w w' : World) :
  stops_where (fun _ => true) route w' = stops_where (fun _ => true) route w ->
  stops_where RouteStop.is_confirmed route w' = stops_where RouteStop.is_confirmed route w ->
  (forall ty,
     stops_where (fun s => String.eqb (RouteStop.stop_type s) ty) route w'
     = stops_where (fun s => String.eqb (RouteStop.stop_type s) ty) route w) ->
  (forall ty,
     stops_where (fun s => andb (String.eqb (RouteStop.stop_type s) ty)
                             (RouteStop.is_confirmed s)) route w'
     = stops_where (fun s => andb (String.eqb (RouteStop.stop_type s) ty)
                               (RouteStop.is_confirmed s)) route w) ->
  ConfirmationWorkflowService.check_pending_confirmations route w'
  = ConfirmationWorkflowService.check_pending_confirmations route w.
Proof.
  intros H1 H2 H3 H4. rewrite !status_by_counts. cbv zeta.
  now rewrite H1, H2, !H3, !H4.
Qed.

Lemma filter_length_mono {A : Type} (g h : A -> bool) (l : list A) :
  (forall x, g x = true -> h x = true) ->
  (length (List.filter g l) <= length (List.filter h l))%nat.
Proof.
  intros Hgh. induction l as [|x l IH]; simpl; [lia|].
  destruct (g x) eqn:Eg.
  - rewrite (Hgh x Eg). simpl. lia.
  - destruct (h x); simpl; lia.
Qed.

Lemma stops_where_le (f : RouteStop.t -> bool) (route : DeliveryRoute.t) (w : World) :
  stops_where f route w <= stops_where (fun _ => true) route w.
Proof.
  unfold stops_where, count. apply inj_le. apply filter_length_mono.
  intros x H. apply andb_true_iff in H. destruct H as [-> _]. reflexivity.
Qed.

Lemma stops_where_same (f : RouteStop.t -> bool) (route : DeliveryRoute.t) (w w' : World) :
  db_stops w' = db_stops w -> stops_where f route w' = stops_where f route w.
Proof. unfold stops_where. now intros ->. Qed.

(** Replacing the row of a stop moves it out of the count it was in and
    into the count it now belongs to. *)
Lemma stops_where_put (f : RouteStop.t -> bool) (route : DeliveryRoute.t) (w w' : World)
    (stop_id : Z) (s s' : RouteStop.t) :
  db_stops w !! stop_id = Some s ->
  db_stops w' = <[stop_id := s']> (db_stops w) ->
  stops_where f route w'
  = stops_where f route w
    - (if andb (RouteStop.route s =? DeliveryRoute.id route) (f s) then 1 else 0)
    + (if andb (RouteStop.route s' =? DeliveryRoute.id route) (f s') then 1 else 0).
Proof.
  intros Hs Hput. unfold stops_where, count. rewrite Hput.
  set (g := fun x : Z * RouteStop.t =>
              andb (RouteStop.route (snd x) =? DeliveryRoute.id route) (f (snd x))).
  assert (H1 : Permutation (map_to_list (<[stop_id := s']> (db_stops w)))
                 ((stop_id, s') :: map_to_list (delete stop_id (db_stops w)))).
  { rewrite <- insert_delete_eq. apply map_to_list_insert. apply lookup_delete_eq. }
  assert (H2 : Permutation (map_to_list (db_stops w))
                 ((stop_id, s) :: map_to_list (delete stop_id (db_stops w)))).
  { symmetry. now apply map_to_list_delete. }
  rewrite (filter_perm_length g _ _ H1), (filter_perm_length g _ _ H2).
  cbn [List.filter].
  change (g (stop_id, s'))
    with (andb (RouteStop.route s' =? DeliveryRoute.id route) (f s')).
  change (g (stop_id, s))
    with (andb (RouteStop.route s =? DeliveryRoute.id route) (f s)).
  fold g.
  destruct (andb (RouteStop.route s' =? DeliveryRoute.id route) (f s'));
    destruct (andb (RouteStop.route s =? DeliveryRoute.id route) (f s));
    cbn [length]; lia.
Qed.

(** What a response may do to the stop table: nothing, or replace the
    row of the stop addressed by its confirmed version (when the text
    is a confirmation) or by a version with new notes (when it is not). *)
Lemma process_stops_cases (str_exn : exn -> string) (stop_id : Z)
    (response_content : string) (w : World) :
  let w' := snd (ConfirmationWorkflowService.process_email_response str_exn stop_id
                   response_content w) in
  db_stops w' = db_stops w
  \/ exists s s',
       db_stops w !! stop_id = Some s
       /\ db_stops w' = <[stop_id := s']> (db_stops w)
       /\ ((Py.contains "confirmed" (Py.lower response_content) = true
            /\ s' = ConfirmationWorkflowService.confirm_stop s (clock w))
           \/ (Py.contains "confirmed" (Py.lower response_content) = false
               /\ exists notes, s' = ConfirmationWorkflowService.set_notes s notes)).
Proof.
  cbv zeta.
  unfold ConfirmationWorkflowService.process_email_response, try_except, get_stop.
  unfold mbind, M_bind.
  destruct (db_stops w !! stop_id) as [s|] eqn:Hs; [|now left].
  cbn [fst snd]. rewrite contains_confirmed_strip.
  destruct (Py.contains "confirmed" (Py.lower response_content)) eqn:Hc.
  - unfold timezone_now, get_world.
    destruct (db_write_cases
                (put_stop stop_id (ConfirmationWorkflowService.confirm_stop s (clock w))) w)
      as (w0 & (Hr0 & Hs0 & Hn0 & Hc0) & [-> | ->]).
    + right. exists s, (ConfirmationWorkflowService.confirm_stop s (clock w)).
      split; [reflexivity|]. split; [|left; auto].
      cbn [db_notifications put_stop].
      destruct (first_sent stop_id (db_notifications w0)) as [[i n]|].
      * match goal with |- context [db_write ?f ?x] =>
          destruct (db_write_cases f x) as (w1 & (Hr1 & Hs1 & Hn1 & Hc1) & [-> | ->])
        end; cbn in *; rewrite Hs1, Hs0; reflexivity.
      * cbn. now rewrite Hs0.
    + left. cbn. exact Hs0.
  - destruct (Py.contains "reschedule" (Py.strip (Py.lower response_content)));
      match goal with |- context [db_write ?f ?x] =>
        destruct (db_write_cases f x) as (w0 & (Hr0 & Hs0 & Hn0 & Hc0) & [-> | ->])
      end;
      try (left; cbn; exact Hs0);
      right; eexists s, _; (split; [reflexivity|]);
      (split; [cbn; rewrite Hs0; reflexivity|]); right; split; eauto.
Qed.

(** In a database without faults, a confirmation for a stop of the
    route moves exactly that stop from pending to confirmed, unless it
    was confirmed already: the total is unchanged, and the route is
    ready afterwards exactly when the stop was the only one pending (or
    none was). *)
Theorem confirmation_moves_one_stop (str_exn : exn -> string) (route : DeliveryRoute.t)
    (stop_id : Z) (response_content : string) (w : World) (s : RouteStop.t) :
  db_stops w !! stop_id = Some s ->
  db_faults w = [] ->
  Py.contains "confirmed" (Py.lower response_content) = true ->
  RouteStop.route s = DeliveryRoute.id route ->
  let before := ConfirmationWorkflowService.check_pending_confirmations route w in
  let after :=
    ConfirmationWorkflowService.check_pending_confirmations route
      (snd (ConfirmationWorkflowService.process_email_response str_exn stop_id
              response_content w)) in
  let moved := if RouteStop.is_confirmed s then 0 else 1 in
  Status.total_stops after = Status.total_stops before
  /\ Status.confirmed_stops after = Status.confirmed_stops before + moved
  /\ Status.pending_stops after = Status.pending_stops before - moved
  /\ (Status.ready_for_execution after = true <-> Status.pending_stops before = moved).
Proof.
  intros Hs Hf Hc Hroute. cbv zeta.
  rewrite (process_confirmed str_exn stop_id response_content w s Hs Hf Hc). cbn [snd].
  rewrite !status_by_counts. cbv zeta.
  cbn [Status.total_stops Status.confirmed_stops Status.pending_stops
       Status.ready_for_execution].
  pose proof (confirmed_world_stops stop_id s response_content w) as Hput.
  rewrite (stops_where_put (fun _ => true) route w _ stop_id s _ Hs Hput).
  rewrite (stops_where_put RouteStop.is_confirmed route w _ stop_id s _ Hs Hput).
  cbn [ConfirmationWorkflowService.confirm_stop RouteStop.route RouteStop.is_confirmed].
  rewrite Hroute, Z.eqb_refl. cbn [andb].
  rewrite Z.eqb_eq. destruct (RouteStop.is_confirmed s); repeat split; lia.
Qed.

Lemma confirmation_moves_one_stop_witness :
  let before :=
    ConfirmationWorkflowService.check_pending_confirmations ScenarioDb.route
      (ScenarioDb.world []) in
  let after :=
    ConfirmationWorkflowService.check_pending_confirmations ScenarioDb.route
      (snd (ConfirmationWorkflowService.process_email_response ScenarioDb.str_exn 7
              "Confirmed" (ScenarioDb.world []))) in
  let moved :=
    if RouteStop.is_confirmed (ScenarioDb.pickup_stop false "Leave at dock 4")
    then 0 else 1 in
  Status.total_stops after = Status.total_stops before
  /\ Status.confirmed_stops after = Status.confirmed_stops before + moved
  /\ Status.pending_stops after = Status.pending_stops before - moved
  /\ (Status.ready_for_execution after = true <-> Status.pending_stops before = moved).
Proof.
  apply (confirmation_moves_one_stop ScenarioDb.str_exn ScenarioDb.route 7 "Confirmed"
           (ScenarioDb.world []) (ScenarioDb.pickup_stop false "Leave at dock 4"));
    reflexivity.
Defined.

(** Whatever the stop id, the text and the database faults, a response
    never lowers the readiness of a route: the total number of stops is
    unchanged, the number of confirmed stops does not go down and goes
    up by one at most, and a route that was ready stays ready.  The
    whole report of a route is unchanged when the text is not a
    confirmation, when the stop addressed does not exist, and when it
    belongs to another route. *)
Theorem responses_never_lower_readiness (str_exn : exn -> string)
    (route : DeliveryRoute.t) (stop_id : Z) (response_content : string) (w : World) :
  let before := ConfirmationWorkflowService.check_pending_confirmations route w in
  let after :=
    ConfirmationWorkflowService.check_pending_confirmations route
      (snd (ConfirmationWorkflowService.process_email_response str_exn stop_id
              response_content w)) in
  Status.total_stops after = Status.total_stops before
  /\ Status.confirmed_stops before <= Status.confirmed_stops after
     <= Status.confirmed_stops before + 1
  /\ (Status.ready_for_execution before = true -> Status.ready_for_execution after = true)
  /\ (Py.contains "confirmed" (Py.lower response_content) = false -> after = before)
  /\ (db_stops w !! stop_id = None -> after = before)
  /\ (forall s, db_stops w !! stop_id = Some s ->
        RouteStop.route s <> DeliveryRoute.id route -> after = before).
Proof.
  cbv zeta.
  pose proof (process_stops_cases str_exn stop_id response_content w) as Hcases.
  cbv zeta in Hcases.
  set (w' := snd (ConfirmationWorkflowService.process_email_response str_exn stop_id
                    response_content w)) in *.
  destruct Hcases as [Hsame | (s & s' & Hs & Hput & Hkind)].
  { assert (E : ConfirmationWorkflowService.check_pending_confirmations route w'
                = ConfirmationWorkflowService.check_pending_confirmations route w)
      by (apply status_ext; intros; now apply stops_where_same).
    rewrite E. repeat split; auto; lia. }
  assert (Hkeep : forall f,
            andb (RouteStop.route s' =? DeliveryRoute.id route) (f s')
            = andb (RouteStop.route s =? DeliveryRoute.id route) (f s) ->
            stops_where f route w' = stops_where f route w).
  { intros f Hb. rewrite (stops_where_put f route w w' stop_id s s' Hs Hput), Hb. lia. }
  assert (Hr' : RouteStop.route s' = RouteStop.route s)
    by (destruct Hkind as [[_ ->]|[_ [notes ->]]]; reflexivity).
  assert (Hother : RouteStop.route s <> DeliveryRoute.id route ->
            ConfirmationWorkflowService.check_pending_confirmations route w'
            = ConfirmationWorkflowService.check_pending_confirmations route w).
  { intros Hne. apply Z.eqb_neq in Hne.
    apply status_ext; intros; apply Hkeep; rewrite Hr', Hne; reflexivity. }
  destruct Hkind as [[Hc ->]|[Hc [notes ->]]].
  - assert (Hlast : forall s0, db_stops w !! stop_id = Some s0 ->
              RouteStop.route s0 <> DeliveryRoute.id route ->
              ConfirmationWorkflowService.check_pending_confirmations route w'
              = ConfirmationWorkflowService.check_pending_confirmations route w)
      by (intros s0 Hs0; replace s0 with s by congruence; exact Hother).
    pose proof (stops_where_le RouteStop.is_confirmed route w') as Hle.
    pose proof (stops_where_put (fun _ => true) route w _ stop_id s _ Hs Hput) as Ht.
    pose proof (stops_where_put RouteStop.is_confirmed route w _ stop_id s _ Hs Hput) as Hn.
    cbn [ConfirmationWorkflowService.confirm_stop RouteStop.route RouteStop.is_confirmed]
      in Ht, Hn.
    split; [|split; [|split; [|split; [congruence|split; [congruence|exact Hlast]]]]].
    all: rewrite !status_by_counts; cbv zeta;
      cbn [Status.total_stops Status.confirmed_stops Status.pending_stops
           Status.ready_for_execution];
      rewrite ?Z.eqb_eq;
      destruct (RouteStop.route s =? DeliveryRoute.id route);
      destruct (RouteStop.is_confirmed s); cbn [andb] in Ht, Hn; lia.
  - assert (E : ConfirmationWorkflowService.check_pending_confirmations route w'
                = ConfirmationWorkflowService.check_pending_confirmations route w)
      by (apply status_ext; intros; apply Hkeep; reflexivity).
    rewrite E. repeat split; auto; lia.
Qed.

(** ** From a send to its confirmation *)

Lemma combine_app_same {A B : Type} (l1 l1' : list A) (l2 l2' : list B) :
  length l1 = length l2 ->
  combine (l1 ++ l1') (l2 ++ l2') = combine l1 l2 ++ combine l1' l2'.
Proof.
  revert l2. induction l1 as [|a l1 IH]; intros [|b l2] H; simpl in *;
    try discriminate; [reflexivity|].
  f_equal. apply IH. lia.
Qed.

(** [.first()] after one more row: the new row wins when it is a sent
    row of the stop and no older row beats it. *)
Lemma first_sent_app_last (stop_id : Z) (ns : list Notification.t) (n : Notification.t) :
  first_sent stop_id (ns ++ [n])
  = if sent_for stop_id n then
      match first_sent stop_id ns with
      | None => Some (length ns, n)
      | Some (j, b) =>
          if Notification.created_at b <=? Notification.created_at n
          then Some (length ns, n) else Some (j, b)
      end
    else first_sent stop_id ns.
Proof.
  unfold first_sent. rewrite length_app. simpl length.
  rewrite seq_app. simpl seq.
  rewrite combine_app_same by now rewrite length_seq.
  rewrite fold_left_app. simpl.
  destruct (sent_for stop_id n); [|reflexivity].
  match goal with |- context [fold_left ?f ?l None] => destruct (fold_left f l None) as [[j b]|] end;
    reflexivity.
Qed.

Lemma sent_then_confirmed (str_exn : exn -> string) (notification_type : string)
    (recipient : option string) (stop_id : Z) (response_content : string)
    (w w1 : World) (s : RouteStop.t) :
  send_outcome notification_type recipient stop_id w true w1 ->
  db_faults w1 = [] ->
  db_stops w !! stop_id = Some s ->
  Py.contains "confirmed" (Py.lower response_content) = true ->
  (forall m, In m (db_notifications w) -> sent_for stop_id m = true ->
     Notification.created_at m < clock w) ->
  exists n w2,
    db_notifications w1 = db_notifications w ++ [n]
    /\ Notification.is_sent n = true
    /\ Notification.response_received n = false
    /\ ConfirmationWorkflowService.process_email_response str_exn stop_id
         response_content w1
       = (Ok (ConfirmationWorkflowService.response stop_id true (Some "confirmed"%string)
                "Pickup/delivery confirmed successfully"), w2)
    /\ db_notifications w2
       = db_notifications w
         ++ [ConfirmationWorkflowService.record_response n response_content]
    /\ db_stops w2
       = <[stop_id := ConfirmationWorkflowService.confirm_stop s (clock w)]> (db_stops w).
Proof.
  intros (Hr & Hst & Hcl & new & Hn & Hlen & Hne & Hall) Hf Hs Hc Hold.
  destruct new as [|n [|n' new]]; [now destruct Hne| |simpl in Hlen; lia].
  destruct (Hall n (or_introl eq_refl)) as (_ & _ & Hstop & Hsent & _ & Hcreated & Hresp).
  assert (Hs1 : db_stops w1 !! stop_id = Some s) by now rewrite Hst.
  exists n, (confirmed_world stop_id s response_content w1).
  split; [exact Hn|]. split; [exact Hsent|]. split; [exact Hresp|].
  split; [now apply process_confirmed|].
  assert (Hfirst : first_sent stop_id (db_notifications w1)
                   = Some (length (db_notifications w), n)).
  { rewrite Hn, first_sent_app_last.
    unfold sent_for at 1. rewrite Hstop, Hsent, Z.eqb_refl. cbn [andb].
    destruct (first_sent stop_id (db_notifications w)) as [[j b]|] eqn:E; [|reflexivity].
    destruct (first_sent_spec stop_id _ j b E) as (Hj & Hb & _).
    assert (Hin : In b (db_notifications w)).
    { apply list_elem_of_In. eapply list_elem_of_lookup_2. exact Hj. }
    specialize (Hold b Hin Hb).
    assert (Hle : (Notification.created_at b <=? Notification.created_at n) = true)
      by (apply Z.leb_le; lia).
    now rewrite Hle. }
  unfold confirmed_world. rewrite Hfirst. cbn [db_notifications db_stops put_notification
                                               put_stop].
  rewrite Hn, insert_last, Hst, Hcl. split; reflexivity.
Qed.

(** A confirmation request that was sent, followed by its answer.  In a
    database without faults, when the send for a stop of the table
    succeeds and every older sent notification of the stop was created
    before now, the send adds one sent row, and a confirming response
    for the stop is recorded on that very row, the rows that were there
    before being left alone, while the stop becomes confirmed.  This
    holds for a pickup stop and for a delivery stop. *)
Theorem send_then_confirm_round_trip (str_date : Z -> string) (str_exn : exn -> string)
    (pickup_email delivery_email : World -> Z * RouteStop.t -> result string)
    (pickup : bool) (stop : Z * RouteStop.t) (response_content : string) (w : World) :
  let send :=
    if pickup
    then ConfirmationWorkflowService._send_pickup_confirmation str_date pickup_email
    else ConfirmationWorkflowService._send_delivery_confirmation str_date delivery_email in
  db_stops w !! fst stop = Some (snd stop) ->
  db_faults w = [] ->
  fst (send stop w) = Ok true ->
  (forall m, In m (db_notifications w) -> sent_for (fst stop) m = true ->
     Notification.created_at m < clock w) ->
  Py.contains "confirmed" (Py.lower response_content) = true ->
  exists n w2,
    db_notifications (snd (send stop w)) = db_notifications w ++ [n]
    /\ Notification.is_sent n = true
    /\ Notification.response_received n = false
    /\ ConfirmationWorkflowService.process_email_response str_exn (fst stop)
         response_content (snd (send stop w))
       = (Ok (ConfirmationWorkflowService.response (fst stop) true
                (Some "confirmed"%string) "Pickup/delivery confirmed successfully"), w2)
    /\ db_notifications w2
       = db_notifications w
         ++ [ConfirmationWorkflowService.record_response n response_content]
    /\ db_stops w2
       = <[fst stop := ConfirmationWorkflowService.confirm_stop (snd stop) (clock w)]>
           (db_stops w).
Proof.
  cbv zeta. intros Hs Hf Htrue Hold Hc.
  destruct pickup.
  - destruct (confirmation_send_generic str_date "pickup_confirmation"
                "Pickup Confirmation Required - "
                (option_map GroceryStore.email (RouteStop.grocery_store (snd stop)))
                pickup_email stop w) as (b & w1 & E & H1 & _ & _ & Hf1).
    assert (Hrun : ConfirmationWorkflowService._send_pickup_confirmation str_date
                     pickup_email stop w = (Ok b, w1)).
    { unfold ConfirmationWorkflowService._send_pickup_confirmation.
      destruct (RouteStop.grocery_store (snd stop)); exact E. }
    rewrite Hrun in *. cbn [fst snd] in *. injection Htrue as ->.
    exact (sent_then_confirmed str_exn _ _ (fst stop) response_content w w1 (snd stop)
             H1 (Hf1 Hf) Hs Hc Hold).
  - destruct (confirmation_send_generic str_date "delivery_confirmation"
                "Delivery Schedule Confirmation - "
                (option_map FoodBank.email (RouteStop.food_bank (snd stop)))
                delivery_email stop w) as (b & w1 & E & H1 & _ & _ & Hf1).
    assert (Hrun : ConfirmationWorkflowService._send_delivery_confirmation str_date
                     delivery_email stop w = (Ok b, w1)).
    { unfold ConfirmationWorkflowService._send_delivery_confirmation.
      destruct (RouteStop.food_bank (snd stop)); exact E. }
    rewrite Hrun in *. cbn [fst snd] in *. injection Htrue as ->.
    exact (sent_then_confirmed str_exn _ _ (fst stop) response_content w w1 (snd stop)
             H1 (Hf1 Hf) Hs Hc Hold).
Qed.

Lemma send_then_confirm_round_trip_witness :
  exists n w2,
    db_notifications
      (snd (ConfirmationWorkflowService._send_pickup_confirmation ScenarioDb.str_date
              ScenarioDb.email_body (7, ScenarioDb.pickup_stop false "Leave at dock 4")
              (ScenarioDb.world [])))
    = db_notifications (ScenarioDb.world []) ++ [n]
    /\ Notification.is_sent n = true
    /\ Notification.response_received n = false
    /\ ConfirmationWorkflowService.process_email_response ScenarioDb.str_exn 7
         "Confirmed, thank you"
         (snd (ConfirmationWorkflowService._send_pickup_confirmation ScenarioDb.str_date
                 ScenarioDb.email_body (7, ScenarioDb.pickup_stop false "Leave at dock 4")
                 (ScenarioDb.world [])))
       = (Ok (ConfirmationWorkflowService.response 7 true
                (Some "confirmed"%string) "Pickup/delivery confirmed successfully"), w2)
    /\ db_notifications w2
       = db_notifications (ScenarioDb.world [])
         ++ [ConfirmationWorkflowService.record_response n "Confirmed, thank you"]
    /\ db_stops w2
       = <[7 := ConfirmationWorkflowService.confirm_stop
                  (ScenarioDb.pickup_stop false "Leave at dock 4")
                  (clock (ScenarioDb.world []))]>
           (db_stops (ScenarioDb.world [])).
Proof.
  apply (send_then_confirm_round_trip ScenarioDb.str_date ScenarioDb.str_exn
           ScenarioDb.email_body ScenarioDb.email_body true
           (7, ScenarioDb.pickup_stop false "Leave at dock 4") "Confirmed, thank you"
           (ScenarioDb.world [])).
  - reflexivity.
  - reflexivity.
  - reflexivity.
  - intros m [<-|[<-|[]]] _; reflexivity.
  - reflexivity.
Defined.


